(** * EDA dashboard (Flask + pandas): the transform of [app.py] and its HTTP boundary

    The development embeds [src/app.py].  The program is a sequence of calls
    into pandas, matplotlib, SQLAlchemy, [os] and Flask; each library is
    modelled in a module named after the alias the program imports it under
    ([pd], [plt], [os], ...), and [create_visualizations] and [index] are
    then transcribed statement by statement in a small state-and-exception
    monad.

    What the library models cover:
    - a [DataFrame] is its list of column labels and its list of rows; cells
      are integers, strings or the missing value [NA];
    - [pd.merge] is the left join on one key with pandas's default suffixes
      [_x]/[_y]; pandas's refusal to merge key columns of incompatible dtypes
      is not modelled (cells are compared by equality, and, as pandas does,
      a missing key matches a missing key);
    - [value_counts] drops missing values, counts in order of first
      appearance and sorts by decreasing count; the sort is the one of the
      installed pandas, of which only that much is known: the order it gives
      to equal counts is a parameter ([pd.Library]);
    - whether the chained in-place [fillna] of step 7 reaches the frame
      depends on the installed pandas as well (copy-on-write), and is the
      other parameter of [pd.Library];
    - pyplot keeps the figures that are open, the current one first;
    - the file system holds, for a written image, the logical content of the
      chart rather than PNG bytes. *)

From Stdlib Require Import String Ascii ZArith List Bool Lia Permutation Sorted.
From Stdlib Require Import DecimalString.
From stdpp Require Import gmap strings list.
Import ListNotations.
Local Open Scope string_scope.
Local Open Scope list_scope.
Local Open Scope nat_scope.

(** ** Python values: exceptions, [repr], [str] *)

Module py.

(** An exception as the handler of [create_visualizations] observes it:
    [type(e).__name__] and [str(e)]. *)
Record exn := Exn { type_name : string; str : string }.

Definition dquote : string := String (ascii_of_nat 34) EmptyString.
Definition squote : string := String (ascii_of_nat 39) EmptyString.
Definition backslash : string := String (ascii_of_nat 92) EmptyString.
Definition newline : string := String (ascii_of_nat 10) EmptyString.

Fixpoint contains_char (c : ascii) (s : string) : bool :=
  match s with
  | EmptyString => false
  | String a s' => Ascii.eqb a c || contains_char c s'
  end.

Definition hex_digit (n : nat) : ascii :=
  if n <? 10 then ascii_of_nat (48 + n) else ascii_of_nat (87 + n).

(** One character of [repr(s)], [q] being the quote chosen for the
    whole string. *)
Definition repr_char (q : ascii) (a : ascii) : string :=
  let n := nat_of_ascii a in
  if Ascii.eqb a q then backslash +:+ String a EmptyString
  else if n =? 92 then backslash +:+ backslash
  else if n =? 9 then backslash +:+ "t"
  else if n =? 10 then backslash +:+ "n"
  else if n =? 13 then backslash +:+ "r"
  else if (n <? 32) || (n =? 127)
       then backslash +:+ "x" +:+ String (hex_digit (n / 16)) (String (hex_digit (n mod 16)) EmptyString)
  else String a EmptyString.

Fixpoint repr_body (q : ascii) (s : string) : string :=
  match s with
  | EmptyString => EmptyString
  | String a s' => repr_char q a +:+ repr_body q s'
  end.

(** [repr] of a [str]: double quotes when the text has a single quote and
    no double quote, single quotes otherwise. *)
Definition repr (s : string) : string :=
  if contains_char (ascii_of_nat 39) s && negb (contains_char (ascii_of_nat 34) s)
  then dquote +:+ repr_body (ascii_of_nat 34) s +:+ dquote
  else squote +:+ repr_body (ascii_of_nat 39) s +:+ squote.

Fixpoint join (sep : string) (l : list string) : string :=
  match l with
  | [] => EmptyString
  | [x] => x
  | x :: l' => x +:+ sep +:+ join sep l'
  end.

(** [str] of a list of [str]. *)
Definition str_list (l : list string) : string :=
  "[" +:+ join ", " (map repr l) +:+ "]".

(** [str] of a non-negative [int]. *)
Definition str_nat (n : nat) : string :=
  NilEmpty.string_of_uint (Nat.to_uint n).

(** [sub in s] *)
Definition contains (sub s : string) : bool :=
  match String.index 0 sub s with
  | Some _ => true
  | None => false
  end.

(** [KeyError(arg)]: its [str] is the [repr] of the argument. *)
Definition KeyError (arg : string) : exn := Exn "KeyError" (repr arg).

End py.

(** ** pandas *)

Module pd.

Inductive value :=
| NA
| VInt (z : Z)
| VStr (s : string).

Definition value_eqb (a b : value) : bool :=
  match a, b with
  | NA, NA => true
  | VInt x, VInt y => Z.eqb x y
  | VStr x, VStr y => String.eqb x y
  | _, _ => false
  end.

Definition isna (v : value) : bool :=
  match v with NA => true | _ => false end.

Definition notna (v : value) : bool := negb (isna v).

Record DataFrame := { columns : list string; rows : list (list value) }.

(** [len(df)] *)
Definition len (df : DataFrame) : nat := length (rows df).

(** [c in df.columns] *)
Definition has_column (c : string) (df : DataFrame) : bool :=
  existsb (String.eqb c) (columns df).

(** [df.rename(columns={old: new}, inplace=True)] *)
Definition rename (old new : string) (df : DataFrame) : DataFrame :=
  {| columns := map (fun c => if String.eqb c old then new else c) (columns df);
     rows := rows df |}.

(** The cell of row [r] under label [c]; [NA] when the row has none. *)
Definition cell (c : string) (cols : list string) (r : list value) : value :=
  match find (fun p => String.eqb (fst p) c) (combine cols r) with
  | Some p => snd p
  | None => NA
  end.

(** [df[c]]: the column as a list of cells, [KeyError] when absent. *)
Definition column (c : string) (df : DataFrame) : py.exn + list value :=
  if has_column c df
  then inr (map (cell c (columns df)) (rows df))
  else inl (py.KeyError c).

(** A frame as [read_sql] returns it from a table: distinct column
    labels, and every row has one cell per column. *)
Definition distinctb (l : list string) : bool :=
  (fix go (seen l : list string) : bool :=
     match l with
     | [] => true
     | c :: l' => negb (existsb (String.eqb c) seen) && go (c :: seen) l'
     end) [] l.

Definition well_formed (df : DataFrame) : bool :=
  distinctb (columns df)
  && forallb (fun r => length r =? length (columns df)) (rows df).

(** *** [pd.merge(left, right, on=key, how='left')] *)

(** Labels other than the key that both frames carry get a suffix. *)
Definition overlaps (on : string) (lcols rcols : list string) (c : string) : bool :=
  negb (String.eqb c on)
  && existsb (String.eqb c) lcols && existsb (String.eqb c) rcols.

Definition suffixed (on : string) (lcols rcols : list string) (sfx c : string) : string :=
  if overlaps on lcols rcols c then c +:+ sfx else c.

Definition not_key (on : string) (c : string) : bool := negb (String.eqb c on).

(** The right row without its key cell. *)
Definition drop_key (on : string) (cols : list string) (r : list value) : list value :=
  map snd (List.filter (fun p => not_key on (fst p)) (combine cols r)).

Definition merged_columns (on : string) (lcols rcols : list string) : list string * list string :=
  (map (suffixed on lcols rcols "_x") lcols,
   map (suffixed on lcols rcols "_y") (List.filter (not_key on) rcols)).

(** The rows one left row contributes: one per matching right row, in the
    right frame's order, or itself padded with [NA] when none matches. *)
Definition join_row (on : string) (left right : DataFrame) (width : nat)
    (l : list value) : list (list value) :=
  let k := cell on (columns left) l in
  match List.filter (fun r => value_eqb (cell on (columns right) r) k) (rows right) with
  | [] => [l ++ repeat NA width]
  | ms => map (fun r => l ++ drop_key on (columns right) r) ms
  end.

Definition MergeError (dups : list string) : py.exn :=
  py.Exn "MergeError"
    ("Passing 'suffixes' which cause duplicate columns {"
       +:+ py.join ", " (map py.repr dups) +:+ "} is not allowed.").

(** Labels that occur a second time inside one side.  The labels of a
    table are distinct, so that on such frames every repetition is one the
    suffixes made, which is what pandas refuses. *)
Fixpoint duplicated (seen : list string) (l : list string) : list string :=
  match l with
  | [] => []
  | c :: l' =>
      if existsb (String.eqb c) seen then c :: duplicated seen l'
      else duplicated (c :: seen) l'
  end.

Definition merge (left right : DataFrame) (on : string) : py.exn + DataFrame :=
  if has_column on left && has_column on right then
    let '(lcols, rcols) := merged_columns on (columns left) (columns right) in
    match duplicated [] lcols ++ duplicated [] rcols with
    | [] =>
        inr {| columns := lcols ++ rcols;
               rows := flat_map (join_row on left right (length rcols)) (rows left) |}
    | dups => inl (MergeError dups)
    end
  else inl (py.KeyError on).

(** *** [Series.value_counts()] *)

(** A counted series: index labels with their counts, in order. *)
Definition Series := list (value * nat).

Fixpoint count_value (v : value) (acc : Series) : Series :=
  match acc with
  | [] => [(v, 1)]
  | (u, n) :: acc' =>
      if value_eqb u v then (u, S n) :: acc' else (u, n) :: count_value v acc'
  end.

(** Counts in order of first appearance, missing values dropped. *)
Definition tally (vs : list value) : Series :=
  fold_left (fun acc v => if isna v then acc else count_value v acc) vs [].

(** *** What the installed pandas decides *)

(** The program pins no version of pandas, and two things it relies on
    differ between versions and are not fixed by the program:
    - [copy_on_write]: whether a column selected from a frame is a copy
      (the default from pandas 3.0 on) or shares the frame's data (the
      default before);
    - [sort_values]: [Series.sort_values(ascending=False)] as
      [value_counts] calls it, with the default sorting algorithm
      (quicksort), which does not promise an order among equal counts. *)
Record Library := {
  copy_on_write : bool;
  sort_values : Series -> Series
}.

(** What is known of [sort_values] whatever the version: the entries are
    kept, and the counts decrease. *)
Definition admissible (lib : Library) : Prop :=
  forall s : Series,
    Permutation s (sort_values lib s)
    /\ StronglySorted (fun p q => snd q <= snd p) (sort_values lib s).

Definition value_counts (lib : Library) (vs : list value) : Series :=
  sort_values lib (tally vs).

(** [df[c].fillna(v, inplace=True)] on the frame [df]: [df[c]] selects the
    column, and the fill acts on what was selected.  Without copy-on-write
    the selection shares the frame's data and the missing cells of the
    frame's column [c] take the value [v]; with copy-on-write the selection
    is a copy, and the frame stays as it is.  A missing column raises
    either way. *)
Definition fillna (lib : Library) (c : string) (v : value) (df : DataFrame)
    : py.exn + DataFrame :=
  if has_column c df then
    if copy_on_write lib then inr df
    else
      inr {| columns := columns df;
             rows := map (fun r =>
                       map (fun p => if String.eqb (fst p) c && isna (snd p) then v else snd p)
                           (combine (columns df) r)) (rows df) |}
  else inl (py.KeyError c).

(** Two sorts that [admissible] allows: by insertion from the back, a new
    entry going in front of the entries with the same count (the order of
    equal counts is kept), or behind them (it is reversed). *)
Fixpoint insert_desc (p : value * nat) (l : Series) : Series :=
  match l with
  | [] => [p]
  | q :: l' => if snd p <? snd q then q :: insert_desc p l' else p :: q :: l'
  end.

Definition sort_desc (s : Series) : Series := fold_right insert_desc [] s.

Fixpoint insert_behind (p : value * nat) (l : Series) : Series :=
  match l with
  | [] => [p]
  | q :: l' => if snd q <? snd p then p :: q :: l' else q :: insert_behind p l'
  end.

Definition sort_desc_reversing (s : Series) : Series := fold_right insert_behind [] s.

Definition total (s : Series) : nat := list_sum (map snd s).
Definition labels (s : Series) : list value := map fst s.

End pd.

(** ** The file system seen through [os] *)

Module os.

(** An absolute path, as the list of its components. *)
Definition path := list string.

Definition path_str (p : path) : string :=
  match p with
  | [] => "/"
  | _ => fold_right (fun c acc => "/" +:+ c +:+ acc) EmptyString p
  end.

(** [os.path.join(dir, name)] for a plain file name. *)
Definition path_join (dir : path) (name : string) : path := dir ++ [name].

(** [os.path.dirname] *)
Definition dirname (p : path) : path := removelast p.

Inductive node (A : Type) :=
| Dir
| File (content : A).
Arguments Dir {A}.
Arguments File {A} content.

(** What exists, and whether the process may create and write entries. *)
Record FileSystem (A : Type) := { nodes : gmap path (node A); writable : bool }.
Arguments nodes {A} _.
Arguments writable {A} _.

Definition errno (n : nat) (what : string) (p : path) : string :=
  "[Errno " +:+ py.str_nat n +:+ "] " +:+ what +:+ ": " +:+ py.repr (path_str p).

Definition PermissionError (p : path) : py.exn :=
  py.Exn "PermissionError" (errno 13 "Permission denied" p).
Definition FileNotFoundError (p : path) : py.exn :=
  py.Exn "FileNotFoundError" (errno 2 "No such file or directory" p).
Definition NotADirectoryError (p : path) : py.exn :=
  py.Exn "NotADirectoryError" (errno 20 "Not a directory" p).
Definition IsADirectoryError (p : path) : py.exn :=
  py.Exn "IsADirectoryError" (errno 21 "Is a directory" p).

(** [os.path.exists(p)] *)
Definition path_exists {A} (p : path) (fs : FileSystem A) : bool :=
  match nodes fs !! p with Some _ => true | None => false end.

(** [os.makedirs(p)] on a path that does not exist yet. *)
Definition makedirs {A} (p : path) (fs : FileSystem A) : py.exn + FileSystem A :=
  if writable fs
  then inr {| nodes := <[p := Dir]> (nodes fs); writable := writable fs |}
  else inl (PermissionError p).

(** Opening [p] for writing and storing [content] in it. *)
Definition write_file {A} (p : path) (content : A) (fs : FileSystem A)
    : py.exn + FileSystem A :=
  match nodes fs !! dirname p with
  | None => inl (FileNotFoundError p)
  | Some (File _) => inl (NotADirectoryError p)
  | Some Dir =>
      match nodes fs !! p with
      | Some Dir => inl (IsADirectoryError p)
      | _ =>
          if writable fs
          then inr {| nodes := <[p := File content]> (nodes fs); writable := writable fs |}
          else inl (PermissionError p)
      end
  end.

End os.

(** ** Figures, program state and the monad of the program *)

Inductive chart_kind := Bar | Pie.

(** The logical content of a figure: what is drawn and how it is labelled. *)
Record figure := {
  kind : option chart_kind;
  data : pd.Series;
  title : string;
  xlabel : string;
  ylabel : string
}.

Definition blank_figure : figure :=
  {| kind := None; data := []; title := ""; xlabel := ""; ylabel := "" |}.

(** Standard output (one entry per [print]), the file system, and the
    figures pyplot holds open, the current one first. *)
Record State := {
  stdout : list string;
  fs : os.FileSystem figure;
  figures : list figure
}.

(** pyplot's current figure, if a figure is open. *)
Definition gcf (s : State) : option figure := head (figures s).

(** A computation either raises or returns, and leaves a state. *)
Definition M (A : Type) : Type := State -> (py.exn + A) * State.

#[global] Instance M_ret : MRet M := fun A (a : A) s => (inr a, s).

#[global] Instance M_bind : MBind M := fun A B (f : A -> M B) (m : M A) s =>
  match m s with
  | (inl e, s') => (inl e, s')
  | (inr a, s') => f a s'
  end.

Definition raise {A} (e : py.exn) : M A := fun s => (inl e, s).

(** A library call whose outcome does not depend on the state. *)
Definition call {A} (r : py.exn + A) : M A := fun s => (r, s).

(** [try: body  except Exception as e: handler] *)
Definition try_except {A} (body : M A) (handler : py.exn -> M A) : M A := fun s =>
  match body s with
  | (inl e, s') => handler e s'
  | (inr a, s') => (inr a, s')
  end.

(** [try: body  finally: cleanup] *)
Definition try_finally {A} (body : M A) (cleanup : M unit) : M A := fun s =>
  let '(r, s') := body s in
  match cleanup s' with
  | (inl e, s'') => (inl e, s'')
  | (inr _, s'') => (r, s'')
  end.

Definition print (line : string) : M unit := fun s =>
  (inr tt, {| stdout := stdout s ++ [line]; fs := fs s; figures := figures s |}).

Definition with_fs {A} (f : os.FileSystem figure -> py.exn + (A * os.FileSystem figure)) : M A :=
  fun s =>
    match f (fs s) with
    | inl e => (inl e, s)
    | inr (a, fs') => (inr a, {| stdout := stdout s; fs := fs'; figures := figures s |})
    end.

Definition os_path_exists (p : os.path) : M bool :=
  with_fs (fun fs => inr (os.path_exists p fs, fs)).

Definition os_makedirs (p : os.path) : M unit :=
  with_fs (fun fs => match os.makedirs p fs with
                     | inl e => inl e
                     | inr fs' => inr (tt, fs')
                     end).

(** ** matplotlib.pyplot *)

Module plt.

(** [plt.gcf()]: the open figures once a current figure is asked for; a
    blank one is opened when none is. *)
Definition current (figs : list figure) : list figure :=
  match figs with
  | [] => [blank_figure]
  | _ => figs
  end.

(** A call that draws on, or labels, the current figure. *)
Definition update (f : figure -> figure) : M unit := fun s =>
  (inr tt, {| stdout := stdout s; fs := fs s;
              figures := match figures s with
                         | [] => [f blank_figure]
                         | g :: rest => f g :: rest
                         end |}).

(** [plt.figure(figsize=...)]: a new, blank figure is opened and becomes
    the current one; the figures that were open stay open. *)
Definition new_figure : M unit := fun s =>
  (inr tt, {| stdout := stdout s; fs := fs s; figures := blank_figure :: figures s |}).

Definition draw (k : chart_kind) (d : pd.Series) : M unit :=
  update (fun g => {| kind := Some k; data := d; title := title g;
                      xlabel := xlabel g; ylabel := ylabel g |}).

Definition set_title (t : string) : M unit :=
  update (fun g => {| kind := kind g; data := data g; title := t;
                      xlabel := xlabel g; ylabel := ylabel g |}).

Definition set_xlabel (t : string) : M unit :=
  update (fun g => {| kind := kind g; data := data g; title := title g;
                      xlabel := t; ylabel := ylabel g |}).

Definition set_ylabel (t : string) : M unit :=
  update (fun g => {| kind := kind g; data := data g; title := title g;
                      xlabel := xlabel g; ylabel := t |}).

(** [plt.savefig(p)]: the current figure is written to [p]. *)
Definition savefig (p : os.path) : M unit := fun s =>
  let figs := current (figures s) in
  match os.write_file p (hd blank_figure figs) (fs s) with
  | inl e => (inl e, {| stdout := stdout s; fs := fs s; figures := figs |})
  | inr fs' => (inr tt, {| stdout := stdout s; fs := fs'; figures := figs |})
  end.

(** [plt.close()]: the current figure is closed, and only that one; the
    figure opened before it, if any, is current again. *)
Definition close : M unit := fun s =>
  (inr tt, {| stdout := stdout s; fs := fs s; figures := tl (figures s) |}).

End plt.

(** ** The environment of one request *)

(** What the world outside the program answers: where the script lives,
    which pandas is installed, what SQLAlchemy and the database return, and
    whether matplotlib accepts a style and draws a given series. *)
Record Env := {
  app_dir : os.path;
  pandas : pd.Library;
  create_engine : string -> py.exn + unit;
  read_sql : string -> py.exn + pd.DataFrame;
  style_use : string -> option py.exn;
  plot_bar : pd.Series -> option py.exn;
  plot_pie : pd.Series -> option py.exn
}.

Definition check (r : option py.exn) : M unit :=
  match r with
  | Some e => raise e
  | None => mret tt
  end.

(** ** Flask *)

Module flask.

Record response := { body : string; status : nat }.

Definition lookup (k : string) (ctx : list (string * string)) : string :=
  match find (fun p => String.eqb (fst p) k) ctx with
  | Some p => snd p
  | None => ""
  end.

(** Modelled from the spec: the template [templates/index.html], which is
    not among the sources.  The spec has the page be an HTML document that
    references the two generated image files by file name so that a
    browser fetches them as static assets; the model is the smallest such
    document, with one [img] element per context variable. *)
Definition index_html (ctx : list (string * string)) : string :=
  "<!DOCTYPE html><html><body>"
    +:+ "<img src='static/" +:+ lookup "plot1" ctx +:+ "'>"
    +:+ "<img src='static/" +:+ lookup "plot2" ctx +:+ "'>"
    +:+ "</body></html>".

Definition TemplateNotFound (name : string) : py.exn :=
  py.Exn "TemplateNotFound" name.

Definition render_template (name : string) (ctx : list (string * string)) : M string :=
  if String.eqb name "index.html" then mret (index_html ctx)
  else raise (TemplateNotFound name).

End flask.

(** ** The application: [app.py] *)

Record db_config := { host : string; user : string; password : string; db : string }.

Definition DB_CONFIG : db_config :=
  {| host := "localhost"; user := "root";
     password := "type-your-password"; db := "your-database" |}.

Definition connection_string : string :=
  "mysql+pymysql://" +:+ user DB_CONFIG +:+ ":" +:+ password DB_CONFIG
    +:+ "@" +:+ host DB_CONFIG +:+ "/" +:+ db DB_CONFIG.

(** Step 3 of the program: the identifier column of a table takes the name
    under which the other table refers to it, unless that name is taken. *)
Definition normalize_departments (departments_df : pd.DataFrame) : pd.DataFrame :=
  if pd.has_column "id" departments_df && negb (pd.has_column "department_id" departments_df)
  then pd.rename "id" "department_id" departments_df
  else departments_df.

Definition normalize_employees (employees_df : pd.DataFrame) : pd.DataFrame :=
  if pd.has_column "id" employees_df && negb (pd.has_column "employee_id" employees_df)
  then pd.rename "id" "employee_id" employees_df
  else employees_df.

Definition department_name_not_found : py.exn :=
  py.KeyError "Column 'department_name' not found. Please check your 'departments' table.".

(** The guard and the aggregation of step 6. *)
Definition count_departments (lib : pd.Library) (emp_dept_df : pd.DataFrame)
    : py.exn + pd.Series :=
  if negb (pd.has_column "department_name" emp_dept_df)
  then inl department_name_not_found
  else match pd.column "department_name" emp_dept_df with
       | inl e => inl e
       | inr names => inr (pd.value_counts lib names)
       end.

(** The second join, the fill and the aggregation of step 7. *)
Definition count_projects (lib : pd.Library) (projects_df emp_dept_df : pd.DataFrame)
    : py.exn + pd.Series :=
  match pd.merge projects_df emp_dept_df "employee_id" with
  | inl e => inl e
  | inr full_df =>
      match pd.fillna lib "department_name" (pd.VStr "Unknown") full_df with
      | inl e => inl e
      | inr full_df =>
          match pd.column "department_name" full_df with
          | inl e => inl e
          | inr names => inr (pd.value_counts lib names)
          end
      end
  end.

Definition plot1_name : string := "employees_per_department.png".
Definition plot2_name : string := "projects_by_department.png".

(** The body of the [try] block.  Calls that change neither the data of
    a figure nor its labels (figure size, colours, tick rotation,
    [tight_layout], [axis('equal')]) are left out; [plot_bar] and
    [plot_pie] of the environment say whether matplotlib draws the
    series. *)
Definition visualize (env : Env) (static_dir : os.path) : M bool :=
  print "Connecting to the database using SQLAlchemy...";;
  engine ← call (create_engine env connection_string);
  print "Connection successful.";;
  print "Fetching data from tables...";;
  employees_df ← call (read_sql env "SELECT * FROM employees");
  departments_df ← call (read_sql env "SELECT * FROM departments");
  projects_df ← call (read_sql env "SELECT * FROM project_assignments");
  print ("Loaded " +:+ py.str_nat (pd.len employees_df) +:+ " employees, "
           +:+ py.str_nat (pd.len departments_df) +:+ " departments, and "
           +:+ py.str_nat (pd.len projects_df) +:+ " project assignments.");;
  let departments_df := normalize_departments departments_df in
  let employees_df := normalize_employees employees_df in
  print (py.newline +:+ "--- Columns after cleaning ---");;
  print ("Employees Columns: " +:+ py.str_list (pd.columns employees_df));;
  print ("Departments Columns: " +:+ py.str_list (pd.columns departments_df));;
  print ("Projects Columns: " +:+ py.str_list (pd.columns projects_df));;
  print ("----------------------------" +:+ py.newline);;
  emp_dept_df ← call (pd.merge employees_df departments_df "department_id");
  print "Creating Visualization 1: Employees per Department...";;
  check (style_use env "seaborn-v0_8-talk");;
  dept_counts ← call (count_departments (pandas env) emp_dept_df);
  plt.new_figure;;
  check (plot_bar env dept_counts);;
  plt.draw Bar dept_counts;;
  plt.set_title "Number of Employees per Department";;
  plt.set_xlabel "Department";;
  plt.set_ylabel "Number of Employees";;
  let plot1_path := os.path_join static_dir plot1_name in
  plt.savefig plot1_path;;
  plt.close;;
  print ("Saved plot to " +:+ os.path_str plot1_path);;
  print "Creating Visualization 2: Project Distribution by Department...";;
  project_dept_counts ← call (count_projects (pandas env) projects_df emp_dept_df);
  plt.new_figure;;
  check (plot_pie env project_dept_counts);;
  plt.draw Pie project_dept_counts;;
  plt.set_title "Project Distribution by Department";;
  let plot2_path := os.path_join static_dir plot2_name in
  plt.savefig plot2_path;;
  plt.close;;
  print ("Saved plot to " +:+ os.path_str plot2_path);;
  mret true.

(** The [except Exception as e] block. *)
Definition report (e : py.exn) : M bool :=
  print (py.newline +:+ "--- AN ERROR OCCURRED ---");;
  print ("Error Type: " +:+ py.type_name e);;
  print ("Error Details: " +:+ py.str e);;
  print (py.newline +:+ "This is likely due to a column name mismatch or a database connection issue.");;
  print "Please check the 'Columns after cleaning' output above and your DB_CONFIG settings.";;
  print ("-------------------------" +:+ py.newline);;
  mret false.

Definition create_visualizations (env : Env) : M bool :=
  let static_dir := os.path_join (app_dir env) "static" in
  present ← os_path_exists static_dir;
  (if negb present then os_makedirs static_dir else mret tt);;
  try_finally
    (try_except (visualize env static_dir) report)
    (print "Script finished processing request.").

Definition error_page : string :=
  "<h1>Error Generating Visualizations</h1><p>Please check the console output in VS Code for more details on the error.</p>".

(** The view of the route [/]. *)
Definition index (env : Env) : M flask.response :=
  success ← create_visualizations env;
  if success : bool
  then (page ← flask.render_template "index.html"
                 [("plot1", plot1_name); ("plot2", plot2_name)];
        mret {| flask.body := page; flask.status := 200 |})
  else mret {| flask.body := error_page; flask.status := 500 |}.

(** ** The two aggregations as functions of the three tables *)

(** Steps 3, 5 and 6 on the tables as loaded: the joined
    employee-department view and the employee count per department. *)
Definition employee_counts (lib : pd.Library) (employees_df departments_df : pd.DataFrame)
    : py.exn + (pd.DataFrame * pd.Series) :=
  match pd.merge (normalize_employees employees_df)
                 (normalize_departments departments_df) "department_id" with
  | inl e => inl e
  | inr emp_dept_df =>
      match count_departments lib emp_dept_df with
      | inl e => inl e
      | inr dept_counts => inr (emp_dept_df, dept_counts)
      end
  end.

(** Steps 3 and 5 to 7: both aggregations. *)
Definition transform (lib : pd.Library)
    (employees_df departments_df projects_df : pd.DataFrame)
    : py.exn + (pd.Series * pd.Series) :=
  match employee_counts lib employees_df departments_df with
  | inl e => inl e
  | inr (emp_dept_df, dept_counts) =>
      match count_projects lib projects_df emp_dept_df with
      | inl e => inl e
      | inr project_dept_counts => inr (dept_counts, project_dept_counts)
      end
  end.

(** ** Reading a series and a list of cells *)

(** Where [v] first occurs in [l] (the length of [l] when it does not). *)
Fixpoint position (v : pd.value) (l : list pd.value) : nat :=
  match l with
  | [] => 0
  | u :: l' => if pd.value_eqb u v then 0 else S (position v l')
  end.

(** The count a series holds under label [v] (0 when it has no such label). *)
Definition count_of (v : pd.value) (s : pd.Series) : nat :=
  list_sum (map snd (List.filter (fun p => pd.value_eqb (fst p) v) s)).

(** The number of cells equal to [v]. *)
Definition occurrences (v : pd.value) (l : list pd.value) : nat :=
  length (List.filter (pd.value_eqb v) l).

(** The cells that row [l] of the left frame receives under label [c] of
    the right frame in a left join on [on]: one per matching right row, or
    a single missing value. *)
Definition matching (on : string) (left right : pd.DataFrame) (l : list pd.value)
    : list (list pd.value) :=
  List.filter
    (fun r => pd.value_eqb (pd.cell on (pd.columns right) r) (pd.cell on (pd.columns left) l))
    (pd.rows right).

Definition right_cells (on c : string) (left right : pd.DataFrame) (l : list pd.value)
    : list pd.value :=
  match matching on left right l with
  | [] => [pd.NA]
  | ms => map (pd.cell c (pd.columns right)) ms
  end.

(** [sort_values] keeps the order of entries with equal counts. *)
Definition order_preserving (lib : pd.Library) : Prop :=
  forall (s : pd.Series) (a b : pd.value) (n : nat),
    List.NoDup (pd.labels s) ->
    In (a, n) s -> In (b, n) s ->
    position a (pd.labels s) < position b (pd.labels s) ->
    position a (pd.labels (pd.sort_values lib s))
    < position b (pd.labels (pd.sort_values lib s)).

(** The rows of the departments table whose identifier is the department
    reference of the employee row [l]. *)
Definition departments_of (employees_df departments_df : pd.DataFrame)
    (l : list pd.value) : list (list pd.value) :=
  matching "department_id" (normalize_employees employees_df)
           (normalize_departments departments_df) l.

(** Every row has one cell per column. *)
Definition rectangular (df : pd.DataFrame) : Prop :=
  Forall (fun r => length r = length (pd.columns df)) (pd.rows df).

(** ** Tables used in examples *)

Definition table (cols : list string) (rows : list (list pd.value)) : pd.DataFrame :=
  {| pd.columns := cols; pd.rows := rows |}.

(** The scenario of the specification, the department names under the
    label [name] as it is written there. *)
Definition scenario_employees : pd.DataFrame :=
  table ["id"; "department_id"]
        [[pd.VInt 1; pd.VInt 10]; [pd.VInt 2; pd.VInt 10]; [pd.VInt 3; pd.VInt 20]].

Definition scenario_departments_as_written : pd.DataFrame :=
  table ["id"; "name"]
        [[pd.VInt 10; pd.VStr "Eng"]; [pd.VInt 20; pd.VStr "Sales"]].

(** The same departments under the label the program reads. *)
Definition scenario_departments : pd.DataFrame :=
  table ["id"; "department_name"]
        [[pd.VInt 10; pd.VStr "Eng"]; [pd.VInt 20; pd.VStr "Sales"]].

Definition scenario_projects : pd.DataFrame :=
  table ["id"; "employee_id"]
        [[pd.VInt 100; pd.VInt 1]; [pd.VInt 101; pd.VInt 3]; [pd.VInt 102; pd.VInt 99]].

(** One employee of department 10, and one project of that employee. *)
Definition one_employee : pd.DataFrame :=
  table ["id"; "department_id"] [[pd.VInt 1; pd.VInt 10]].

Definition one_project : pd.DataFrame :=
  table ["id"; "employee_id"] [[pd.VInt 100; pd.VInt 1]].

(** Department 10 without a name. *)
Definition unnamed_department : pd.DataFrame :=
  table ["id"; "department_name"] [[pd.VInt 10; pd.NA]].

(** Department 10 listed under two names. *)
Definition twice_listed_department : pd.DataFrame :=
  table ["department_id"; "department_name"]
        [[pd.VInt 10; pd.VStr "Eng"]; [pd.VInt 10; pd.VStr "R&D"]].

(** Three departments, the last two under one identifier. *)
Definition partly_twice_listed_departments : pd.DataFrame :=
  table ["id"; "department_name"]
        [[pd.VInt 10; pd.VStr "Eng"]; [pd.VInt 20; pd.VStr "Sales"];
         [pd.VInt 20; pd.VStr "Support"]].



(** The frame [df] with the rows [rs] in place of its own. *)
Definition with_rows (df : pd.DataFrame) (rs : list (list pd.value)) : pd.DataFrame :=
  {| pd.columns := pd.columns df; pd.rows := rs |}.


(** Whether the employee reference of the project row [l] is the
    identifier of some row of the employee-department view. *)
Definition has_employee (projects_df emp_dept_df : pd.DataFrame)
    (l : list pd.value) : bool :=
  match matching "employee_id" projects_df emp_dept_df l with
  | [] => false
  | _ => true
  end.

(** [fillna('Unknown')] on one cell. *)
Definition fill_unknown (v : pd.value) : pd.value :=
  if pd.isna v then pd.VStr "Unknown" else v.

(** The cell the second aggregation counts for the cell [v] of the second
    join: the fill of step 7 has reached it without copy-on-write only. *)
Definition counted_name (lib : pd.Library) (v : pd.value) : pd.value :=
  if pd.copy_on_write lib then v else fill_unknown v.

(** ** Installed libraries used in examples *)

(** No copy-on-write, and a sort that keeps the order of equal counts. *)
Definition sharing_pandas : pd.Library :=
  {| pd.copy_on_write := false; pd.sort_values := pd.sort_desc |}.

(** The same with copy-on-write. *)
Definition copying_pandas : pd.Library :=
  {| pd.copy_on_write := true; pd.sort_values := pd.sort_desc |}.

(** No copy-on-write, and a sort that reverses the order of equal counts. *)
Definition reordering_pandas : pd.Library :=
  {| pd.copy_on_write := false; pd.sort_values := pd.sort_desc_reversing |}.

(** An employee-department view in which two departments tie. *)
Definition tied_view : pd.DataFrame :=
  table ["employee_id"; "department_name"]
        [[pd.VInt 1; pd.VStr "Sales"]; [pd.VInt 2; pd.VStr "Eng"];
         [pd.VInt 3; pd.VStr "Ops"]; [pd.VInt 4; pd.VStr "Eng"];
         [pd.VInt 5; pd.VStr "Sales"]].

(** ** What a run leaves behind *)

Definition static_dir (env : Env) : os.path := os.path_join (app_dir env) "static".

(** The figure stored under [name] in the static directory, if any. *)
Definition saved_chart (env : Env) (name : string) (s : State) : option figure :=
  match os.nodes (fs s) !! os.path_join (static_dir env) name with
  | Some (os.File g) => Some g
  | _ => None
  end.

(** The two figures as the program labels them. *)
Definition bar_chart (counts : pd.Series) : figure :=
  {| kind := Some Bar; data := counts;
     title := "Number of Employees per Department";
     xlabel := "Department"; ylabel := "Number of Employees" |}.

Definition pie_chart (counts : pd.Series) : figure :=
  {| kind := Some Pie; data := counts;
     title := "Project Distribution by Department";
     xlabel := ""; ylabel := "" |}.

(** ** Environments used in examples *)

(** A database that serves the three tables, with a matplotlib that accepts
    the style and draws everything. *)
Definition serving_with (lib : pd.Library)
    (employees_df departments_df projects_df : pd.DataFrame) : Env :=
  {| app_dir := ["srv"; "dashboard"];
     pandas := lib;
     create_engine := fun _ => inr tt;
     read_sql := fun query =>
       if String.eqb query "SELECT * FROM employees" then inr employees_df
       else if String.eqb query "SELECT * FROM departments" then inr departments_df
       else if String.eqb query "SELECT * FROM project_assignments" then inr projects_df
       else inl (py.Exn "ProgrammingError" query);
     style_use := fun _ => None;
     plot_bar := fun _ => None;
     plot_pie := fun _ => None |}.

Definition serving (employees_df departments_df projects_df : pd.DataFrame) : Env :=
  serving_with sharing_pandas employees_df departments_df projects_df.

(** A database that cannot be reached. *)
Definition unreachable : Env :=
  {| app_dir := ["srv"; "dashboard"];
     pandas := sharing_pandas;
     create_engine := fun _ => inr tt;
     read_sql := fun _ =>
       inl (py.Exn "OperationalError" "Can't connect to MySQL server on 'localhost'");
     style_use := fun _ => None;
     plot_bar := fun _ => None;
     plot_pie := fun _ => None |}.

(** Nothing printed yet, no figure open; the application directory holds
    no [static] entry. *)
Definition fresh (can_write : bool) : State :=
  {| stdout := [];
     fs := {| os.nodes := {[ ["srv"; "dashboard"] := os.Dir ]}; os.writable := can_write |};
     figures := [] |}.

(** A departments table with neither an identifier nor a
    [department_name] column. *)
Definition departments_only_named : pd.DataFrame :=
  table ["name"] [[pd.VStr "Eng"]].

(** ** The run of the [try] body, seen from the file system *)

(** What the environment decides about a run of [visualize]: it raises
    before the first [savefig], or it reaches the first [savefig] with a
    figure and then either raises before the second one or reaches it with
    a second figure. *)
Inductive plan :=
| Fail (e : py.exn)
| Save (g1 : figure) (next : py.exn + figure).

Definition carry_out (dir : os.path) (pl : plan) (fs : os.FileSystem figure)
    : (py.exn + bool) * os.FileSystem figure :=
  match pl with
  | Fail e => (inl e, fs)
  | Save g1 next =>
      match os.write_file (os.path_join dir plot1_name) g1 fs with
      | inl e => (inl e, fs)
      | inr fs1 =>
          match next with
          | inl e => (inl e, fs1)
          | inr g2 =>
              match os.write_file (os.path_join dir plot2_name) g2 fs1 with
              | inl e => (inl e, fs1)
              | inr fs2 => (inr true, fs2)
              end
          end
      end
  end.

(** The same for [create_visualizations]: the directory is made if it is
    missing, outside the [try]; what the body raises becomes [False]. *)
Definition carry_out_guarded (dir : os.path) (pl : plan) (fs : os.FileSystem figure)
    : (py.exn + bool) * os.FileSystem figure :=
  match (if os.path_exists dir fs then inr fs else os.makedirs dir fs) with
  | inl e => (inl e, fs)
  | inr fs0 =>
      match carry_out dir pl fs0 with
      | (inl _, fs1) => (inr false, fs1)
      | (inr b, fs1) => (inr b, fs1)
      end
  end.

(** The lines the [except] block prints for [e]. *)
Definition report_lines (e : py.exn) : list string :=
  [py.newline +:+ "--- AN ERROR OCCURRED ---";
   "Error Type: " +:+ py.type_name e;
   "Error Details: " +:+ py.str e;
   py.newline +:+ "This is likely due to a column name mismatch or a database connection issue.";
   "Please check the 'Columns after cleaning' output above and your DB_CONFIG settings.";
   "-------------------------" +:+ py.newline].

Definition finished : string := "Script finished processing request.".

(** The context [index] passes to the template. *)
Definition index_context : list (string * string) :=
  [("plot1", plot1_name); ("plot2", plot2_name)].

(** ** Tactics for running the program *)

(** One step of symbolic execution: the operations of the monad are
    unfolded, the library calls and the texts stay as they are. *)
Ltac step :=
  cbv [mbind M_bind mret M_ret call print check raise with_fs os_path_exists os_makedirs
       plt.new_figure plt.draw plt.update plt.set_title plt.set_xlabel plt.set_ylabel
       plt.savefig plt.close plt.current hd tl stdout fs figures
       kind data title xlabel ylabel blank_figure
       try_except try_finally fst snd].

(** Execution as far as the answers of the environment are known. *)
Ltac run :=
  step;
  repeat match goal with
         | H : ?call = _ |- context [?call] => rewrite H; step
         end.

(** The two outcomes of the [savefig] in front. *)
Ltac write_cases :=
  match goal with
  | |- context [os.write_file ?p ?g ?f] => destruct (os.write_file p g f); step
  end.

(** ** Further tables and states used in examples *)

(** An employees table that carries the department name itself. *)
Definition employees_with_names : pd.DataFrame :=
  table ["id"; "department_id"; "department_name"]
        [[pd.VInt 1; pd.VInt 10; pd.VStr "Eng"]].

(** A project-assignment table that carries a department name itself. *)
Definition projects_with_names : pd.DataFrame :=
  table ["id"; "employee_id"; "department_name"]
        [[pd.VInt 100; pd.VInt 1; pd.VStr "Eng"]].

(** A project-assignment table without the employee reference. *)
Definition projects_without_key : pd.DataFrame :=
  table ["id"] [[pd.VInt 100]].

(** A state in which [static] exists but is a plain file. *)
Definition static_is_file : State :=
  {| stdout := [];
     fs := {| os.nodes := {[ ["srv"; "dashboard"] := os.Dir;
                             ["srv"; "dashboard"; "static"] := os.File blank_figure ]};
              os.writable := true |};
     figures := [] |}.

(** A state with an unrelated file beside the application. *)
Definition with_notes : State :=
  {| stdout := [];
     fs := {| os.nodes := {[ ["srv"; "dashboard"] := os.Dir;
                             ["srv"; "notes.txt"] := os.File blank_figure ]};
              os.writable := true |};
     figures := [] |}.

(** The application directory as a run leaves it when the first image could
    not be written: the bar chart of that run is still open. *)
Definition with_open_figure : State :=
  {| stdout := [];
     fs := {| os.nodes := {[ ["srv"; "dashboard"] := os.Dir;
                             ["srv"; "dashboard"; "static"] := os.Dir ]};
              os.writable := true |};
     figures := [bar_chart [(pd.VStr "Eng", 1)]] |}.

(** A matplotlib that refuses to draw a series without entries, as the
    bar plot of pandas does. *)
Definition refusing_empty (employees_df departments_df projects_df : pd.DataFrame) : Env :=
  {| app_dir := ["srv"; "dashboard"];
     pandas := sharing_pandas;
     create_engine := fun _ => inr tt;
     read_sql := read_sql (serving employees_df departments_df projects_df);
     style_use := fun _ => None;
     plot_bar := fun counts =>
       match counts with
       | [] => Some (py.Exn "IndexError" "index 0 is out of bounds for axis 0 with size 0")
       | _ => None
       end;
     plot_pie := fun _ => None |}.

(** A state in which the static directory is there. *)
Definition ready : State :=
  {| stdout := [];
     fs := {| os.nodes := {[ ["srv"; "dashboard"] := os.Dir;
                             ["srv"; "dashboard"; "static"] := os.Dir ]};
              os.writable := true |};
     figures := [] |}.

(** * Properties *)

(** ** Cells and labels *)

Lemma value_eqb_eq (a b : pd.value) : pd.value_eqb a b = true <-> a = b.
Proof.
  destruct a, b; simpl; split; intros H; try congruence; try discriminate.
  - apply Z.eqb_eq in H. congruence.
  - injection H as ->. apply Z.eqb_refl.
  - apply String.eqb_eq in H. congruence.
  - injection H as ->. apply String.eqb_refl.
Qed.

Lemma value_eqb_refl (a : pd.value) : pd.value_eqb a a = true.
Proof. now apply value_eqb_eq. Qed.

Lemma value_eqb_neq (a b : pd.value) : pd.value_eqb a b = false <-> a <> b.
Proof.
  rewrite <- value_eqb_eq. destruct (pd.value_eqb a b); split; congruence.
Qed.

Lemma value_eq_dec (a b : pd.value) : {a = b} + {a <> b}.
Proof.
  destruct (pd.value_eqb a b) eqn:E.
  - left. now apply value_eqb_eq.
  - right. now apply value_eqb_neq.
Qed.

Lemma value_eqb_sym (a b : pd.value) : pd.value_eqb a b = pd.value_eqb b a.
Proof.
  destruct (pd.value_eqb b a) eqn:E.
  - apply value_eqb_eq in E. subst. apply value_eqb_refl.
  - apply value_eqb_neq. apply value_eqb_neq in E. congruence.
Qed.

Lemma position_lt (v : pd.value) (l : list pd.value) :
  In v l <-> position v l < length l.
Proof.
  induction l as [|u l IH]; simpl.
  - split; [tauto | lia].
  - destruct (pd.value_eqb u v) eqn:E.
    + apply value_eqb_eq in E. split; [lia | auto].
    + apply value_eqb_neq in E. rewrite IH. split.
      * intros [H | H]; [congruence | lia].
      * intros H. right. lia.
Qed.

Lemma position_le (v : pd.value) (l : list pd.value) : position v l <= length l.
Proof.
  induction l as [|u l IH]; simpl; [lia |].
  destruct (pd.value_eqb u v); lia.
Qed.

Lemma position_absent (v : pd.value) (l : list pd.value) :
  ~ In v l -> position v l = length l.
Proof.
  intros H. pose proof (position_le v l). rewrite position_lt in H. lia.
Qed.

Lemma position_app_l (v : pd.value) (l1 l2 : list pd.value) :
  In v l1 -> position v (l1 ++ l2) = position v l1.
Proof.
  induction l1 as [|u l1 IH]; simpl; [tauto |].
  intros H. destruct (pd.value_eqb u v) eqn:E; [reflexivity |].
  apply value_eqb_neq in E. f_equal. apply IH. destruct H; congruence.
Qed.

Lemma position_app_r (v : pd.value) (l1 l2 : list pd.value) :
  ~ In v l1 -> position v (l1 ++ l2) = length l1 + position v l2.
Proof.
  induction l1 as [|u l1 IH]; simpl; [reflexivity |].
  intros H. destruct (pd.value_eqb u v) eqn:E.
  - apply value_eqb_eq in E. tauto.
  - f_equal. apply IH. tauto.
Qed.

(** ** The descending sort of [value_counts] *)

Section SortDesc.

Implicit Types (p q : pd.value * nat) (s t : pd.Series).

(** Inserting [p] places it after the entries with a strictly larger
    count and before everything else. *)
Lemma insert_desc_split p s :
  exists s1 s2,
    s = s1 ++ s2 /\ pd.insert_desc p s = s1 ++ p :: s2
    /\ Forall (fun q => snd p < snd q) s1.
Proof.
  induction s as [|q s IH]; simpl.
  - exists [], []. auto.
  - destruct (snd p <? snd q) eqn:E.
    + destruct IH as (s1 & s2 & -> & -> & HF).
      exists (q :: s1), s2. repeat split; auto.
      constructor; [now apply Nat.ltb_lt | exact HF].
    + exists [], (q :: s). auto.
Qed.

Lemma insert_desc_perm p s : Permutation (p :: s) (pd.insert_desc p s).
Proof.
  destruct (insert_desc_split p s) as (s1 & s2 & -> & -> & _).
  apply Permutation_middle.
Qed.

Lemma sort_desc_perm s : Permutation s (pd.sort_desc s).
Proof.
  induction s as [|p s IH]; simpl; [constructor |].
  etransitivity; [apply perm_skip, IH | apply insert_desc_perm].
Qed.

Lemma insert_desc_sorted p s :
  StronglySorted (fun a b => snd b <= snd a) s ->
  StronglySorted (fun a b => snd b <= snd a) (pd.insert_desc p s).
Proof.
  induction 1 as [|q s Hs IH Hq]; simpl.
  - repeat constructor.
  - destruct (snd p <? snd q) eqn:E.
    + apply Nat.ltb_lt in E. constructor; [exact IH |].
      apply List.Forall_forall. intros x Hx.
      apply (Permutation_in _ (Permutation_sym (insert_desc_perm p s))) in Hx.
      destruct Hx as [<- | Hx]; [lia |].
      rewrite List.Forall_forall in Hq. now apply Hq.
    + apply Nat.ltb_ge in E. constructor; [now constructor |].
      constructor; [exact E |].
      apply List.Forall_forall. intros x Hx.
      rewrite List.Forall_forall in Hq. specialize (Hq x Hx). lia.
Qed.

Lemma sort_desc_sorted s :
  StronglySorted (fun a b => snd b <= snd a) (pd.sort_desc s).
Proof.
  induction s as [|p s IH]; simpl; [constructor | now apply insert_desc_sorted].
Qed.

Lemma total_perm s t : Permutation s t -> pd.total s = pd.total t.
Proof.
  unfold pd.total. induction 1; simpl; lia.
Qed.

Lemma count_of_app v s t : count_of v (s ++ t) = count_of v s + count_of v t.
Proof.
  unfold count_of. rewrite List.filter_app, map_app, list_sum_app. reflexivity.
Qed.

Lemma count_of_perm v s t : Permutation s t -> count_of v s = count_of v t.
Proof.
  unfold count_of. induction 1; simpl; try lia.
  - destruct (pd.value_eqb (fst x) v); simpl; lia.
  - destruct (pd.value_eqb (fst x) v), (pd.value_eqb (fst y) v); simpl; lia.
Qed.

Lemma labels_perm s t : Permutation s t -> Permutation (pd.labels s) (pd.labels t).
Proof. apply Permutation_map. Qed.

(** Two labels on either side of an insertion point keep their order. *)
Lemma position_insert_mono (a b c : pd.value) (l1 l2 : list pd.value) :
  c <> a -> c <> b ->
  position a (l1 ++ l2) < position b (l1 ++ l2) ->
  position a (l1 ++ c :: l2) < position b (l1 ++ c :: l2).
Proof.
  intros Ha Hb.
  destruct (in_dec value_eq_dec a l1) as [Ia | Ia];
    destruct (in_dec value_eq_dec b l1) as [Ib | Ib].
  - rewrite !position_app_l by assumption. auto.
  - rewrite !(position_app_l a), !(position_app_r b) by assumption.
    apply position_lt in Ia. lia.
  - rewrite !(position_app_r a), !(position_app_l b) by assumption.
    apply position_lt in Ib. lia.
  - rewrite !position_app_r by assumption. simpl.
    apply value_eqb_neq in Ha, Hb. rewrite Ha, Hb. lia.
Qed.

(** [pd.sort_desc] keeps the order of equal counts: among entries with the
    same count, the order of the labels is the one they had. *)
Lemma sort_desc_stable s a b n :
  List.NoDup (pd.labels s) ->
  In (a, n) s -> In (b, n) s ->
  position a (pd.labels s) < position b (pd.labels s) ->
  position a (pd.labels (pd.sort_desc s)) < position b (pd.labels (pd.sort_desc s)).
Proof.
  induction s as [|[c m] s IH]; simpl; [tauto |].
  intros Hnd Ha Hb Hlt.
  apply List.NoDup_cons_iff in Hnd as [Hc Hnd].
  destruct (insert_desc_split (c, m) (pd.sort_desc s)) as (s1 & s2 & Hs & -> & HF).
  assert (Hperm : Permutation (pd.labels s) (pd.labels s1 ++ pd.labels s2)).
  { unfold pd.labels. rewrite <- map_app, <- Hs. apply labels_perm, sort_desc_perm. }
  unfold pd.labels in *. rewrite map_app. simpl.
  destruct (pd.value_eqb c a) eqn:Eca.
  - apply value_eqb_eq in Eca. subst c.
    destruct (pd.value_eqb a b) eqn:Eab; [lia |].
    apply value_eqb_neq in Eab.
    destruct Ha as [Ha | Ha];
      [| exfalso; apply Hc; change a with (fst (a, n)); now apply in_map].
    injection Ha as ->.
    destruct Hb as [Hb | Hb]; [congruence |].
    assert (Hb' : In (b, n) (s1 ++ s2)).
    { rewrite <- Hs. eapply Permutation_in; [apply sort_desc_perm | exact Hb]. }
    assert (Ia : ~ In a (map fst s1)).
    { intros Hin. apply Hc. eapply Permutation_in; [symmetry; exact Hperm |].
      apply in_or_app. now left. }
    assert (Ib : ~ In b (map fst s1)).
    { intros Hin. apply in_map_iff in Hin as ([b' k] & Hbk & Hin). simpl in Hbk. subst b'.
      rewrite List.Forall_forall in HF. pose proof (HF _ Hin) as Hk. simpl in Hk.
      assert (Hnd' : List.NoDup (map fst (s1 ++ s2))).
      { rewrite map_app. eapply Permutation.Permutation_NoDup; [exact Hperm | exact Hnd]. }
      assert (k = n); [| lia].
      clear - Hnd' Hin Hb'.
      assert (Hin' : In (b, k) (s1 ++ s2)) by (apply in_or_app; now left).
      revert Hnd' Hin' Hb'. generalize (s1 ++ s2). intros l.
      induction l as [|[x y] l IHl]; simpl; [tauto |].
      intros Hn [H1 | H1] [H2 | H2]; apply List.NoDup_cons_iff in Hn as [Hx Hn].
      - congruence.
      - injection H1 as -> ->. exfalso. apply Hx.
        change b with (fst (b, n)). now apply in_map.
      - injection H2 as -> ->. exfalso. apply Hx.
        change b with (fst (b, k)). now apply in_map.
      - now apply IHl. }
    rewrite !position_app_r by assumption. simpl.
    rewrite value_eqb_refl.
    apply value_eqb_neq in Eab. rewrite Eab. lia.
  - destruct (pd.value_eqb c b) eqn:Ecb; [lia |].
    apply value_eqb_neq in Eca, Ecb.
    destruct Ha as [Ha | Ha]; [congruence |].
    destruct Hb as [Hb | Hb]; [congruence |].
    apply position_insert_mono; [assumption | assumption |].
    rewrite <- map_app, <- Hs. apply IH; auto. lia.
Qed.

Lemma insert_behind_split p s :
  exists s1 s2,
    s = s1 ++ s2 /\ pd.insert_behind p s = s1 ++ p :: s2
    /\ Forall (fun q => snd p <= snd q) s1.
Proof.
  induction s as [|q s IH]; simpl.
  - exists [], []. auto.
  - destruct (snd q <? snd p) eqn:E.
    + exists [], (q :: s). auto.
    + destruct IH as (s1 & s2 & -> & -> & HF).
      exists (q :: s1), s2. repeat split; auto.
      constructor; [now apply Nat.ltb_ge | exact HF].
Qed.

Lemma insert_behind_perm p s : Permutation (p :: s) (pd.insert_behind p s).
Proof.
  destruct (insert_behind_split p s) as (s1 & s2 & -> & -> & _).
  apply Permutation_middle.
Qed.

Lemma sort_desc_reversing_perm s : Permutation s (pd.sort_desc_reversing s).
Proof.
  induction s as [|p s IH]; simpl; [constructor |].
  etransitivity; [apply perm_skip, IH | apply insert_behind_perm].
Qed.

Lemma insert_behind_sorted p s :
  StronglySorted (fun a b => snd b <= snd a) s ->
  StronglySorted (fun a b => snd b <= snd a) (pd.insert_behind p s).
Proof.
  induction 1 as [|q s Hs IH Hq]; simpl.
  - repeat constructor.
  - destruct (snd q <? snd p) eqn:E.
    + apply Nat.ltb_lt in E. constructor; [now constructor |].
      constructor; [lia |].
      apply List.Forall_forall. intros x Hx.
      rewrite List.Forall_forall in Hq. specialize (Hq x Hx). lia.
    + apply Nat.ltb_ge in E. constructor; [exact IH |].
      apply List.Forall_forall. intros x Hx.
      apply (Permutation_in _ (Permutation_sym (insert_behind_perm p s))) in Hx.
      destruct Hx as [<- | Hx]; [lia |].
      rewrite List.Forall_forall in Hq. now apply Hq.
Qed.

Lemma sort_desc_reversing_sorted s :
  StronglySorted (fun a b => snd b <= snd a) (pd.sort_desc_reversing s).
Proof.
  induction s as [|p s IH]; simpl; [constructor | now apply insert_behind_sorted].
Qed.

End SortDesc.

(** The libraries of the examples sort as pandas is known to. *)
Lemma sharing_pandas_admissible : pd.admissible sharing_pandas.
Proof. intros s. split; [apply sort_desc_perm | apply sort_desc_sorted]. Qed.

Lemma copying_pandas_admissible : pd.admissible copying_pandas.
Proof. intros s. split; [apply sort_desc_perm | apply sort_desc_sorted]. Qed.

Lemma reordering_pandas_admissible : pd.admissible reordering_pandas.
Proof.
  intros s. split; [apply sort_desc_reversing_perm | apply sort_desc_reversing_sorted].
Qed.

Lemma sharing_pandas_order_preserving : order_preserving sharing_pandas.
Proof. intros s a b n. apply sort_desc_stable. Qed.


Lemma sort_values_two (lib : pd.Library) (p q : pd.value * nat) :
  pd.admissible lib -> snd q < snd p -> pd.sort_values lib [p; q] = [p; q].
Proof.
  intros Hlib Hlt. destruct (Hlib [p; q]) as [Hperm Hsorted].
  apply Permutation_length_2_inv in Hperm as [E | E]; [exact E |].
  rewrite E in Hsorted. apply StronglySorted_inv in Hsorted as [_ Hq].
  apply Forall_inv in Hq. lia.
Qed.

Lemma sort_values_nil (lib : pd.Library) :
  pd.admissible lib -> pd.sort_values lib [] = [].
Proof.
  intros Hlib. destruct (Hlib []) as [Hperm _].
  now apply Permutation_nil in Hperm.
Qed.

(** ** Counting in order of first appearance *)

Section Tally.

Implicit Types (v u a b : pd.value) (acc : pd.Series) (vs : list pd.value).

Lemma labels_count_value_old v acc :
  In v (pd.labels acc) -> pd.labels (pd.count_value v acc) = pd.labels acc.
Proof.
  induction acc as [|[u n] acc IH]; simpl; [tauto |].
  intros H. destruct (pd.value_eqb u v) eqn:E; simpl; [reflexivity |].
  apply value_eqb_neq in E. f_equal. apply IH. destruct H; congruence.
Qed.

Lemma labels_count_value_new v acc :
  ~ In v (pd.labels acc) -> pd.labels (pd.count_value v acc) = pd.labels acc ++ [v].
Proof.
  induction acc as [|[u n] acc IH]; simpl; [reflexivity |].
  intros H. destruct (pd.value_eqb u v) eqn:E; simpl.
  - apply value_eqb_eq in E. tauto.
  - f_equal. apply IH. tauto.
Qed.

Lemma total_count_value v acc : pd.total (pd.count_value v acc) = S (pd.total acc).
Proof.
  unfold pd.total. induction acc as [|[u n] acc IH]; simpl; [reflexivity |].
  destruct (pd.value_eqb u v); simpl; lia.
Qed.

Lemma count_of_count_value u v acc :
  count_of u (pd.count_value v acc)
  = count_of u acc + (if pd.value_eqb v u then 1 else 0).
Proof.
  unfold count_of. induction acc as [|[w n] acc IH]; simpl.
  - destruct (pd.value_eqb v u); reflexivity.
  - destruct (pd.value_eqb w v) eqn:E; simpl.
    + apply value_eqb_eq in E. subst w.
      destruct (pd.value_eqb v u); simpl; lia.
    + destruct (pd.value_eqb w u) eqn:E'; simpl; rewrite IH; lia.
Qed.

Lemma tally_snoc vs v :
  pd.tally (vs ++ [v])
  = if pd.isna v then pd.tally vs else pd.count_value v (pd.tally vs).
Proof. unfold pd.tally. now rewrite fold_left_app. Qed.

Lemma total_tally vs : pd.total (pd.tally vs) = length (List.filter pd.notna vs).
Proof.
  induction vs as [|v vs IH] using rev_ind; [reflexivity |].
  rewrite tally_snoc, List.filter_app, length_app. simpl. unfold pd.notna at 2.
  destruct (pd.isna v); simpl; [lia |].
  rewrite total_count_value. lia.
Qed.

Lemma count_of_tally u vs :
  u <> pd.NA -> count_of u (pd.tally vs) = occurrences u vs.
Proof.
  intros Hu. unfold occurrences.
  induction vs as [|v vs IH] using rev_ind; [reflexivity |].
  rewrite tally_snoc, List.filter_app, length_app. simpl.
  destruct (pd.isna v) eqn:E.
  - destruct v; try discriminate.
    replace (pd.value_eqb u pd.NA) with false; [simpl; lia |].
    symmetry. now apply value_eqb_neq.
  - rewrite count_of_count_value, IH, (value_eqb_sym v u).
    destruct (pd.value_eqb u v); simpl; lia.
Qed.

Lemma labels_tally_in a vs :
  In a (pd.labels (pd.tally vs)) <-> In a vs /\ a <> pd.NA.
Proof.
  revert a. induction vs as [|v vs IH] using rev_ind; intros a; [simpl; tauto |].
  rewrite tally_snoc, in_app_iff. simpl.
  destruct (pd.isna v) eqn:E.
  - destruct v; try discriminate. rewrite IH. intuition congruence.
  - assert (Hv : v <> pd.NA) by (intros ->; discriminate).
    destruct (in_dec value_eq_dec v (pd.labels (pd.tally vs))) as [Hin | Hin].
    + rewrite labels_count_value_old by assumption. rewrite IH.
      apply IH in Hin. intuition congruence.
    + rewrite labels_count_value_new, in_app_iff by assumption. simpl.
      rewrite IH. intuition congruence.
Qed.

Lemma labels_tally_nodup vs : List.NoDup (pd.labels (pd.tally vs)).
Proof.
  induction vs as [|v vs IH] using rev_ind; [constructor |].
  rewrite tally_snoc. destruct (pd.isna v); [exact IH |].
  destruct (in_dec value_eq_dec v (pd.labels (pd.tally vs))) as [Hin | Hin].
  - now rewrite labels_count_value_old.
  - rewrite labels_count_value_new by assumption.
    apply NoDup_app_remove_l with (l := []). simpl.
    apply Permutation.Permutation_NoDup with (l := v :: pd.labels (pd.tally vs)).
    + apply Permutation_cons_append.
    + now constructor.
Qed.

(** The labels of the tally stand in order of first appearance. *)
Lemma tally_order a b vs :
  In a (pd.labels (pd.tally vs)) -> In b (pd.labels (pd.tally vs)) ->
  position a vs < position b vs ->
  position a (pd.labels (pd.tally vs)) < position b (pd.labels (pd.tally vs)).
Proof.
  induction vs as [|v vs IH] using rev_ind; [simpl; tauto |].
  rewrite tally_snoc.
  assert (Hold : forall x, In x (pd.labels (pd.tally vs)) ->
                           position x (vs ++ [v]) = position x vs).
  { intros x Hx. apply position_app_l. now apply labels_tally_in in Hx. }
  destruct (pd.isna v) eqn:E.
  - intros Ha Hb. rewrite !Hold by assumption. now apply IH.
  - destruct (in_dec value_eq_dec v (pd.labels (pd.tally vs))) as [Hin | Hin].
    + rewrite labels_count_value_old by assumption.
      intros Ha Hb. rewrite !Hold by assumption. now apply IH.
    + rewrite labels_count_value_new by assumption.
      assert (Hv : ~ In v vs).
      { intros H. apply Hin, labels_tally_in. split; [exact H |].
        intros ->. discriminate. }
      intros Ha Hb. apply in_app_iff in Ha, Hb. simpl in Ha, Hb.
      destruct Ha as [Ha | [<- | []]]; destruct Hb as [Hb | [<- | []]].
      * rewrite !Hold, !position_app_l by assumption. now apply IH.
      * intros _. rewrite (position_app_l a (pd.labels _)) by assumption.
        rewrite (position_app_r v (pd.labels _)) by assumption. simpl.
        rewrite value_eqb_refl. apply position_lt in Ha. lia.
      * rewrite (Hold b) by assumption. rewrite (position_app_r v vs) by assumption.
        apply labels_tally_in in Hb as [Hb _]. apply position_lt in Hb. lia.
      * lia.
Qed.


Lemma value_counts_perm (lib : pd.Library) vs :
  pd.admissible lib -> Permutation (pd.tally vs) (pd.value_counts lib vs).
Proof. intros Hlib. apply Hlib. Qed.

Lemma total_value_counts (lib : pd.Library) vs :
  pd.admissible lib ->
  pd.total (pd.value_counts lib vs) = length (List.filter pd.notna vs).
Proof.
  intros Hlib. rewrite <- (total_perm _ _ (value_counts_perm lib vs Hlib)).
  apply total_tally.
Qed.

Lemma count_of_value_counts (lib : pd.Library) u vs :
  pd.admissible lib ->
  u <> pd.NA -> count_of u (pd.value_counts lib vs) = occurrences u vs.
Proof.
  intros Hlib Hu.
  rewrite <- (count_of_perm u _ _ (value_counts_perm lib vs Hlib)).
  now apply count_of_tally.
Qed.


(** [value_counts]: the counts decrease; where the sort keeps the order of
    equal counts, labels with equal counts stand in order of first
    appearance. *)
Lemma value_counts_sorted (lib : pd.Library) vs :
  pd.admissible lib ->
  StronglySorted (fun p q => snd q <= snd p) (pd.value_counts lib vs).
Proof. intros Hlib. apply Hlib. Qed.

Lemma value_counts_ties (lib : pd.Library) vs :
  pd.admissible lib -> order_preserving lib ->
  forall a b n,
    In (a, n) (pd.value_counts lib vs) -> In (b, n) (pd.value_counts lib vs) ->
    position a vs < position b vs ->
    position a (pd.labels (pd.value_counts lib vs))
    < position b (pd.labels (pd.value_counts lib vs)).
Proof.
  intros Hlib Hkeep a b n Ha Hb Hlt.
  assert (Ha' : In (a, n) (pd.tally vs)).
  { eapply Permutation_in; [symmetry; apply (value_counts_perm lib vs Hlib) | exact Ha]. }
  assert (Hb' : In (b, n) (pd.tally vs)).
  { eapply Permutation_in; [symmetry; apply (value_counts_perm lib vs Hlib) | exact Hb]. }
  apply Hkeep with (n := n); auto using labels_tally_nodup.
  apply tally_order; auto.
  - change a with (fst (a, n)). now apply in_map.
  - change b with (fst (b, n)). now apply in_map.
Qed.

End Tally.

(** ** Columns and cells of a frame *)

Lemma has_column_In (c : string) (df : pd.DataFrame) :
  pd.has_column c df = true <-> In c (pd.columns df).
Proof.
  unfold pd.has_column. rewrite existsb_exists. split.
  - intros (x & Hx & E). apply String.eqb_eq in E. now subst.
  - intros H. exists c. split; [exact H | apply String.eqb_refl].
Qed.

Lemma has_column_not_In (c : string) (df : pd.DataFrame) :
  pd.has_column c df = false <-> ~ In c (pd.columns df).
Proof.
  rewrite <- has_column_In. destruct (pd.has_column c df); split; congruence.
Qed.

Lemma existsb_eqb_In (c : string) (l : list string) :
  existsb (String.eqb c) l = true <-> In c l.
Proof.
  rewrite existsb_exists. split.
  - intros (x & Hx & E). apply String.eqb_eq in E. now subst.
  - intros H. exists c. split; [exact H | apply String.eqb_refl].
Qed.

(** No suffixed label reads [department_name]. *)
Lemma suffix_x_ne (c : string) : c +:+ "_x" <> "department_name".
Proof.
  intros H.
  do 16 (try (destruct c as [|? c]; simpl in H;
              [discriminate H | first [discriminate H | injection H as _ H]])).
Qed.

Lemma suffix_y_ne (c : string) : c +:+ "_y" <> "department_name".
Proof.
  intros H.
  do 16 (try (destruct c as [|? c]; simpl in H;
              [discriminate H | first [discriminate H | injection H as _ H]])).
Qed.

Lemma well_formed_rectangular (df : pd.DataFrame) :
  pd.well_formed df = true -> rectangular df.
Proof.
  unfold pd.well_formed, rectangular. intros H.
  apply andb_true_iff in H as [_ H].
  rewrite forallb_forall in H. apply List.Forall_forall.
  intros r Hr. apply Nat.eqb_eq. now apply H.
Qed.

Lemma cell_app_r (c : string) (lcols rcols : list string) (l r : list pd.value) :
  length l = length lcols -> ~ In c lcols ->
  pd.cell c (lcols ++ rcols) (l ++ r) = pd.cell c rcols r.
Proof.
  unfold pd.cell. revert l.
  induction lcols as [|x lcols IH]; intros [|v l] Hlen Hc; simpl in *; try discriminate.
  - reflexivity.
  - destruct (String.eqb x c) eqn:E.
    + apply String.eqb_eq in E. tauto.
    + apply IH; [lia | tauto].
Qed.

Lemma cell_pad (c : string) (cols : list string) (n : nat) :
  pd.cell c cols (repeat pd.NA n) = pd.NA.
Proof.
  unfold pd.cell. revert n.
  induction cols as [|x cols IH]; intros [|n]; simpl; try reflexivity.
  destruct (String.eqb x c); [reflexivity | apply IH].
Qed.

(** ** The left join *)

Section Join.

Variables (on c : string) (left right : pd.DataFrame).

Local Abbreviation lc := (pd.columns left).
Local Abbreviation rc := (pd.columns right).

Lemma merge_inr (df : pd.DataFrame) :
  pd.merge left right on = inr df ->
  In on lc /\ In on rc
  /\ pd.columns df
     = map (pd.suffixed on lc rc "_x") lc
         ++ map (pd.suffixed on lc rc "_y") (List.filter (pd.not_key on) rc)
  /\ pd.rows df
     = flat_map (pd.join_row on left right (length (List.filter (pd.not_key on) rc)))
                (pd.rows left).
Proof.
  unfold pd.merge, pd.merged_columns.
  destruct (pd.has_column on left) eqn:Hl; [| discriminate].
  destruct (pd.has_column on right) eqn:Hr; [| discriminate]. simpl.
  destruct (_ ++ _) eqn:Hd; [| discriminate].
  intros H. injection H as <-. simpl. rewrite length_map.
  apply has_column_In in Hl, Hr. auto.
Qed.

Hypothesis c_not_key : c <> on.
Hypothesis c_not_x : forall c', c' +:+ "_x" <> c.
Hypothesis c_not_y : forall c', c' +:+ "_y" <> c.

Lemma suffixed_eq (sfx c' : string) :
  (forall x, x +:+ sfx <> c) ->
  pd.suffixed on lc rc sfx c' = c <-> c' = c /\ pd.overlaps on lc rc c = false.
Proof.
  intros Hs. unfold pd.suffixed.
  destruct (pd.overlaps on lc rc c') eqn:E; split.
  - intros H. now apply Hs in H.
  - intros [-> H]. congruence.
  - intros ->. auto.
  - tauto.
Qed.

Lemma cell_drop_key (f : string -> string) (cols : list string) (r : list pd.value) :
  (forall c', In c' cols -> (f c' = c <-> c' = c)) ->
  pd.cell c (map f (List.filter (pd.not_key on) cols)) (pd.drop_key on cols r)
  = pd.cell c cols r.
Proof.
  unfold pd.cell, pd.drop_key. revert r.
  induction cols as [|x cols IH]; intros [|v r] Hf; simpl; try reflexivity.
  - now rewrite combine_nil.
  - assert (Hx : f x = c <-> x = c) by (apply Hf; now left).
    assert (IH' := IH r (fun c' H => Hf c' (or_intror H))).
    destruct (pd.not_key on x) eqn:Ek; simpl; unfold pd.not_key in Ek.
    2:{ apply negb_false_iff, String.eqb_eq in Ek. subst x.
        destruct (String.eqb on c) eqn:E; [| exact IH'].
        apply String.eqb_eq in E. congruence. }
    destruct (String.eqb x c) eqn:E.
    + idtac.
      apply String.eqb_eq in E. apply Hx in E. rewrite E, String.eqb_refl.
      reflexivity.
    + destruct (String.eqb (f x) c) eqn:E'; [| exact IH'].
      apply String.eqb_eq, Hx in E'. subst x. now rewrite String.eqb_refl in E.
Qed.

Hypothesis left_rectangular : rectangular left.
Hypothesis c_not_left : ~ In c lc.
Hypothesis c_right : In c rc.

Lemma not_overlapping : pd.overlaps on lc rc c = false.
Proof.
  unfold pd.overlaps.
  destruct (existsb (String.eqb c) lc) eqn:E.
  - apply existsb_eqb_In in E. tauto.
  - now rewrite andb_false_r.
Qed.

(** The column that only the right frame has, after the join. *)
Lemma merge_column_right (df : pd.DataFrame) :
  pd.merge left right on = inr df ->
  pd.column c df = inr (flat_map (right_cells on c left right) (pd.rows left)).
Proof.
  intros Hm. destruct (merge_inr df Hm) as (_ & _ & Hcols & Hrows).
  assert (Hnl : ~ In c (map (pd.suffixed on lc rc "_x") lc)).
  { intros H. apply in_map_iff in H as (c' & H & Hin).
    apply suffixed_eq in H as [-> _]; auto. }
  assert (Hf : forall c', In c' rc -> pd.suffixed on lc rc "_y" c' = c <-> c' = c).
  { intros c' _. rewrite suffixed_eq by auto. pose proof not_overlapping. tauto. }
  unfold pd.column.
  replace (pd.has_column c df) with true.
  2:{ symmetry. apply has_column_In. rewrite Hcols. apply in_or_app. right.
      apply in_map_iff. exists c. split; [now apply Hf |].
      apply filter_In. split; [exact c_right |].
      unfold pd.not_key. apply negb_true_iff. now apply String.eqb_neq. }
  f_equal. rewrite Hcols, Hrows. clear Hrows Hm.
  pose proof left_rectangular as Hrect. unfold rectangular in Hrect.
  induction Hrect as [|l ls Hl _ IH]; simpl; [reflexivity |].
  rewrite map_app, IH. f_equal.
  unfold pd.join_row, right_cells, matching.
  destruct (List.filter _ (pd.rows right)) as [|m ms]; simpl.
  - rewrite cell_app_r; [| now rewrite length_map | exact Hnl].
    now rewrite cell_pad.
  - rewrite !cell_app_r; [| now rewrite length_map | exact Hnl].
    rewrite cell_drop_key by exact Hf. f_equal.
    rewrite map_map. apply map_ext. intros r.
    rewrite !cell_app_r; [| now rewrite length_map | exact Hnl].
    now apply cell_drop_key.
Qed.

End Join.

Section JoinRows.

Variables (on : string) (left right : pd.DataFrame).

Lemma join_row_length (w : nat) (l : list pd.value) :
  length (pd.join_row on left right w l)
  = Nat.max 1 (length (matching on left right l)).
Proof.
  unfold pd.join_row, matching.
  destruct (List.filter _ (pd.rows right)) as [|m ms]; simpl; [reflexivity |].
  now rewrite length_map.
Qed.


(** Where no left row has two matches, the join has the left frame's
    number of rows. *)
Lemma merge_len (df : pd.DataFrame) :
  pd.merge left right on = inr df ->
  Forall (fun l => length (matching on left right l) <= 1) (pd.rows left) ->
  pd.len df = pd.len left.
Proof.
  intros Hm Hu. destruct (merge_inr on left right df Hm) as (_ & _ & _ & Hrows).
  unfold pd.len. rewrite Hrows. clear Hrows Hm.
  induction Hu as [|l ls Hl _ IH]; simpl; [reflexivity |].
  rewrite length_app, IH, join_row_length. lia.
Qed.

Lemma drop_key_length (cols : list string) (r : list pd.value) :
  length r = length cols ->
  length (pd.drop_key on cols r) = length (List.filter (pd.not_key on) cols).
Proof.
  unfold pd.drop_key. rewrite length_map. revert r.
  induction cols as [|x cols IH]; intros [|v r] H; simpl in *; try discriminate.
  - reflexivity.
  - destruct (pd.not_key on x); simpl; rewrite IH; auto.
Qed.

Lemma merge_rectangular (df : pd.DataFrame) :
  rectangular left -> rectangular right ->
  pd.merge left right on = inr df -> rectangular df.
Proof.
  intros Hl Hr Hm. destruct (merge_inr on left right df Hm) as (_ & _ & Hcols & Hrows).
  unfold rectangular in *. rewrite Hcols, Hrows, length_app, !length_map.
  apply List.Forall_forall. intros row Hrow.
  apply in_flat_map in Hrow as (l & Hin & Hrow).
  rewrite List.Forall_forall in Hl, Hr. specialize (Hl l Hin).
  unfold pd.join_row in Hrow.
  destruct (List.filter _ (pd.rows right)) as [|m ms] eqn:Hf.
  - destruct Hrow as [<- | []]. rewrite length_app, repeat_length. lia.
  - apply in_map_iff in Hrow as (r & <- & Hrin).
    rewrite <- Hf in Hrin. apply filter_In in Hrin as [Hrin _].
    rewrite length_app, drop_key_length; [lia | now apply Hr].
Qed.

End JoinRows.

(** Keys that occur once select at most one row. *)
Lemma filter_key_unique {A} (f : A -> pd.value) (k : pd.value) (l : list A) :
  List.NoDup (map f l) ->
  length (List.filter (fun r => pd.value_eqb (f r) k) l) <= 1.
Proof.
  induction l as [|x l IH]; simpl; [lia |].
  intros Hnd. apply List.NoDup_cons_iff in Hnd as [Hx Hnd].
  destruct (pd.value_eqb (f x) k) eqn:E; simpl; [| now apply IH].
  apply value_eqb_eq in E. subst k.
  replace (List.filter _ l) with (@nil A); [simpl; lia |].
  symmetry. clear IH Hnd. induction l as [|y l IH]; simpl; [reflexivity |].
  simpl in Hx. destruct (pd.value_eqb (f y) (f x)) eqn:E.
  - apply value_eqb_eq in E. tauto.
  - apply IH. tauto.
Qed.

(** ** Renaming the identifier column *)

Lemma rename_rows (old new : string) (df : pd.DataFrame) :
  pd.rows (pd.rename old new df) = pd.rows df.
Proof. reflexivity. Qed.

Lemma rename_cell (old new c : string) (df : pd.DataFrame) (r : list pd.value) :
  c <> old -> c <> new ->
  pd.cell c (pd.columns (pd.rename old new df)) r = pd.cell c (pd.columns df) r.
Proof.
  intros Ho Hn. unfold pd.cell, pd.rename. simpl. revert r.
  induction (pd.columns df) as [|x cols IH]; intros [|v r]; simpl; try reflexivity.
  destruct (String.eqb x old) eqn:E; simpl.
  - apply String.eqb_eq in E. subst x.
    replace (String.eqb new c) with false by (symmetry; apply String.eqb_neq; congruence).
    replace (String.eqb old c) with false by (symmetry; apply String.eqb_neq; congruence).
    apply IH.
  - destruct (String.eqb x c); [reflexivity | apply IH].
Qed.

Lemma rename_In (old new c : string) (df : pd.DataFrame) :
  c <> old -> c <> new ->
  In c (pd.columns (pd.rename old new df)) <-> In c (pd.columns df).
Proof.
  intros Ho Hn. unfold pd.rename. simpl. rewrite in_map_iff. split.
  - intros (x & Hx & Hin). destruct (String.eqb x old); congruence.
  - intros H. exists c. split; [| exact H].
    now replace (String.eqb c old) with false by (symmetry; now apply String.eqb_neq).
Qed.

Lemma rename_rectangular (old new : string) (df : pd.DataFrame) :
  rectangular df -> rectangular (pd.rename old new df).
Proof. unfold rectangular, pd.rename. simpl. now rewrite length_map. Qed.

Section Normalize.

Variables (df : pd.DataFrame) (c : string).
Hypothesis c_not_id : c <> "id".

Lemma normalize_departments_rows :
  pd.rows (normalize_departments df) = pd.rows df.
Proof. unfold normalize_departments. now destruct (_ && _). Qed.

Lemma normalize_employees_rows :
  pd.rows (normalize_employees df) = pd.rows df.
Proof. unfold normalize_employees. now destruct (_ && _). Qed.

Lemma normalize_departments_rectangular :
  rectangular df -> rectangular (normalize_departments df).
Proof.
  unfold normalize_departments. destruct (_ && _); auto using rename_rectangular.
Qed.

Lemma normalize_employees_rectangular :
  rectangular df -> rectangular (normalize_employees df).
Proof.
  unfold normalize_employees. destruct (_ && _); auto using rename_rectangular.
Qed.

Lemma normalize_departments_In :
  c <> "department_id" ->
  In c (pd.columns (normalize_departments df)) <-> In c (pd.columns df).
Proof.
  intros H. unfold normalize_departments.
  destruct (_ && _); [now apply rename_In | tauto].
Qed.

Lemma normalize_employees_In :
  c <> "employee_id" ->
  In c (pd.columns (normalize_employees df)) <-> In c (pd.columns df).
Proof.
  intros H. unfold normalize_employees.
  destruct (_ && _); [now apply rename_In | tauto].
Qed.

Lemma normalize_departments_cell (r : list pd.value) :
  c <> "department_id" ->
  pd.cell c (pd.columns (normalize_departments df)) r = pd.cell c (pd.columns df) r.
Proof.
  intros H. unfold normalize_departments.
  destruct (_ && _); [now apply rename_cell | reflexivity].
Qed.

End Normalize.

(** A label that both frames carry, the key apart, is not a label of the
    join: both copies are suffixed. *)
Lemma merge_overlap_absent (on c : string) (left right df : pd.DataFrame) :
  c <> on -> (forall c', c' +:+ "_x" <> c) -> (forall c', c' +:+ "_y" <> c) ->
  In c (pd.columns left) -> In c (pd.columns right) ->
  pd.merge left right on = inr df ->
  ~ In c (pd.columns df).
Proof.
  intros Hk Hx Hy Hl Hr Hm.
  destruct (merge_inr on left right df Hm) as (_ & _ & Hcols & _).
  assert (Ho : pd.overlaps on (pd.columns left) (pd.columns right) c = true).
  { unfold pd.overlaps. apply existsb_eqb_In in Hl, Hr. rewrite Hl, Hr.
    apply String.eqb_neq in Hk. now rewrite Hk. }
  rewrite Hcols. intros H. apply in_app_or in H as [H | H];
    apply in_map_iff in H as (c' & H & _);
    apply suffixed_eq in H as [_ H]; auto; congruence.
Qed.

Lemma column_inr (c : string) (df : pd.DataFrame) (vs : list pd.value) :
  pd.column c df = inr vs ->
  In c (pd.columns df) /\ vs = map (pd.cell c (pd.columns df)) (pd.rows df).
Proof.
  unfold pd.column. destruct (pd.has_column c df) eqn:E; [| discriminate].
  intros H. injection H as <-. split; [now apply has_column_In | reflexivity].
Qed.

Lemma count_departments_inr (lib : pd.Library) (emp_dept_df : pd.DataFrame) (dept_counts : pd.Series) :
  count_departments lib emp_dept_df = inr dept_counts ->
  exists names,
    pd.column "department_name" emp_dept_df = inr names
    /\ dept_counts = pd.value_counts lib names.
Proof.
  unfold count_departments.
  destruct (pd.has_column "department_name" emp_dept_df); [| discriminate]. simpl.
  destruct (pd.column "department_name" emp_dept_df) as [e | names]; [discriminate |].
  intros H. injection H as <-. eauto.
Qed.

Lemma employee_counts_inr (lib : pd.Library) (employees_df departments_df emp_dept_df : pd.DataFrame)
    (dept_counts : pd.Series) :
  employee_counts lib employees_df departments_df = inr (emp_dept_df, dept_counts) ->
  pd.merge (normalize_employees employees_df) (normalize_departments departments_df)
           "department_id" = inr emp_dept_df
  /\ count_departments lib emp_dept_df = inr dept_counts.
Proof.
  unfold employee_counts.
  destruct (pd.merge _ _ _) as [e | df]; [discriminate |].
  destruct (count_departments lib df) as [e | dc] eqn:E; [discriminate |].
  intros H. injection H as <- <-. auto.
Qed.

(** When the departments table supplies [department_name], the names the
    first aggregation counts are the joined cells of that column. *)
Lemma employee_counts_names (lib : pd.Library) (employees_df departments_df emp_dept_df : pd.DataFrame)
    (dept_counts : pd.Series) :
  rectangular employees_df ->
  In "department_name" (pd.columns departments_df) ->
  employee_counts lib employees_df departments_df = inr (emp_dept_df, dept_counts) ->
  dept_counts
  = pd.value_counts lib
      (flat_map (right_cells "department_id" "department_name"
                   (normalize_employees employees_df)
                   (normalize_departments departments_df))
                (pd.rows employees_df)).
Proof.
  intros Hrect Hd Hok.
  apply employee_counts_inr in Hok as [Hm Hc].
  apply count_departments_inr in Hc as (names & Hcol & ->).
  assert (Hd' : In "department_name" (pd.columns (normalize_departments departments_df))).
  { apply normalize_departments_In; [discriminate | discriminate | exact Hd]. }
  assert (He : ~ In "department_name" (pd.columns (normalize_employees employees_df))).
  { intros He. apply column_inr in Hcol as [Hin _]. revert Hin.
    apply (merge_overlap_absent "department_id" "department_name"
             (normalize_employees employees_df) (normalize_departments departments_df));
      auto using suffix_x_ne, suffix_y_ne. }
  rewrite (merge_column_right "department_id" "department_name"
             (normalize_employees employees_df) (normalize_departments departments_df))
    in Hcol; auto using suffix_x_ne, suffix_y_ne, normalize_employees_rectangular.
  injection Hcol as <-. now rewrite normalize_employees_rows.
Qed.

(** ** The employee count per department *)

Lemma flat_map_singletons {A} (f : A -> list pd.value) (ls : list A) :
  (forall l, In l ls -> exists v, f l = [v] /\ v <> pd.NA) ->
  length (List.filter pd.notna (flat_map f ls)) = length ls.
Proof.
  induction ls as [|l ls IH]; simpl; [reflexivity |].
  intros H. destruct (H l (or_introl eq_refl)) as (v & -> & Hv). simpl.
  destruct v; [congruence | |]; simpl; f_equal; apply IH; auto.
Qed.

Lemma cell_notna_In (c : string) (cols : list string) (r : list pd.value) :
  pd.cell c cols r <> pd.NA -> In c cols.
Proof.
  unfold pd.cell. destruct (find _ (combine cols r)) as [p |] eqn:E; [| congruence].
  intros _. apply find_some in E as [Hin Hc]. apply String.eqb_eq in Hc. subst c.
  destruct p as [x v]. now apply in_combine_l in Hin.
Qed.

(** C1, as amended: when every row of the employees table refers to
    exactly one row of the departments table, and that row has a name,
    the counts of the employee-count aggregation add up to the number of
    rows of the employees table. *)
Theorem employee_count_total (lib : pd.Library)
    (employees_df departments_df emp_dept_df : pd.DataFrame) (dept_counts : pd.Series) :
  pd.admissible lib ->
  pd.well_formed employees_df = true ->
  employee_counts lib employees_df departments_df = inr (emp_dept_df, dept_counts) ->
  (forall l, In l (pd.rows employees_df) ->
     exists m,
       departments_of employees_df departments_df l = [m]
       /\ pd.cell "department_name" (pd.columns departments_df) m <> pd.NA) ->
  pd.total dept_counts = pd.len employees_df.
Proof.
  intros Hlib Hwf Hok Hone.
  apply well_formed_rectangular in Hwf.
  assert (Hcase : pd.rows employees_df = []
                  \/ In "department_name" (pd.columns departments_df)).
  { destruct (pd.rows employees_df) as [|l ls]; [now left | right].
    destruct (Hone l (or_introl eq_refl)) as (m & _ & Hv).
    now apply cell_notna_In in Hv. }
  destruct Hcase as [Hrows | Hname].
  { apply employee_counts_inr in Hok as [Hm Hc].
    destruct (merge_inr _ _ _ _ Hm) as (_ & _ & _ & Hrows1).
    rewrite normalize_employees_rows, Hrows in Hrows1.
    apply count_departments_inr in Hc as (names & Hcol & ->).
    apply column_inr in Hcol as [_ ->]. rewrite Hrows1.
    rewrite (total_value_counts lib _ Hlib). unfold pd.len. now rewrite Hrows. }
  rewrite (employee_counts_names _ _ _ _ _ Hwf Hname Hok), (total_value_counts lib _ Hlib).
  apply flat_map_singletons. intros l Hl.
  destruct (Hone l Hl) as (m & Hm & Hv). unfold departments_of in Hm.
  unfold right_cells. rewrite Hm.
  exists (pd.cell "department_name" (pd.columns (normalize_departments departments_df)) m).
  split; [reflexivity |].
  now rewrite normalize_departments_cell by discriminate.
Qed.

Lemma employee_count_total_witness :
  pd.total [(pd.VStr "Eng", 1)] = pd.len one_employee.
Proof.
  apply (employee_count_total sharing_pandas one_employee partly_twice_listed_departments
           (table ["employee_id"; "department_id"; "department_name"]
              [[pd.VInt 1; pd.VInt 10; pd.VStr "Eng"]])
           _ sharing_pandas_admissible);
    try reflexivity.
  intros l [<- | []]. eexists. split; [reflexivity | discriminate].
Defined.

(** C1 as stated fails: a department without a name takes its employees
    out of the counts, and a department identifier carried by two rows
    counts its employees twice. *)
Lemma employee_count_total_needs_names_and_unique_ids :
  (exists emp_dept_df dept_counts refs ids,
      employee_counts sharing_pandas one_employee unnamed_department
      = inr (emp_dept_df, dept_counts)
      /\ pd.column "department_id" (normalize_employees one_employee) = inr refs
      /\ pd.column "department_id" (normalize_departments unnamed_department) = inr ids
      /\ incl refs ids
      /\ pd.total dept_counts = 0 /\ pd.len one_employee = 1)
  /\ (exists emp_dept_df dept_counts refs ids,
      employee_counts sharing_pandas one_employee twice_listed_department
      = inr (emp_dept_df, dept_counts)
      /\ pd.column "department_id" (normalize_employees one_employee) = inr refs
      /\ pd.column "department_id" (normalize_departments twice_listed_department) = inr ids
      /\ incl refs ids
      /\ pd.total dept_counts = 2 /\ pd.len one_employee = 1).
Proof.
  split; do 4 eexists; repeat split; try reflexivity;
    intros v Hv; simpl in *; intuition.
Qed.



Lemma right_cells_with_rows (on c : string) (left right : pd.DataFrame)
    (rs : list (list pd.value)) (l : list pd.value) :
  right_cells on c (with_rows left rs) right l = right_cells on c left right l.
Proof. reflexivity. Qed.



Lemma right_cells_unmatched (on c : string) (left right : pd.DataFrame)
    (l : list pd.value) :
  matching on left right l = [] -> right_cells on c left right l = [pd.NA].
Proof. unfold right_cells. now intros ->. Qed.





(** ** The fill and the project count per department *)

Lemma cell_fillna (c : string) (v : pd.value) (cols : list string) (r : list pd.value) :
  In c cols -> length r = length cols ->
  pd.cell c cols
    (map (fun p => if String.eqb (fst p) c && pd.isna (snd p) then v else snd p)
         (combine cols r))
  = if pd.isna (pd.cell c cols r) then v else pd.cell c cols r.
Proof.
  unfold pd.cell. revert r.
  induction cols as [|x cols IH]; intros [|a r] Hin Hlen; simpl in *;
    try tauto; try discriminate.
  destruct (String.eqb x c) eqn:E; simpl; [reflexivity |].
  apply IH; [| lia]. destruct Hin as [-> | Hin]; [| exact Hin].
  now rewrite String.eqb_refl in E.
Qed.

Lemma fillna_column (lib : pd.Library) (c : string) (v : pd.value) (df df' : pd.DataFrame) :
  rectangular df ->
  pd.fillna lib c v df = inr df' ->
  In c (pd.columns df)
  /\ pd.column c df'
     = inr (map (fun a => if pd.copy_on_write lib then a
                          else if pd.isna a then v else a)
                (map (pd.cell c (pd.columns df)) (pd.rows df))).
Proof.
  unfold pd.fillna, pd.column. intros Hrect.
  destruct (pd.has_column c df) eqn:E; [| discriminate].
  destruct (pd.copy_on_write lib); intros H; injection H as <-.
  - rewrite E. apply has_column_In in E. split; [exact E |]. f_equal.
    now rewrite map_id.
  - unfold pd.has_column in *. simpl. rewrite E.
    apply existsb_eqb_In in E. split; [exact E |]. f_equal.
    rewrite !map_map. apply map_ext_in. intros r Hr.
    unfold rectangular in Hrect. rewrite List.Forall_forall in Hrect.
    apply cell_fillna; auto.
Qed.

Lemma count_projects_inr (lib : pd.Library) (projects_df emp_dept_df : pd.DataFrame)
    (counts : pd.Series) :
  rectangular projects_df -> rectangular emp_dept_df ->
  count_projects lib projects_df emp_dept_df = inr counts ->
  exists full_df,
    pd.merge projects_df emp_dept_df "employee_id" = inr full_df
    /\ In "department_name" (pd.columns full_df)
    /\ counts
       = pd.value_counts lib
           (map (counted_name lib)
                (map (pd.cell "department_name" (pd.columns full_df)) (pd.rows full_df))).
Proof.
  intros Hp He. unfold count_projects.
  destruct (pd.merge projects_df emp_dept_df "employee_id") as [e | full_df] eqn:Hm;
    [discriminate |].
  destruct (pd.fillna lib _ _ full_df) as [e | filled] eqn:Hf; [discriminate |].
  apply fillna_column in Hf as [Hin Hcol];
    [| now apply (merge_rectangular "employee_id" projects_df emp_dept_df)].
  rewrite Hcol. intros H. injection H as <-. eauto.
Qed.

Lemma counted_name_filled (lib : pd.Library) (vs : list pd.value) :
  pd.copy_on_write lib = false -> map (counted_name lib) vs = map fill_unknown vs.
Proof. intros H. apply map_ext. intros v. unfold counted_name. now rewrite H. Qed.

Lemma counted_name_as_is (lib : pd.Library) (vs : list pd.value) :
  pd.copy_on_write lib = true -> map (counted_name lib) vs = vs.
Proof.
  intros H. rewrite <- (map_id vs) at 2. apply map_ext. intros v.
  unfold counted_name. now rewrite H.
Qed.

Lemma filter_notna_fill (vs : list pd.value) :
  List.filter pd.notna (map fill_unknown vs) = map fill_unknown vs.
Proof.
  induction vs as [|v vs IH]; simpl; [reflexivity |].
  destruct v; simpl; now rewrite IH.
Qed.

Lemma occurrences_fill (vs : list pd.value) :
  occurrences pd.NA vs <= occurrences (pd.VStr "Unknown") (map fill_unknown vs).
Proof.
  unfold occurrences. induction vs as [|v vs IH]; [simpl; lia |].
  cbn [map List.filter].
  destruct v as [| z | s]; cbn [fill_unknown pd.isna].
  - rewrite !value_eqb_refl. cbn [length]. lia.
  - change (pd.value_eqb pd.NA (pd.VInt z)) with false.
    destruct (pd.value_eqb _ _); cbn [length]; lia.
  - change (pd.value_eqb pd.NA (pd.VStr s)) with false.
    destruct (pd.value_eqb _ _); cbn [length]; lia.
Qed.

Lemma occurrences_unmatched (f : list pd.value -> list pd.value)
    (keep : list pd.value -> bool) (ls : list (list pd.value)) :
  (forall l, keep l = false -> f l = [pd.NA]) ->
  length (List.filter (fun l => negb (keep l)) ls) <= occurrences pd.NA (flat_map f ls).
Proof.
  unfold occurrences. intros H. induction ls as [|l ls IH]; simpl; [lia |].
  rewrite List.filter_app, length_app.
  destruct (keep l) eqn:E; simpl; [lia |].
  rewrite (H l E). simpl. lia.
Qed.

(** C2, as amended: with a pandas in which the in-place fill of step 7
    reaches the frame (no copy-on-write), and when no row of the
    project-assignment table matches more than one row of the
    employee-department view, the counts of the project-count aggregation
    add up to the number of rows of the project-assignment table, and the
    rows whose employee reference is no employee's identifier are counted
    under the label [Unknown]. *)
Theorem project_count_total (lib : pd.Library)
    (employees_df departments_df projects_df emp_dept_df : pd.DataFrame)
    (dept_counts project_dept_counts : pd.Series) :
  pd.admissible lib ->
  pd.copy_on_write lib = false ->
  pd.well_formed employees_df = true ->
  pd.well_formed departments_df = true ->
  pd.well_formed projects_df = true ->
  employee_counts lib employees_df departments_df = inr (emp_dept_df, dept_counts) ->
  count_projects lib projects_df emp_dept_df = inr project_dept_counts ->
  (forall l, In l (pd.rows projects_df) ->
     length (matching "employee_id" projects_df emp_dept_df l) <= 1) ->
  transform lib employees_df departments_df projects_df
  = inr (dept_counts, project_dept_counts)
  /\ pd.total project_dept_counts = pd.len projects_df
  /\ length (List.filter (fun l => negb (has_employee projects_df emp_dept_df l))
                         (pd.rows projects_df))
     <= count_of (pd.VStr "Unknown") project_dept_counts.
Proof.
  intros Hlib Hcow Hwe Hwd Hwp Hok Hpc Hone.
  apply well_formed_rectangular in Hwe, Hwd, Hwp.
  split; [unfold transform; now rewrite Hok, Hpc |].
  pose proof Hok as Hok'. apply employee_counts_inr in Hok' as [Hm1 Hc1].
  assert (Hrect : rectangular emp_dept_df).
  { apply (merge_rectangular "department_id" _ _ _
             (normalize_employees_rectangular _ Hwe)
             (normalize_departments_rectangular _ Hwd) Hm1). }
  apply count_departments_inr in Hc1 as (names1 & Hcol1 & _).
  apply column_inr in Hcol1 as [Hname _].
  destruct (count_projects_inr _ _ _ _ Hwp Hrect Hpc) as (full_df & Hm & Hin & ->).
  rewrite (counted_name_filled lib _ Hcow).
  split.
  - rewrite (total_value_counts lib _ Hlib), filter_notna_fill, !length_map.
    apply (merge_len "employee_id" projects_df emp_dept_df full_df Hm).
    now apply List.Forall_forall.
  - rewrite (count_of_value_counts lib _ _ Hlib) by discriminate.
    etransitivity; [| apply occurrences_fill].
    assert (Hp : ~ In "department_name" (pd.columns projects_df)).
    { intros Hp. revert Hin.
      apply (merge_overlap_absent "employee_id" "department_name" projects_df emp_dept_df);
        auto using suffix_x_ne, suffix_y_ne. }
    pose proof (merge_column_right "employee_id" "department_name" projects_df emp_dept_df)
      as Hcol.
    specialize (Hcol ltac:(discriminate) suffix_x_ne suffix_y_ne Hwp Hp Hname full_df Hm).
    apply column_inr in Hcol as [_ Hcol]. rewrite <- Hcol.
    apply (occurrences_unmatched _ (has_employee projects_df emp_dept_df)).
    intros l Hl. apply right_cells_unmatched. unfold has_employee in Hl.
    now destruct (matching _ _ _ l).
Qed.

Lemma project_count_total_witness :
  pd.total [(pd.VStr "Eng", 1); (pd.VStr "Sales", 1); (pd.VStr "Unknown", 1)]
  = pd.len scenario_projects
  /\ 1 <= count_of (pd.VStr "Unknown")
            [(pd.VStr "Eng", 1); (pd.VStr "Sales", 1); (pd.VStr "Unknown", 1)].
Proof.
  destruct (project_count_total sharing_pandas
              scenario_employees scenario_departments scenario_projects
              (table ["employee_id"; "department_id"; "department_name"]
                 [[pd.VInt 1; pd.VInt 10; pd.VStr "Eng"];
                  [pd.VInt 2; pd.VInt 10; pd.VStr "Eng"];
                  [pd.VInt 3; pd.VInt 20; pd.VStr "Sales"]])
              [(pd.VStr "Eng", 2); (pd.VStr "Sales", 1)]
              [(pd.VStr "Eng", 1); (pd.VStr "Sales", 1); (pd.VStr "Unknown", 1)]
              sharing_pandas_admissible eq_refl
              eq_refl eq_refl eq_refl eq_refl eq_refl)
    as (_ & Htotal & Hunknown).
  - intros l [<- | [<- | [<- | []]]]; vm_compute; lia.
  - split; [exact Htotal | exact Hunknown].
Defined.

(** C2 as stated fails: an employee whose department identifier is carried
    by two department rows stands twice in the employee-department view, and
    each of that employee's projects is then counted twice. *)
Lemma project_count_total_needs_unique_employees :
  exists dept_counts project_dept_counts,
    transform sharing_pandas one_employee twice_listed_department one_project
    = inr (dept_counts, project_dept_counts)
    /\ pd.total project_dept_counts = 2
    /\ pd.len one_project = 1.
Proof. do 2 eexists. repeat split; reflexivity. Qed.

(** ** The rename guard *)

(** C4: a departments table that already has a [department_id] column, and
    an employees table that already has an [employee_id] column, pass the
    normalization unchanged; a table is renamed only if it has [id] and
    lacks the target label. *)
Theorem rename_guard (departments_df employees_df : pd.DataFrame) :
  pd.has_column "department_id" departments_df = true ->
  pd.has_column "employee_id" employees_df = true ->
  normalize_departments departments_df = departments_df
  /\ normalize_employees employees_df = employees_df
  /\ (forall df, normalize_departments df <> df ->
                 pd.has_column "id" df = true /\ pd.has_column "department_id" df = false)
  /\ (forall df, normalize_employees df <> df ->
                 pd.has_column "id" df = true /\ pd.has_column "employee_id" df = false).
Proof.
  intros Hd He. unfold normalize_departments, normalize_employees.
  rewrite Hd, He, !andb_false_r. repeat split; try reflexivity.
  - destruct (pd.has_column "id" df); [reflexivity | simpl in *; congruence].
  - destruct (pd.has_column "department_id" df), (pd.has_column "id" df);
      simpl in *; congruence.
  - destruct (pd.has_column "id" df); [reflexivity | simpl in *; congruence].
  - destruct (pd.has_column "employee_id" df), (pd.has_column "id" df);
      simpl in *; congruence.
Qed.

Lemma rename_guard_witness :
  normalize_departments
    (table ["id"; "department_id"; "department_name"]
           [[pd.VInt 1; pd.VInt 10; pd.VStr "Eng"]])
  = table ["id"; "department_id"; "department_name"]
          [[pd.VInt 1; pd.VInt 10; pd.VStr "Eng"]]
  /\ normalize_employees
       (table ["id"; "employee_id"; "department_id"]
              [[pd.VInt 1; pd.VInt 7; pd.VInt 10]])
     = table ["id"; "employee_id"; "department_id"]
             [[pd.VInt 1; pd.VInt 7; pd.VInt 10]].
Proof.
  destruct (rename_guard
              (table ["id"; "department_id"; "department_name"]
                     [[pd.VInt 1; pd.VInt 10; pd.VStr "Eng"]])
              (table ["id"; "employee_id"; "department_id"]
                     [[pd.VInt 1; pd.VInt 7; pd.VInt 10]])
              eq_refl eq_refl) as (Hd & He & _).
  split; [exact Hd | exact He].
Defined.

(** ** The order of the employee counts *)

(** C9, as amended: the employee-count aggregation lists the departments
    by decreasing count.  The order among departments with the same count
    is the one the sort of the installed pandas gives them: it is the
    order in which their names first occur in the joined table where that
    sort keeps the order of equal counts, which it is not known to do. *)
Theorem employee_counts_order (lib : pd.Library)
    (emp_dept_df : pd.DataFrame) (names : list pd.value) (dept_counts : pd.Series) :
  pd.admissible lib ->
  pd.column "department_name" emp_dept_df = inr names ->
  count_departments lib emp_dept_df = inr dept_counts ->
  StronglySorted (fun p q => snd q <= snd p) dept_counts
  /\ (order_preserving lib ->
      forall a b n,
        In (a, n) dept_counts -> In (b, n) dept_counts ->
        position a names < position b names ->
        position a (pd.labels dept_counts) < position b (pd.labels dept_counts)).
Proof.
  intros Hlib Hcol Hc. apply count_departments_inr in Hc as (names' & Hcol' & ->).
  rewrite Hcol in Hcol'. injection Hcol' as <-.
  split; [now apply value_counts_sorted |].
  intros Hkeep. now apply value_counts_ties.
Qed.

Lemma employee_counts_order_witness :
  count_departments sharing_pandas tied_view
  = inr [(pd.VStr "Sales", 2); (pd.VStr "Eng", 2); (pd.VStr "Ops", 1)]
  /\ StronglySorted (fun p q => snd q <= snd p)
       [(pd.VStr "Sales", 2); (pd.VStr "Eng", 2); (pd.VStr "Ops", 1)]
  /\ position (pd.VStr "Sales") [pd.VStr "Sales"; pd.VStr "Eng"; pd.VStr "Ops"]
     < position (pd.VStr "Eng") [pd.VStr "Sales"; pd.VStr "Eng"; pd.VStr "Ops"].
Proof.
  split; [reflexivity |].
  destruct (employee_counts_order sharing_pandas tied_view
              [pd.VStr "Sales"; pd.VStr "Eng"; pd.VStr "Ops"; pd.VStr "Eng"; pd.VStr "Sales"]
              [(pd.VStr "Sales", 2); (pd.VStr "Eng", 2); (pd.VStr "Ops", 1)]
              sharing_pandas_admissible eq_refl eq_refl) as [Hsorted Hties].
  split; [exact Hsorted |].
  apply (Hties sharing_pandas_order_preserving (pd.VStr "Sales") (pd.VStr "Eng") 2);
    simpl; auto.
Defined.

(** C9 as stated fails: nothing in the program settles the order of equal
    counts.  With a sort that keeps the entries and lets the counts
    decrease, as pandas' does, but reverses equal counts, Eng comes before
    Sales although Sales is encountered first. *)
Lemma employee_counts_order_ties_not_fixed :
  pd.admissible reordering_pandas
  /\ pd.column "department_name" tied_view
     = inr [pd.VStr "Sales"; pd.VStr "Eng"; pd.VStr "Ops"; pd.VStr "Eng"; pd.VStr "Sales"]
  /\ count_departments reordering_pandas tied_view
     = inr [(pd.VStr "Eng", 2); (pd.VStr "Sales", 2); (pd.VStr "Ops", 1)]
  /\ position (pd.VStr "Sales")
       [pd.VStr "Sales"; pd.VStr "Eng"; pd.VStr "Ops"; pd.VStr "Eng"; pd.VStr "Sales"]
     < position (pd.VStr "Eng")
         [pd.VStr "Sales"; pd.VStr "Eng"; pd.VStr "Ops"; pd.VStr "Eng"; pd.VStr "Sales"]
  /\ position (pd.VStr "Eng")
       (pd.labels [(pd.VStr "Eng", 2); (pd.VStr "Sales", 2); (pd.VStr "Ops", 1)])
     < position (pd.VStr "Sales")
         (pd.labels [(pd.VStr "Eng", 2); (pd.VStr "Sales", 2); (pd.VStr "Ops", 1)]).
Proof.
  split; [exact reordering_pandas_admissible |].
  repeat split; try reflexivity; vm_compute; lia.
Qed.

(** ** Running the program *)

Lemma visualize_plan (env : Env) (dir : os.path) :
  exists pl,
    (forall s, (fst (visualize env dir s), fs (snd (visualize env dir s)))
               = carry_out dir pl (fs s))
    /\ (forall g1 g2, pl = Save g1 (inr g2) ->
        exists employees_df departments_df projects_df dept_counts project_dept_counts,
          read_sql env "SELECT * FROM employees" = inr employees_df
          /\ read_sql env "SELECT * FROM departments" = inr departments_df
          /\ read_sql env "SELECT * FROM project_assignments" = inr projects_df
          /\ transform (pandas env) employees_df departments_df projects_df
             = inr (dept_counts, project_dept_counts)
          /\ g1 = bar_chart dept_counts /\ g2 = pie_chart project_dept_counts).
Proof.
  destruct (create_engine env connection_string) as [x | []] eqn:HE.
  { exists (Fail x). split; [intros [out fs0 g0]; unfold visualize; run; reflexivity | discriminate]. }
  destruct (read_sql env "SELECT * FROM employees") as [x | e] eqn:H1.
  { exists (Fail x). split; [intros [out fs0 g0]; unfold visualize; run; reflexivity | discriminate]. }
  destruct (read_sql env "SELECT * FROM departments") as [x | d] eqn:H2.
  { exists (Fail x). split; [intros [out fs0 g0]; unfold visualize; run; reflexivity | discriminate]. }
  destruct (read_sql env "SELECT * FROM project_assignments") as [x | p] eqn:H3.
  { exists (Fail x). split; [intros [out fs0 g0]; unfold visualize; run; reflexivity | discriminate]. }
  destruct (pd.merge (normalize_employees e) (normalize_departments d) "department_id")
    as [x | edf] eqn:HM.
  { exists (Fail x). split; [intros [out fs0 g0]; unfold visualize; run; reflexivity | discriminate]. }
  destruct (style_use env "seaborn-v0_8-talk") as [x |] eqn:HS.
  { exists (Fail x). split; [intros [out fs0 g0]; unfold visualize; run; reflexivity | discriminate]. }
  destruct (count_departments (pandas env) edf) as [x | dc] eqn:HC.
  { exists (Fail x). split; [intros [out fs0 g0]; unfold visualize; run; reflexivity | discriminate]. }
  destruct (plot_bar env dc) as [x |] eqn:HB.
  { exists (Fail x). split; [intros [out fs0 g0]; unfold visualize; run; reflexivity | discriminate]. }
  destruct (count_projects (pandas env) p edf) as [x | pc] eqn:HC2.
  { exists (Save (bar_chart dc) (inl x)). split; [| discriminate].
    intros [out fs0 g0]. unfold visualize, carry_out, bar_chart. run.
    write_cases; reflexivity. }
  destruct (plot_pie env pc) as [x |] eqn:HP.
  { exists (Save (bar_chart dc) (inl x)). split; [| discriminate].
    intros [out fs0 g0]. unfold visualize, carry_out, bar_chart. run.
    write_cases; reflexivity. }
  exists (Save (bar_chart dc) (inr (pie_chart pc))). split.
  - intros [out fs0 g0]. unfold visualize, carry_out, bar_chart, pie_chart. run.
    write_cases; [reflexivity |]. write_cases; reflexivity.
  - intros g1 g2 H. injection H as <- <-.
    exists e, d, p, dc, pc. unfold transform, employee_counts.
    rewrite HM, HC, HC2. repeat split; assumption || reflexivity.
Qed.

Lemma report_run (e : py.exn) (s : State) :
  report e s
  = (inr false, {| stdout := stdout s ++ report_lines e; fs := fs s; figures := figures s |}).
Proof.
  destruct s as [out fs0 g0]. unfold report, report_lines. step.
  now rewrite <- !app_assoc.
Qed.

(** ** Writing the same files again *)

Section Files.

Variable dir : os.path.

Local Abbreviation p1 := (os.path_join dir plot1_name).
Local Abbreviation p2 := (os.path_join dir plot2_name).

Implicit Types (fs : os.FileSystem figure) (g : figure).

Lemma dirname_path_join (name : string) : os.dirname (os.path_join dir name) = dir.
Proof. unfold os.dirname, os.path_join. apply removelast_last. Qed.

Lemma path_join_ne (name : string) : os.path_join dir name <> dir.
Proof.
  unfold os.path_join. intros H. apply (f_equal (@length string)) in H.
  rewrite length_app in H. simpl in H. lia.
Qed.

Lemma plot_paths_differ : p1 <> p2.
Proof.
  unfold os.path_join. intros H. apply app_inv_head in H. discriminate.
Qed.

Lemma write_file_inr (name : string) g fs fs' :
  os.write_file (os.path_join dir name) g fs = inr fs' ->
  fs' = {| os.nodes := <[os.path_join dir name := os.File g]> (os.nodes fs);
           os.writable := os.writable fs |}
  /\ os.nodes fs !! dir = Some os.Dir
  /\ os.writable fs = true.
Proof.
  unfold os.write_file. rewrite dirname_path_join.
  destruct (os.nodes fs !! dir) as [[| c] |]; try discriminate.
  destruct (os.nodes fs !! os.path_join dir name) as [[| c] |]; try discriminate;
    destruct (os.writable fs); try discriminate;
    intros H; injection H as <-; auto.
Qed.

(** A file that is already there with the same content is written again
    without a change. *)
Lemma write_file_id (name : string) g fs :
  os.nodes fs !! dir = Some os.Dir ->
  os.nodes fs !! os.path_join dir name = Some (os.File g) ->
  os.writable fs = true ->
  os.write_file (os.path_join dir name) g fs = inr fs.
Proof.
  intros Hd Hf Hw. unfold os.write_file. rewrite dirname_path_join, Hd, Hf, Hw.
  f_equal. destruct fs as [m w]. simpl in *. f_equal; [| congruence].
  now apply insert_id.
Qed.

Lemma write_file_again (name : string) g fs fs' :
  os.write_file (os.path_join dir name) g fs = inr fs' ->
  os.write_file (os.path_join dir name) g fs' = inr fs'.
Proof.
  intros H. apply write_file_inr in H as (-> & Hd & Hw).
  apply write_file_id; simpl; auto.
  - rewrite lookup_insert_ne; [exact Hd | apply path_join_ne].
  - apply lookup_insert_eq.
Qed.

Lemma write_file_exists (name : string) g fs fs' :
  os.write_file (os.path_join dir name) g fs = inr fs' ->
  os.path_exists dir fs' = true.
Proof.
  intros H. apply write_file_inr in H as (-> & Hd & Hw).
  unfold os.path_exists. simpl.
  rewrite lookup_insert_ne; [now rewrite Hd | apply path_join_ne].
Qed.

(** After both files are written, writing the first again changes
    nothing. *)
Lemma write_first_again g1 g2 fs fs1 fs2 :
  os.write_file p1 g1 fs = inr fs1 ->
  os.write_file p2 g2 fs1 = inr fs2 ->
  os.write_file p1 g1 fs2 = inr fs2.
Proof.
  intros H1 H2.
  apply write_file_inr in H1 as (-> & Hd & Hw).
  apply write_file_inr in H2 as (-> & Hd' & Hw').
  apply write_file_id; simpl in *; auto.
  - rewrite lookup_insert_ne; [exact Hd' | apply path_join_ne].
  - rewrite lookup_insert_ne; [apply lookup_insert_eq |].
    intros H. now apply plot_paths_differ.
Qed.

Lemma carry_out_twice (pl : plan) fs :
  os.path_exists dir fs = true ->
  os.path_exists dir (snd (carry_out dir pl fs)) = true
  /\ carry_out dir pl (snd (carry_out dir pl fs)) = carry_out dir pl fs.
Proof.
  intros Hex. destruct pl as [e | g1 next]; simpl; [auto |].
  destruct (os.write_file p1 g1 fs) as [e | fs1] eqn:W1; simpl.
  { now rewrite W1. }
  pose proof (write_file_again _ _ _ _ W1) as W1'.
  pose proof (write_file_exists _ _ _ _ W1) as Hex1.
  destruct next as [e | g2]; simpl.
  { split; [exact Hex1 |]. now rewrite W1'. }
  destruct (os.write_file p2 g2 fs1) as [e | fs2] eqn:W2; simpl.
  { split; [exact Hex1 |]. rewrite W1'. now rewrite W2. }
  split; [exact (write_file_exists _ _ _ _ W2) |].
  rewrite (write_first_again _ _ _ _ _ W1 W2).
  now rewrite (write_file_again _ _ _ _ W2).
Qed.

(** A second run on the files the first one left finds them as they are
    and ends as the first one did. *)
Lemma carry_out_guarded_twice (pl : plan) fs :
  carry_out_guarded dir pl (snd (carry_out_guarded dir pl fs))
  = carry_out_guarded dir pl fs.
Proof.
  unfold carry_out_guarded at 2 3.
  destruct (os.path_exists dir fs) eqn:Hex.
  - destruct (carry_out_twice pl fs Hex) as [Hex' Hsame].
    destruct (carry_out dir pl fs) as [[e | b] fs1] eqn:Hc; simpl in *;
      unfold carry_out_guarded; rewrite Hex', Hsame; reflexivity.
  - destruct (os.makedirs dir fs) as [e | fs0] eqn:Hmk; simpl.
    + unfold carry_out_guarded. now rewrite Hex, Hmk.
    + assert (Hex0 : os.path_exists dir fs0 = true).
      { unfold os.makedirs in Hmk. destruct (os.writable fs); [| discriminate].
        injection Hmk as <-. unfold os.path_exists. simpl.
        now rewrite lookup_insert_eq. }
      destruct (carry_out_twice pl fs0 Hex0) as [Hex' Hsame].
      destruct (carry_out dir pl fs0) as [[e | b] fs1] eqn:Hc; simpl in *;
        unfold carry_out_guarded; rewrite Hex', Hsame; reflexivity.
Qed.

(** Where a run ends well, both figures are in their files. *)
Lemma carry_out_guarded_true (pl : plan) fs fs' :
  carry_out_guarded dir pl fs = (inr true, fs') ->
  exists g1 g2,
    pl = Save g1 (inr g2)
    /\ os.nodes fs' !! p1 = Some (os.File g1)
    /\ os.nodes fs' !! p2 = Some (os.File g2).
Proof.
  unfold carry_out_guarded.
  destruct (if os.path_exists dir fs then _ else _) as [e | fs0]; [discriminate |].
  destruct pl as [e | g1 next]; simpl; [discriminate |].
  destruct (os.write_file p1 g1 fs0) as [e | fs1] eqn:W1; [discriminate |].
  destruct next as [e | g2]; [discriminate |].
  destruct (os.write_file p2 g2 fs1) as [e | fs2] eqn:W2; [discriminate |].
  intros H. injection H as <-. exists g1, g2.
  apply write_file_inr in W1 as (-> & _ & _).
  apply write_file_inr in W2 as (-> & _ & _). simpl.
  split; [reflexivity |]. split.
  - rewrite lookup_insert_ne; [apply lookup_insert_eq |].
    intros H. now apply plot_paths_differ.
  - apply lookup_insert_eq.
Qed.

End Files.

(** The whole function, seen from the file system: what it returns and
    the files it leaves are those of [carry_out_guarded]. *)
Lemma create_visualizations_plan (env : Env) :
  exists pl,
    (forall s, (fst (create_visualizations env s), fs (snd (create_visualizations env s)))
               = carry_out_guarded (static_dir env) pl (fs s))
    /\ (forall g1 g2, pl = Save g1 (inr g2) ->
        exists employees_df departments_df projects_df dept_counts project_dept_counts,
          read_sql env "SELECT * FROM employees" = inr employees_df
          /\ read_sql env "SELECT * FROM departments" = inr departments_df
          /\ read_sql env "SELECT * FROM project_assignments" = inr projects_df
          /\ transform (pandas env) employees_df departments_df projects_df
             = inr (dept_counts, project_dept_counts)
          /\ g1 = bar_chart dept_counts /\ g2 = pie_chart project_dept_counts).
Proof.
  destruct (visualize_plan env (static_dir env)) as (pl & Hrun & Hok).
  exists pl. split; [| exact Hok].
  intros [out fs0 g0]. unfold create_visualizations, carry_out_guarded.
  fold (static_dir env). step.
  destruct (os.path_exists (static_dir env) fs0); cbn [negb]; step.
  - match goal with
    | |- context [visualize env (static_dir env) ?s] =>
        specialize (Hrun s); destruct (visualize env (static_dir env) s) as [[e | b] s1]
    end; cbn [fst snd fs] in Hrun; rewrite <- Hrun; [rewrite report_run |]; reflexivity.
  - destruct (os.makedirs (static_dir env) fs0) as [e | fs1]; step; [reflexivity |].
    match goal with
    | |- context [visualize env (static_dir env) ?s] =>
        specialize (Hrun s); destruct (visualize env (static_dir env) s) as [[e | b] s1]
    end; cbn [fst snd fs] in Hrun; rewrite <- Hrun; [rewrite report_run |]; reflexivity.
Qed.

(** ** Two runs in succession *)

(** C8: a second run right after a first one, on the same database, ends
    as the first did and leaves every file with the content it had; where
    the runs return [True], the two image files hold, both times, the
    employee counts and the project counts that [transform] computes from
    the three tables. *)
Theorem rerun_same_charts (env : Env) (s s1 s2 : State) (r1 r2 : py.exn + bool) :
  create_visualizations env s = (r1, s1) ->
  create_visualizations env s1 = (r2, s2) ->
  r2 = r1 /\ fs s2 = fs s1
  /\ (r1 = inr true ->
      exists employees_df departments_df projects_df dept_counts project_dept_counts,
        read_sql env "SELECT * FROM employees" = inr employees_df
        /\ read_sql env "SELECT * FROM departments" = inr departments_df
        /\ read_sql env "SELECT * FROM project_assignments" = inr projects_df
        /\ transform (pandas env) employees_df departments_df projects_df
           = inr (dept_counts, project_dept_counts)
        /\ saved_chart env plot1_name s1 = Some (bar_chart dept_counts)
        /\ saved_chart env plot2_name s1 = Some (pie_chart project_dept_counts)
        /\ saved_chart env plot1_name s2 = Some (bar_chart dept_counts)
        /\ saved_chart env plot2_name s2 = Some (pie_chart project_dept_counts)).
Proof.
  intros H1 H2.
  destruct (create_visualizations_plan env) as (pl & Hrun & Hok).
  pose proof (Hrun s) as E1. pose proof (Hrun s1) as E2.
  rewrite H1 in E1. rewrite H2 in E2. cbn [fst snd] in E1, E2.
  pose proof (carry_out_guarded_twice (static_dir env) pl (fs s)) as Htwice.
  rewrite <- E1 in Htwice. cbn [snd] in Htwice. rewrite <- E2 in Htwice.
  injection Htwice as Hr Hfs.
  split; [exact Hr |]. split; [exact Hfs |].
  intros ->. symmetry in E1.
  apply carry_out_guarded_true in E1 as (g1 & g2 & Hpl & Hp1 & Hp2).
  destruct (Hok g1 g2 Hpl) as (e & d & p & dc & pc & He & Hd & Hp & Ht & -> & ->).
  exists e, d, p, dc, pc. unfold saved_chart. rewrite Hfs, Hp1, Hp2.
  repeat split; assumption.
Qed.

Lemma rerun_same_charts_witness :
  let env := serving scenario_employees scenario_departments scenario_projects in
  let first := create_visualizations env (fresh true) in
  let second := create_visualizations env (snd first) in
  fst second = fst first /\ fs (snd second) = fs (snd first).
Proof.
  intros env first second.
  destruct (rerun_same_charts env (fresh true) (snd first) (snd second)
              (fst first) (fst second))
    as (Hr & Hfs & _).
  - vm_compute. reflexivity.
  - vm_compute. reflexivity.
  - split; [exact Hr | exact Hfs].
Defined.

(** ** The boundary of the [try] block *)

(** Whatever is raised inside the [try] block is caught: where the static
    directory exists or can be made, the function returns a boolean. *)
Lemma create_visualizations_returns (env : Env) (s : State) :
  os.path_exists (static_dir env) (fs s) = true \/ os.writable (fs s) = true ->
  exists b s', create_visualizations env s = (inr b, s').
Proof.
  intros Hdir. destruct (create_visualizations_plan env) as (pl & Hrun & _).
  specialize (Hrun s). destruct (create_visualizations env s) as [r s'].
  cbn [fst snd] in Hrun. unfold carry_out_guarded in Hrun.
  assert (Hens : exists fs0,
             (if os.path_exists (static_dir env) (fs s)
              then inr (fs s) else os.makedirs (static_dir env) (fs s)) = inr fs0).
  { destruct (os.path_exists (static_dir env) (fs s)); [eauto |].
    destruct Hdir as [Hdir | Hdir]; [discriminate |].
    unfold os.makedirs. rewrite Hdir. eauto. }
  destruct Hens as (fs0 & Hens). rewrite Hens in Hrun.
  destruct (carry_out (static_dir env) pl fs0) as [[e | b] fs1];
    injection Hrun as -> _; eauto.
Qed.

(** C6, where the code departs from it: the static directory is made
    before the [try] block is entered, so that when the directory is
    missing and cannot be made the error is not caught: the function raises
    [PermissionError] instead of returning [False]. *)
Theorem create_visualizations_raises (env : Env) (s : State) :
  os.path_exists (static_dir env) (fs s) = false ->
  os.writable (fs s) = false ->
  create_visualizations env s = (inl (os.PermissionError (static_dir env)), s).
Proof.
  destruct s as [out fs0 g0]. cbn [fs]. intros Hex Hw.
  unfold create_visualizations. fold (static_dir env). step.
  rewrite Hex. cbn [negb]. unfold os.makedirs. rewrite Hw. reflexivity.
Qed.

Lemma create_visualizations_raises_witness :
  create_visualizations
    (serving scenario_employees scenario_departments scenario_projects) (fresh false)
  = (inl (os.PermissionError ["srv"; "dashboard"; "static"]), fresh false).
Proof.
  apply (create_visualizations_raises
           (serving scenario_employees scenario_departments scenario_projects)
           (fresh false));
    reflexivity.
Defined.

(** ** The route *)

(** C7: when [create_visualizations] returns [True] the response is 200
    with the page of the template, which names the two image files (by
    file name, without a directory); when it returns [False] the response
    is 500 with a fixed error fragment, the same whatever went wrong. *)
Theorem index_response (env : Env) (s s' : State) (success : bool) :
  create_visualizations env s = (inr success, s') ->
  index env s
  = (inr (if success
          then {| flask.body := flask.index_html index_context; flask.status := 200 |}
          else {| flask.body := error_page; flask.status := 500 |}), s')
  /\ py.contains plot1_name (flask.index_html index_context) = true
  /\ py.contains plot2_name (flask.index_html index_context) = true
  /\ py.contains "/" plot1_name = false
  /\ py.contains "/" plot2_name = false.
Proof.
  intros H. split; [| repeat split; reflexivity].
  unfold index. cbv [mbind M_bind]. rewrite H.
  destruct success; reflexivity.
Qed.

Lemma index_response_witness :
  fst (index (serving scenario_employees scenario_departments scenario_projects)
             (fresh true))
  = inr {| flask.body := flask.index_html index_context; flask.status := 200 |}
  /\ fst (index unreachable (fresh true))
     = inr {| flask.body := error_page; flask.status := 500 |}
  /\ py.contains "Can't connect to MySQL server" error_page = false.
Proof.
  split; [| split].
  - destruct (index_response
                (serving scenario_employees scenario_departments scenario_projects)
                (fresh true)
                (snd (create_visualizations
                        (serving scenario_employees scenario_departments scenario_projects)
                        (fresh true)))
                true) as [H _].
    + vm_compute. reflexivity.
    + rewrite H. reflexivity.
  - destruct (index_response unreachable (fresh true)
                (snd (create_visualizations unreachable (fresh true))) false) as [H _].
    + vm_compute. reflexivity.
    + rewrite H. reflexivity.
  - reflexivity.
Defined.

(** ** The missing [department_name] column *)

(** A label that neither frame carries is not a label of the join. *)
Lemma merge_absent (on c : string) (left right df : pd.DataFrame) :
  (forall c', c' +:+ "_x" <> c) -> (forall c', c' +:+ "_y" <> c) ->
  ~ In c (pd.columns left) -> ~ In c (pd.columns right) ->
  pd.merge left right on = inr df ->
  ~ In c (pd.columns df).
Proof.
  intros Hx Hy Hl Hr Hm.
  destruct (merge_inr on left right df Hm) as (_ & _ & Hcols & _).
  rewrite Hcols. intros H. apply in_app_or in H as [H | H];
    apply in_map_iff in H as (c' & H & Hin);
    apply suffixed_eq in H as [-> _]; auto.
  apply filter_In in Hin as [Hin _]. auto.
Qed.

(** C5, as amended: when the tables load, the first join itself goes
    through (both tables have the [department_id] key after the
    normalization), the style is accepted, and neither the departments nor
    the employees table has a [department_name] column, the [try] block
    raises the [KeyError] with the descriptive message; the error is
    reported on standard output and the function returns [False] (the
    static directory existing or being makeable). *)
Theorem missing_department_name_reported
    (env : Env) (s : State) (employees_df departments_df projects_df emp_dept_df : pd.DataFrame) :
  os.path_exists (static_dir env) (fs s) = true \/ os.writable (fs s) = true ->
  create_engine env connection_string = inr tt ->
  read_sql env "SELECT * FROM employees" = inr employees_df ->
  read_sql env "SELECT * FROM departments" = inr departments_df ->
  read_sql env "SELECT * FROM project_assignments" = inr projects_df ->
  pd.merge (normalize_employees employees_df) (normalize_departments departments_df)
           "department_id" = inr emp_dept_df ->
  style_use env "seaborn-v0_8-talk" = None ->
  pd.has_column "department_name" departments_df = false ->
  pd.has_column "department_name" employees_df = false ->
  (forall s0, fst (visualize env (static_dir env) s0) = inl department_name_not_found)
  /\ exists s' printed,
       create_visualizations env s = (inr false, s')
       /\ stdout s'
          = stdout s ++ printed ++ report_lines department_name_not_found ++ [finished].
Proof.
  intros Hdir HE H1 H2 H3 HM HS Hd He.
  assert (HC : count_departments (pandas env) emp_dept_df = inl department_name_not_found).
  { unfold count_departments.
    replace (pd.has_column "department_name" emp_dept_df) with false; [reflexivity |].
    symmetry. apply has_column_not_In.
    apply (merge_absent "department_id" "department_name"
             (normalize_employees employees_df) (normalize_departments departments_df));
      auto using suffix_x_ne, suffix_y_ne.
    - rewrite normalize_employees_In by discriminate. now apply has_column_not_In.
    - rewrite normalize_departments_In by discriminate. now apply has_column_not_In. }
  assert (Hrun : exists printed, forall s0,
             visualize env (static_dir env) s0
             = (inl department_name_not_found,
                {| stdout := stdout s0 ++ printed; fs := fs s0; figures := figures s0 |})).
  { eexists. intros [out fs0 g0]. unfold visualize. run.
    rewrite <- !app_assoc. reflexivity. }
  destruct Hrun as (printed & Hrun).
  split; [intros s0; now rewrite Hrun |].
  destruct s as [out fs0 g0]. cbn [fs stdout] in *.
  unfold create_visualizations. fold (static_dir env). step.
  destruct (os.path_exists (static_dir env) fs0) eqn:Hex; cbn [negb]; step.
  - rewrite Hrun, report_run. step.
    eexists. exists printed. split; [reflexivity |]. cbn [stdout].
    unfold finished. rewrite <- !app_assoc. reflexivity.
  - destruct Hdir as [Hdir | Hdir]; [discriminate |].
    unfold os.makedirs. rewrite Hdir. step.
    rewrite Hrun, report_run. step.
    eexists. exists printed. split; [reflexivity |]. cbn [stdout].
    unfold finished. rewrite <- !app_assoc. reflexivity.
Qed.

Lemma missing_department_name_reported_witness :
  fst (visualize
         (serving scenario_employees scenario_departments_as_written scenario_projects)
         ["srv"; "dashboard"; "static"] (fresh true))
  = inl department_name_not_found.
Proof.
  destruct (missing_department_name_reported
              (serving scenario_employees scenario_departments_as_written scenario_projects)
              (fresh true)
              scenario_employees scenario_departments_as_written scenario_projects
              (table ["employee_id"; "department_id"; "name"]
                 [[pd.VInt 1; pd.VInt 10; pd.VStr "Eng"];
                  [pd.VInt 2; pd.VInt 10; pd.VStr "Eng"];
                  [pd.VInt 3; pd.VInt 20; pd.VStr "Sales"]])
              (or_intror eq_refl) eq_refl eq_refl eq_refl eq_refl eq_refl eq_refl
              eq_refl eq_refl) as [Hraised _].
  apply Hraised.
Defined.

(** C5 as stated fails: a departments table that lacks the key as well as
    the name makes the join itself raise, and what is caught is the join's
    own [KeyError] for [department_id]. *)
Lemma missing_key_raises_in_join :
  pd.has_column "department_name" departments_only_named = false
  /\ fst (visualize (serving one_employee departments_only_named one_project)
                    ["srv"; "dashboard"; "static"] (fresh true))
     = inl (py.KeyError "department_id")
  /\ py.KeyError "department_id" <> department_name_not_found.
Proof.
  split; [reflexivity |]. split; [reflexivity |].
  intros H. vm_compute in H. discriminate H.
Qed.


(** ** A run that goes through *)

Lemma last_four {A} (l : list A) (a b c d : A) :
  (((l ++ [a]) ++ [b]) ++ [c]) ++ [d] = l ++ [a; b; c; d].
Proof. now rewrite <- !app_assoc. Qed.

(** Once the static directory is there and the process may write, a run
    in which every call of the [try] body goes through returns [True],
    leaves both charts in their files and the open figures as they were,
    and ends its log with the two "Saved plot" lines and the closing
    line. *)
Lemma run_succeeds (env : Env) (s : State) (fs0 : os.FileSystem figure)
    (employees_df departments_df projects_df emp_dept_df : pd.DataFrame)
    (dept_counts project_dept_counts : pd.Series) :
  (if os.path_exists (static_dir env) (fs s) then inr (fs s)
   else os.makedirs (static_dir env) (fs s)) = inr fs0 ->
  os.nodes fs0 !! static_dir env = Some os.Dir ->
  os.writable fs0 = true ->
  os.nodes fs0 !! os.path_join (static_dir env) plot1_name <> Some os.Dir ->
  os.nodes fs0 !! os.path_join (static_dir env) plot2_name <> Some os.Dir ->
  create_engine env connection_string = inr tt ->
  read_sql env "SELECT * FROM employees" = inr employees_df ->
  read_sql env "SELECT * FROM departments" = inr departments_df ->
  read_sql env "SELECT * FROM project_assignments" = inr projects_df ->
  pd.merge (normalize_employees employees_df) (normalize_departments departments_df)
           "department_id" = inr emp_dept_df ->
  style_use env "seaborn-v0_8-talk" = None ->
  count_departments (pandas env) emp_dept_df = inr dept_counts ->
  plot_bar env dept_counts = None ->
  count_projects (pandas env) projects_df emp_dept_df = inr project_dept_counts ->
  plot_pie env project_dept_counts = None ->
  exists s' before,
    create_visualizations env s = (inr true, s')
    /\ saved_chart env plot1_name s' = Some (bar_chart dept_counts)
    /\ saved_chart env plot2_name s' = Some (pie_chart project_dept_counts)
    /\ figures s' = figures s
    /\ stdout s'
       = before
           ++ ["Saved plot to "
                 +:+ os.path_str (os.path_join (static_dir env) plot1_name);
               "Creating Visualization 2: Project Distribution by Department...";
               "Saved plot to "
                 +:+ os.path_str (os.path_join (static_dir env) plot2_name);
               finished].
Proof.
  destruct s as [out fsi g0]. cbn [fs figures].
  intros Hens Hdir Hw Hp1 Hp2 HE H1 H2 H3 HM HS HC HB HC2 HP.
  assert (HW1 : os.write_file (os.path_join (static_dir env) plot1_name)
                  {| kind := Some Bar; data := dept_counts;
                     title := "Number of Employees per Department";
                     xlabel := "Department"; ylabel := "Number of Employees" |} fs0
                = inr {| os.nodes := <[os.path_join (static_dir env) plot1_name
                                       := os.File (bar_chart dept_counts)]> (os.nodes fs0);
                         os.writable := os.writable fs0 |}).
  { unfold os.write_file. rewrite dirname_path_join, Hdir, Hw.
    destruct (os.nodes fs0 !! os.path_join (static_dir env) plot1_name) as [[| c] |];
      [congruence | reflexivity | reflexivity]. }
  assert (HW2 : os.write_file (os.path_join (static_dir env) plot2_name)
                  {| kind := Some Pie; data := project_dept_counts;
                     title := "Project Distribution by Department";
                     xlabel := ""; ylabel := "" |}
                  {| os.nodes := <[os.path_join (static_dir env) plot1_name
                                   := os.File (bar_chart dept_counts)]> (os.nodes fs0);
                     os.writable := os.writable fs0 |}
                = inr {| os.nodes :=
                           <[os.path_join (static_dir env) plot2_name
                             := os.File (pie_chart project_dept_counts)]>
                             (<[os.path_join (static_dir env) plot1_name
                                := os.File (bar_chart dept_counts)]> (os.nodes fs0));
                         os.writable := os.writable fs0 |}).
  { unfold os.write_file. cbn [os.nodes os.writable].
    rewrite dirname_path_join, Hw.
    rewrite lookup_insert_ne by apply path_join_ne. rewrite Hdir.
    rewrite lookup_insert_ne by apply plot_paths_differ.
    destruct (os.nodes fs0 !! os.path_join (static_dir env) plot2_name) as [[| c] |];
      [congruence | reflexivity | reflexivity]. }
  assert (Hend : forall s',
            os.nodes (fs s')
            = <[os.path_join (static_dir env) plot2_name
                := os.File (pie_chart project_dept_counts)]>
                (<[os.path_join (static_dir env) plot1_name
                   := os.File (bar_chart dept_counts)]> (os.nodes fs0)) ->
            saved_chart env plot1_name s' = Some (bar_chart dept_counts)
            /\ saved_chart env plot2_name s' = Some (pie_chart project_dept_counts)).
  { intros s' Hfs. unfold saved_chart. rewrite Hfs. split.
    - rewrite lookup_insert_ne
        by (intros H; symmetry in H; revert H; apply plot_paths_differ).
      now rewrite lookup_insert_eq.
    - now rewrite lookup_insert_eq. }
  unfold create_visualizations. fold (static_dir env). step.
  destruct (os.path_exists (static_dir env) fsi) eqn:Hex; cbn [negb]; step.
  - injection Hens as ->. unfold visualize. run.
    eexists. eexists. split; [reflexivity |].
    split; [now apply Hend |]. split; [now apply Hend |].
    split; [reflexivity |]. cbn [stdout]. apply last_four.
  - rewrite Hens. step. unfold visualize. run.
    eexists. eexists. split; [reflexivity |].
    split; [now apply Hend |]. split; [now apply Hend |].
    split; [reflexivity |]. cbn [stdout]. apply last_four.
Qed.

(** ** The scenario of the specification *)

(** C3, as amended: with the department names under the label
    [department_name], and a pandas in which the in-place fill of step 7
    reaches the frame (no copy-on-write), the scenario yields Eng=2,
    Sales=1 for the employees and Eng=1, Sales=1, Unknown=1 for the
    projects (three equal counts, in the order the sort gives them), and a
    run on a database serving these tables returns [True] with both charts
    saved. *)
Theorem scenario_counts (lib : pd.Library) :
  pd.admissible lib ->
  pd.copy_on_write lib = false ->
  exists project_dept_counts,
    Permutation [(pd.VStr "Eng", 1); (pd.VStr "Sales", 1); (pd.VStr "Unknown", 1)]
                project_dept_counts
    /\ transform lib scenario_employees scenario_departments scenario_projects
       = inr ([(pd.VStr "Eng", 2); (pd.VStr "Sales", 1)], project_dept_counts)
    /\ exists s,
         create_visualizations
           (serving_with lib scenario_employees scenario_departments scenario_projects)
           (fresh true)
         = (inr true, s)
         /\ saved_chart
              (serving_with lib scenario_employees scenario_departments scenario_projects)
              plot1_name s
            = Some (bar_chart [(pd.VStr "Eng", 2); (pd.VStr "Sales", 1)])
         /\ saved_chart
              (serving_with lib scenario_employees scenario_departments scenario_projects)
              plot2_name s
            = Some (pie_chart project_dept_counts).
Proof.
  intros Hlib Hcow. destruct lib as [cow sort]. cbn [pd.copy_on_write] in Hcow. subst cow.
  set (lib := {| pd.copy_on_write := false; pd.sort_values := sort |}) in *.
  set (view := table ["employee_id"; "department_id"; "department_name"]
                 [[pd.VInt 1; pd.VInt 10; pd.VStr "Eng"];
                  [pd.VInt 2; pd.VInt 10; pd.VStr "Eng"];
                  [pd.VInt 3; pd.VInt 20; pd.VStr "Sales"]]).
  assert (HM : pd.merge (normalize_employees scenario_employees)
                 (normalize_departments scenario_departments) "department_id"
               = inr view) by reflexivity.
  assert (HC : count_departments lib view
               = inr [(pd.VStr "Eng", 2); (pd.VStr "Sales", 1)]).
  { rewrite <- (sort_values_two lib (pd.VStr "Eng", 2) (pd.VStr "Sales", 1) Hlib)
      by (simpl; lia).
    reflexivity. }
  assert (HC2 : count_projects lib scenario_projects view
                = inr (sort [(pd.VStr "Eng", 1); (pd.VStr "Sales", 1);
                             (pd.VStr "Unknown", 1)])) by reflexivity.
  exists (sort [(pd.VStr "Eng", 1); (pd.VStr "Sales", 1); (pd.VStr "Unknown", 1)]).
  split; [apply (Hlib _) |].
  split; [unfold transform, employee_counts; now rewrite HM, HC, HC2 |].
  destruct (run_succeeds
              (serving_with lib scenario_employees scenario_departments scenario_projects)
              (fresh true)
              {| os.nodes := <[ ["srv"; "dashboard"; "static"] := os.Dir ]>
                               (os.nodes (fs (fresh true)));
                 os.writable := true |}
              scenario_employees scenario_departments scenario_projects view
              [(pd.VStr "Eng", 2); (pd.VStr "Sales", 1)]
              (sort [(pd.VStr "Eng", 1); (pd.VStr "Sales", 1); (pd.VStr "Unknown", 1)]))
    as (s & _ & Hrun & Hp1 & Hp2 & _); try reflexivity; try assumption.
  - vm_compute. discriminate.
  - vm_compute. discriminate.
  - exists s. auto.
Qed.

Lemma scenario_counts_witness :
  exists project_dept_counts,
    Permutation [(pd.VStr "Eng", 1); (pd.VStr "Sales", 1); (pd.VStr "Unknown", 1)]
                project_dept_counts
    /\ transform sharing_pandas scenario_employees scenario_departments scenario_projects
       = inr ([(pd.VStr "Eng", 2); (pd.VStr "Sales", 1)], project_dept_counts)
    /\ exists s,
         create_visualizations
           (serving scenario_employees scenario_departments scenario_projects)
           (fresh true)
         = (inr true, s)
         /\ saved_chart
              (serving scenario_employees scenario_departments scenario_projects)
              plot1_name s
            = Some (bar_chart [(pd.VStr "Eng", 2); (pd.VStr "Sales", 1)])
         /\ saved_chart
              (serving scenario_employees scenario_departments scenario_projects)
              plot2_name s
            = Some (pie_chart project_dept_counts).
Proof. apply (scenario_counts sharing_pandas sharing_pandas_admissible eq_refl). Defined.

(** C3 as stated fails: with the names under the label [name], as the
    scenario is written, the guard of step 6 raises and the run returns
    [False]. *)
Lemma scenario_as_written_fails :
  transform sharing_pandas scenario_employees scenario_departments_as_written
            scenario_projects
  = inl department_name_not_found
  /\ fst (create_visualizations
            (serving scenario_employees scenario_departments_as_written scenario_projects)
            (fresh true))
     = inr false.
Proof. split; reflexivity. Qed.
(** * Further properties of the program *)

(** ** What the normalization establishes *)

Lemma has_column_rename (old new : string) (df : pd.DataFrame) :
  old <> new ->
  pd.has_column new (pd.rename old new df)
  = pd.has_column old df || pd.has_column new df.
Proof.
  intros Hne. unfold pd.has_column, pd.rename. simpl.
  induction (pd.columns df) as [|x cols IH]; simpl; [reflexivity |].
  rewrite IH. destruct (String.eqb x old) eqn:E.
  - apply String.eqb_eq in E. subst x. now rewrite !String.eqb_refl.
  - rewrite (String.eqb_sym old x), E.
    destruct (String.eqb new x), (existsb (String.eqb old) cols); reflexivity.
Qed.

Lemma rename_columns_length (old new : string) (df : pd.DataFrame) :
  length (pd.columns (pd.rename old new df)) = length (pd.columns df).
Proof. unfold pd.rename. simpl. apply length_map. Qed.

Lemma normalize_departments_key (df : pd.DataFrame) :
  pd.has_column "department_id" (normalize_departments df)
  = pd.has_column "id" df || pd.has_column "department_id" df.
Proof.
  unfold normalize_departments.
  destruct (pd.has_column "id" df) eqn:Hid,
           (pd.has_column "department_id" df) eqn:Hk; simpl; auto.
  rewrite has_column_rename by discriminate. now rewrite Hid.
Qed.

Lemma normalize_employees_key (df : pd.DataFrame) :
  pd.has_column "employee_id" (normalize_employees df)
  = pd.has_column "id" df || pd.has_column "employee_id" df.
Proof.
  unfold normalize_employees.
  destruct (pd.has_column "id" df) eqn:Hid,
           (pd.has_column "employee_id" df) eqn:Hk; simpl; auto.
  rewrite has_column_rename by discriminate. now rewrite Hid.
Qed.

(** After the normalization a table has the key column as soon as it had
    the key or an [id] column; normalizing twice is normalizing once; and
    the rows and the number of columns stay as they were. *)
Theorem normalization_establishes_key (df : pd.DataFrame) :
  (pd.has_column "department_id" (normalize_departments df)
   = pd.has_column "id" df || pd.has_column "department_id" df
   /\ normalize_departments (normalize_departments df) = normalize_departments df
   /\ pd.rows (normalize_departments df) = pd.rows df
   /\ length (pd.columns (normalize_departments df)) = length (pd.columns df))
  /\ (pd.has_column "employee_id" (normalize_employees df)
      = pd.has_column "id" df || pd.has_column "employee_id" df
      /\ normalize_employees (normalize_employees df) = normalize_employees df
      /\ pd.rows (normalize_employees df) = pd.rows df
      /\ length (pd.columns (normalize_employees df)) = length (pd.columns df)).
Proof.
  split.
  - pose proof (normalize_departments_key df) as Hkey.
    split; [exact Hkey |]. split; [| split].
    + unfold normalize_departments at 1. rewrite Hkey.
      unfold normalize_departments.
      destruct (pd.has_column "id" df) eqn:Hid,
               (pd.has_column "department_id" df) eqn:Hk; simpl;
        rewrite ?Hid, ?Hk, ?andb_false_r; simpl; reflexivity.
    + apply normalize_departments_rows.
    + unfold normalize_departments.
      destruct (_ && _); [apply rename_columns_length | reflexivity].
  - pose proof (normalize_employees_key df) as Hkey.
    split; [exact Hkey |]. split; [| split].
    + unfold normalize_employees at 1. rewrite Hkey.
      unfold normalize_employees.
      destruct (pd.has_column "id" df) eqn:Hid,
               (pd.has_column "employee_id" df) eqn:Hk; simpl;
        rewrite ?Hid, ?Hk, ?andb_false_r; simpl; reflexivity.
    + apply normalize_employees_rows.
    + unfold normalize_employees.
      destruct (_ && _); [apply rename_columns_length | reflexivity].
Qed.

(** ** Tables that lack a key *)

Lemma has_column_same (c : string) (df df' : pd.DataFrame) :
  (In c (pd.columns df') <-> In c (pd.columns df)) ->
  pd.has_column c df' = pd.has_column c df.
Proof.
  intros H. destruct (pd.has_column c df) eqn:E.
  - apply has_column_In. apply H. now apply has_column_In.
  - apply has_column_not_In. rewrite H. now apply has_column_not_In.
Qed.

Lemma merge_key_error (on : string) (left right : pd.DataFrame) (e : py.exn) :
  pd.merge left right on = inl e ->
  py.type_name e = "KeyError" ->
  e = py.KeyError on
  /\ (pd.has_column on left = false \/ pd.has_column on right = false).
Proof.
  unfold pd.merge.
  destruct (pd.has_column on left) eqn:Hl; destruct (pd.has_column on right) eqn:Hr;
    simpl; try (intros H _; injection H as <-; auto).
  destruct (pd.merged_columns on (pd.columns left) (pd.columns right)) as [lcols rcols].
  destruct (_ ++ _); [discriminate |].
  intros H. injection H as <-. discriminate.
Qed.

(** The first join raises [KeyError('department_id')] exactly when the
    employees table has no [department_id] column or the departments table
    has neither [id] nor [department_id]; nothing else in the first stage
    raises that error. *)
Theorem first_join_key_error (lib : pd.Library) (employees_df departments_df : pd.DataFrame) :
  employee_counts lib employees_df departments_df = inl (py.KeyError "department_id")
  <-> (pd.has_column "department_id" employees_df = false
       \/ (pd.has_column "id" departments_df = false
           /\ pd.has_column "department_id" departments_df = false)).
Proof.
  assert (He : pd.has_column "department_id" (normalize_employees employees_df)
               = pd.has_column "department_id" employees_df).
  { apply has_column_same. apply normalize_employees_In; discriminate. }
  pose proof (normalize_departments_key departments_df) as Hd.
  unfold employee_counts. split.
  - destruct (pd.merge _ _ _) as [e | edf] eqn:Hm.
    + intros H. injection H as ->.
      apply merge_key_error in Hm as [_ [Hm | Hm]]; [| | reflexivity].
      * left. congruence.
      * right. rewrite Hd in Hm. now apply orb_false_iff in Hm.
    + unfold count_departments, pd.column.
      destruct (pd.has_column "department_name" edf); simpl; [discriminate |].
      intros H. vm_compute in H. discriminate H.
  - intros H. unfold pd.merge. rewrite He, Hd.
    destruct H as [-> | [-> ->]]; [reflexivity |]. simpl. now rewrite andb_false_r.
Qed.

Lemma count_projects_missing_key (lib : pd.Library) (projects_df emp_dept_df : pd.DataFrame) :
  pd.has_column "employee_id" projects_df = false
  \/ pd.has_column "employee_id" emp_dept_df = false ->
  count_projects lib projects_df emp_dept_df = inl (py.KeyError "employee_id").
Proof.
  intros H. unfold count_projects, pd.merge.
  destruct H as [-> | ->]; [reflexivity |]. now rewrite andb_false_r.
Qed.

(** The second stage raises [KeyError('employee_id')] exactly when the
    project-assignment table or the employee-department view has no
    [employee_id] column. *)
Theorem second_join_key_error (lib : pd.Library) (projects_df emp_dept_df : pd.DataFrame) :
  count_projects lib projects_df emp_dept_df = inl (py.KeyError "employee_id")
  <-> (pd.has_column "employee_id" projects_df = false
       \/ pd.has_column "employee_id" emp_dept_df = false).
Proof.
  unfold count_projects. split.
  - destruct (pd.merge _ _ _) as [e | full_df] eqn:Hm.
    + intros H. injection H as ->.
      now apply merge_key_error in Hm as [_ Hm].
    + destruct (pd.fillna lib _ _ full_df) as [e | filled] eqn:Hf.
      * unfold pd.fillna in Hf.
        destruct (pd.has_column "department_name" full_df);
          [destruct (pd.copy_on_write lib); discriminate |].
        injection Hf as <-. intros H. vm_compute in H. discriminate H.
      * destruct (pd.column _ filled) as [e | names] eqn:Hc; [| discriminate].
        unfold pd.column in Hc.
        destruct (pd.has_column "department_name" filled); [discriminate |].
        injection Hc as <-. intros H. vm_compute in H. discriminate H.
  - apply count_projects_missing_key.
Qed.

(** An employees table without [id] and without [employee_id] gets through
    the first stage (the first join does not need that key), and the
    second stage then fails on the missing key, whatever the projects
    are, unless the departments table happens to have such a column. *)
Theorem employees_without_identifier (lib : pd.Library)
    (employees_df departments_df projects_df emp_dept_df : pd.DataFrame)
    (dept_counts : pd.Series) :
  pd.has_column "id" employees_df = false ->
  pd.has_column "employee_id" employees_df = false ->
  pd.has_column "employee_id" departments_df = false ->
  employee_counts lib employees_df departments_df = inr (emp_dept_df, dept_counts) ->
  transform lib employees_df departments_df projects_df = inl (py.KeyError "employee_id").
Proof.
  intros Hid He Hd Hok. unfold transform. rewrite Hok.
  replace (count_projects lib projects_df emp_dept_df) with
    (@inl py.exn pd.Series (py.KeyError "employee_id")); [reflexivity |].
  symmetry. apply count_projects_missing_key. right.
  apply employee_counts_inr in Hok as [Hm _].
  apply has_column_not_In.
  assert (Hx : forall c', c' +:+ "_x" <> "employee_id").
  { intros c H.
    do 13 (try (destruct c as [|? c]; simpl in H;
                [discriminate H | first [discriminate H | injection H as _ H]])). }
  assert (Hy : forall c', c' +:+ "_y" <> "employee_id").
  { intros c H.
    do 13 (try (destruct c as [|? c]; simpl in H;
                [discriminate H | first [discriminate H | injection H as _ H]])). }
  apply (merge_absent "department_id" "employee_id"
           (normalize_employees employees_df) (normalize_departments departments_df));
    auto.
  - unfold normalize_employees. rewrite Hid. simpl. now apply has_column_not_In.
  - rewrite normalize_departments_In by discriminate. now apply has_column_not_In.
Qed.

Lemma employees_without_identifier_witness :
  transform sharing_pandas (table ["department_id"] [[pd.VInt 10]]) scenario_departments scenario_projects
  = inl (py.KeyError "employee_id").
Proof.
  apply (employees_without_identifier sharing_pandas
           (table ["department_id"] [[pd.VInt 10]]) scenario_departments scenario_projects
           (table ["department_id"; "department_name"] [[pd.VInt 10; pd.VStr "Eng"]])
           [(pd.VStr "Eng", 1)]);
    reflexivity.
Defined.

(** ** Tables that carry [department_name] themselves *)

(** When the employees table and the departments table both have a
    [department_name] column, the join suffixes both, and the guard of
    step 6 raises although department names are there. *)
Theorem department_name_on_both_sides (lib : pd.Library)
    (employees_df departments_df emp_dept_df : pd.DataFrame) :
  pd.has_column "department_name" employees_df = true ->
  pd.has_column "department_name" departments_df = true ->
  pd.merge (normalize_employees employees_df) (normalize_departments departments_df)
           "department_id" = inr emp_dept_df ->
  pd.has_column "department_name_x" emp_dept_df = true
  /\ pd.has_column "department_name_y" emp_dept_df = true
  /\ employee_counts lib employees_df departments_df = inl department_name_not_found.
Proof.
  intros He Hd Hm.
  apply has_column_In in He, Hd.
  apply (normalize_employees_In employees_df "department_name") in He; try discriminate.
  apply (normalize_departments_In departments_df "department_name") in Hd; try discriminate.
  assert (Ho : pd.overlaps "department_id"
                 (pd.columns (normalize_employees employees_df))
                 (pd.columns (normalize_departments departments_df))
                 "department_name" = true).
  { unfold pd.overlaps. apply existsb_eqb_In in He, Hd. now rewrite He, Hd. }
  destruct (merge_inr _ _ _ _ Hm) as (_ & _ & Hcols & _).
  split; [| split].
  - apply has_column_In. rewrite Hcols. apply in_or_app. left.
    apply in_map_iff. exists "department_name". split; [| exact He].
    unfold pd.suffixed. now rewrite Ho.
  - apply has_column_In. rewrite Hcols. apply in_or_app. right.
    apply in_map_iff. exists "department_name". split.
    + unfold pd.suffixed. now rewrite Ho.
    + apply filter_In. split; [exact Hd | reflexivity].
  - unfold employee_counts. rewrite Hm. unfold count_departments.
    replace (pd.has_column "department_name" emp_dept_df) with false; [reflexivity |].
    symmetry. apply has_column_not_In.
    apply (merge_overlap_absent "department_id" "department_name"
             (normalize_employees employees_df) (normalize_departments departments_df));
      auto using suffix_x_ne, suffix_y_ne.
Qed.

Lemma department_name_on_both_sides_witness :
  employee_counts sharing_pandas employees_with_names scenario_departments
  = inl department_name_not_found.
Proof.
  destruct (department_name_on_both_sides sharing_pandas
              employees_with_names scenario_departments
              (table ["employee_id"; "department_id"; "department_name_x";
                      "department_name_y"]
                 [[pd.VInt 1; pd.VInt 10; pd.VStr "Eng"; pd.VStr "Eng"]])
              eq_refl eq_refl eq_refl) as (_ & _ & H).
  exact H.
Defined.

(** When the project-assignment table has a [department_name] column of
    its own next to the one of the employee-department view, the fill of
    step 7 finds no [department_name] column and raises
    [KeyError('department_name')]. *)
Theorem project_department_name_collides (lib : pd.Library)
    (projects_df emp_dept_df full_df : pd.DataFrame) :
  pd.has_column "department_name" projects_df = true ->
  pd.has_column "department_name" emp_dept_df = true ->
  pd.merge projects_df emp_dept_df "employee_id" = inr full_df ->
  count_projects lib projects_df emp_dept_df = inl (py.KeyError "department_name").
Proof.
  intros Hp He Hm. unfold count_projects. rewrite Hm. unfold pd.fillna.
  replace (pd.has_column "department_name" full_df) with false; [reflexivity |].
  symmetry. apply has_column_not_In.
  apply has_column_In in Hp, He.
  apply (merge_overlap_absent "employee_id" "department_name" projects_df emp_dept_df);
    auto using suffix_x_ne, suffix_y_ne.
Qed.

Lemma project_department_name_collides_witness :
  count_projects sharing_pandas projects_with_names
    (table ["employee_id"; "department_id"; "department_name"]
       [[pd.VInt 1; pd.VInt 10; pd.VStr "Eng"]])
  = inl (py.KeyError "department_name").
Proof.
  apply (project_department_name_collides sharing_pandas projects_with_names
           (table ["employee_id"; "department_id"; "department_name"]
              [[pd.VInt 1; pd.VInt 10; pd.VStr "Eng"]])
           (table ["id"; "employee_id"; "department_name_x"; "department_id";
                   "department_name_y"]
              [[pd.VInt 100; pd.VInt 1; pd.VStr "Eng"; pd.VInt 10; pd.VStr "Eng"]]));
    reflexivity.
Defined.

Lemma first_join_key_error_witness :
  employee_counts sharing_pandas one_employee departments_only_named = inl (py.KeyError "department_id").
Proof.
  apply (proj2 (first_join_key_error sharing_pandas one_employee departments_only_named)).
  right. split; reflexivity.
Defined.

Lemma second_join_key_error_witness :
  count_projects sharing_pandas projects_without_key
    (table ["employee_id"; "department_name"] [[pd.VInt 1; pd.VStr "Eng"]])
  = inl (py.KeyError "employee_id").
Proof.
  apply (proj2 (second_join_key_error sharing_pandas projects_without_key
                  (table ["employee_id"; "department_name"] [[pd.VInt 1; pd.VStr "Eng"]]))).
  left. reflexivity.
Defined.

(** ** What the aggregations count *)

Lemma count_of_absent (v : pd.value) (s : pd.Series) :
  ~ In v (pd.labels s) -> count_of v s = 0.
Proof.
  unfold count_of, pd.labels. induction s as [|[u n] s IH]; simpl; [reflexivity |].
  intros H. destruct (pd.value_eqb u v) eqn:E.
  - apply value_eqb_eq in E. tauto.
  - apply IH. tauto.
Qed.

Lemma count_of_unique (v : pd.value) (n : nat) (s : pd.Series) :
  List.NoDup (pd.labels s) -> In (v, n) s -> count_of v s = n.
Proof.
  induction s as [|[u m] s IH]; simpl; [tauto |].
  intros Hnd Hin. apply List.NoDup_cons_iff in Hnd as [Hu Hnd].
  change (count_of v ((u, m) :: s)) with (count_of v ([(u, m)] ++ s)).
  rewrite count_of_app. destruct Hin as [Hin | Hin].
  - injection Hin as -> ->. rewrite (count_of_absent v s Hu).
    unfold count_of. simpl. rewrite value_eqb_refl. simpl. lia.
  - rewrite (IH Hnd Hin). unfold count_of. simpl.
    destruct (pd.value_eqb u v) eqn:E; [| reflexivity].
    apply value_eqb_eq in E. subst u. exfalso. apply Hu.
    change v with (fst (v, n)). now apply in_map.
Qed.

Lemma occurrences_pos (v : pd.value) (vs : list pd.value) :
  In v vs <-> 0 < occurrences v vs.
Proof.
  unfold occurrences. induction vs as [|u vs IH]; simpl; [split; [tauto | lia] |].
  destruct (pd.value_eqb v u) eqn:E; simpl.
  - apply value_eqb_eq in E. split; [lia | auto].
  - apply value_eqb_neq in E. rewrite <- IH. split; [| auto].
    intros [H | H]; [congruence | exact H].
Qed.

Lemma labels_value_counts (lib : pd.Library) (v : pd.value) (vs : list pd.value) :
  pd.admissible lib ->
  In v (pd.labels (pd.value_counts lib vs)) <-> In v vs /\ v <> pd.NA.
Proof.
  intros Hlib. rewrite <- labels_tally_in. split; intros H.
  - eapply Permutation_in; [| exact H].
    symmetry. apply labels_perm, value_counts_perm, Hlib.
  - eapply Permutation_in; [| exact H]. apply labels_perm, value_counts_perm, Hlib.
Qed.

Lemma value_counts_nodup (lib : pd.Library) (vs : list pd.value) :
  pd.admissible lib ->
  List.NoDup (pd.labels (pd.value_counts lib vs)).
Proof.
  intros Hlib.
  eapply Permutation.Permutation_NoDup;
    [apply labels_perm, value_counts_perm, Hlib | apply labels_tally_nodup].
Qed.

(** The entries of [value_counts]: one per value that occurs and is not
    missing, with the number of its occurrences. *)
Lemma value_counts_entries (lib : pd.Library) (vs : list pd.value) (v : pd.value) (n : nat) :
  pd.admissible lib ->
  In (v, n) (pd.value_counts lib vs)
  <-> In v vs /\ v <> pd.NA /\ n = occurrences v vs.
Proof.
  intros Hlib. split.
  - intros H.
    assert (Hl : In v (pd.labels (pd.value_counts lib vs)))
      by (change v with (fst (v, n)); now apply in_map).
    apply labels_value_counts in Hl as [Hin Hna]; [| exact Hlib].
    repeat split; auto.
    rewrite <- (count_of_value_counts lib v vs Hlib Hna).
    symmetry. apply count_of_unique; [now apply value_counts_nodup | exact H].
  - intros (Hin & Hna & ->).
    assert (Hl : In v (pd.labels (pd.value_counts lib vs)))
      by (now apply labels_value_counts).
    apply in_map_iff in Hl as ([u m] & Hu & Hm). simpl in Hu. subst u.
    replace (occurrences v vs) with m; [exact Hm |].
    rewrite <- (count_of_value_counts lib v vs Hlib Hna).
    symmetry. apply count_of_unique; [now apply value_counts_nodup | exact Hm].
Qed.

(** Each department name that occurs in the joined table gets exactly one
    entry of the employee-count aggregation, holding the number of joined
    rows with that name; a missing name gets none, and no entry is
    empty. *)
Theorem department_counts_entries (lib : pd.Library)
    (emp_dept_df : pd.DataFrame) (names : list pd.value) (dept_counts : pd.Series) :
  pd.admissible lib ->
  pd.column "department_name" emp_dept_df = inr names ->
  count_departments lib emp_dept_df = inr dept_counts ->
  List.NoDup (pd.labels dept_counts)
  /\ (forall v n, In (v, n) dept_counts
                  <-> In v names /\ v <> pd.NA /\ n = occurrences v names)
  /\ (forall v n, In (v, n) dept_counts -> 0 < n).
Proof.
  intros Hlib Hcol Hc. apply count_departments_inr in Hc as (names' & Hcol' & ->).
  rewrite Hcol in Hcol'. injection Hcol' as <-.
  split; [now apply value_counts_nodup |].
  split; [intros v n; now apply value_counts_entries |].
  intros v n H. apply value_counts_entries in H as (Hin & _ & ->); [| exact Hlib].
  now apply occurrences_pos.
Qed.

Lemma department_counts_entries_witness :
  In (pd.VStr "Eng", 2) [(pd.VStr "Sales", 2); (pd.VStr "Eng", 2); (pd.VStr "Ops", 1)]
  <-> In (pd.VStr "Eng")
         [pd.VStr "Sales"; pd.VStr "Eng"; pd.VStr "Ops"; pd.VStr "Eng"; pd.VStr "Sales"]
      /\ pd.VStr "Eng" <> pd.NA
      /\ 2 = occurrences (pd.VStr "Eng")
               [pd.VStr "Sales"; pd.VStr "Eng"; pd.VStr "Ops"; pd.VStr "Eng"; pd.VStr "Sales"].
Proof.
  destruct (department_counts_entries sharing_pandas tied_view
              [pd.VStr "Sales"; pd.VStr "Eng"; pd.VStr "Ops"; pd.VStr "Eng"; pd.VStr "Sales"]
              [(pd.VStr "Sales", 2); (pd.VStr "Eng", 2); (pd.VStr "Ops", 1)]
              sharing_pandas_admissible eq_refl eq_refl) as (_ & Hentries & _).
  apply Hentries.
Defined.

Lemma merge_len_ge (on : string) (left right df : pd.DataFrame) :
  pd.merge left right on = inr df -> pd.len left <= pd.len df.
Proof.
  intros Hm. destruct (merge_inr on left right df Hm) as (_ & _ & _ & Hrows).
  unfold pd.len. rewrite Hrows. clear Hrows Hm.
  induction (pd.rows left) as [|l ls IH]; simpl; [lia |].
  rewrite length_app, join_row_length. lia.
Qed.

Lemma notna_and_missing (vs : list pd.value) :
  length (List.filter pd.notna vs) + occurrences pd.NA vs = length vs.
Proof.
  unfold occurrences. induction vs as [|v vs IH]; [reflexivity |].
  destruct v; simpl; lia.
Qed.

(** The project-count aggregation, whatever the tables, with a pandas in
    which the in-place fill of step 7 reaches the frame (no
    copy-on-write): the fill leaves no row out, so the counts add up to
    the number of rows of the second join, which is at least the number of
    project-assignment rows; the entries are the names after the fill with
    their numbers of occurrences, and they stand by decreasing count. *)
Theorem project_counts_entries (lib : pd.Library)
    (employees_df departments_df projects_df emp_dept_df full_df : pd.DataFrame)
    (dept_counts project_dept_counts : pd.Series) (names : list pd.value) :
  pd.admissible lib ->
  pd.copy_on_write lib = false ->
  pd.well_formed employees_df = true ->
  pd.well_formed departments_df = true ->
  pd.well_formed projects_df = true ->
  employee_counts lib employees_df departments_df = inr (emp_dept_df, dept_counts) ->
  pd.merge projects_df emp_dept_df "employee_id" = inr full_df ->
  pd.column "department_name" full_df = inr names ->
  count_projects lib projects_df emp_dept_df = inr project_dept_counts ->
  pd.total project_dept_counts = pd.len full_df
  /\ pd.len projects_df <= pd.total project_dept_counts
  /\ (forall v n, In (v, n) project_dept_counts
                  <-> In v (map fill_unknown names) /\ n = occurrences v (map fill_unknown names))
  /\ StronglySorted (fun p q => snd q <= snd p) project_dept_counts.
Proof.
  intros Hlib Hcow Hwe Hwd Hwp Hok Hm Hcol Hpc.
  apply well_formed_rectangular in Hwe, Hwd, Hwp.
  apply employee_counts_inr in Hok as [Hm1 _].
  assert (Hrect : rectangular emp_dept_df).
  { apply (merge_rectangular "department_id" _ _ _
             (normalize_employees_rectangular _ Hwe)
             (normalize_departments_rectangular _ Hwd) Hm1). }
  destruct (count_projects_inr _ _ _ _ Hwp Hrect Hpc) as (full' & Hm' & _ & ->).
  rewrite Hm in Hm'. injection Hm' as <-.
  rewrite (counted_name_filled lib _ Hcow).
  apply column_inr in Hcol as [_ ->].
  assert (Htotal : pd.total (pd.value_counts lib
                     (map fill_unknown
                        (map (pd.cell "department_name" (pd.columns full_df))
                             (pd.rows full_df))))
                   = pd.len full_df).
  { rewrite (total_value_counts lib _ Hlib), filter_notna_fill, !length_map. reflexivity. }
  split; [exact Htotal |]. split.
  { rewrite Htotal. apply (merge_len_ge "employee_id" projects_df emp_dept_df). exact Hm. }
  split; [| now apply value_counts_sorted].
  intros v n. rewrite (value_counts_entries lib _ _ _ Hlib). split.
  - tauto.
  - intros [Hin ->]. repeat split; auto.
    apply in_map_iff in Hin as (u & <- & _). now destruct u.
Qed.

Lemma project_counts_entries_witness :
  pd.total [(pd.VStr "Eng", 1); (pd.VStr "Sales", 1); (pd.VStr "Unknown", 1)]
  = 3
  /\ pd.len scenario_projects <= 3.
Proof.
  destruct (project_counts_entries sharing_pandas
              scenario_employees scenario_departments scenario_projects
              (table ["employee_id"; "department_id"; "department_name"]
                 [[pd.VInt 1; pd.VInt 10; pd.VStr "Eng"];
                  [pd.VInt 2; pd.VInt 10; pd.VStr "Eng"];
                  [pd.VInt 3; pd.VInt 20; pd.VStr "Sales"]])
              (table ["id"; "employee_id"; "department_id"; "department_name"]
                 [[pd.VInt 100; pd.VInt 1; pd.VInt 10; pd.VStr "Eng"];
                  [pd.VInt 101; pd.VInt 3; pd.VInt 20; pd.VStr "Sales"];
                  [pd.VInt 102; pd.VInt 99; pd.NA; pd.NA]])
              [(pd.VStr "Eng", 2); (pd.VStr "Sales", 1)]
              [(pd.VStr "Eng", 1); (pd.VStr "Sales", 1); (pd.VStr "Unknown", 1)]
              [pd.VStr "Eng"; pd.VStr "Sales"; pd.NA]
              sharing_pandas_admissible eq_refl
              eq_refl eq_refl eq_refl eq_refl eq_refl eq_refl eq_refl)
    as (Htotal & Hge & _).
  split; [exact Htotal | exact Hge].
Defined.

(** With copy-on-write (pandas 3.0 on) the fill of step 7 acts on a copy
    of the column and is lost: the rows of the second join without a
    department name are left out of the project counts instead of being
    counted under [Unknown], and the [Unknown] entry counts only the
    departments that bear this name. *)
Theorem fill_lost_under_copy_on_write (lib : pd.Library)
    (employees_df departments_df projects_df emp_dept_df full_df : pd.DataFrame)
    (dept_counts project_dept_counts : pd.Series) (names : list pd.value) :
  pd.admissible lib ->
  pd.copy_on_write lib = true ->
  pd.well_formed employees_df = true ->
  pd.well_formed departments_df = true ->
  pd.well_formed projects_df = true ->
  employee_counts lib employees_df departments_df = inr (emp_dept_df, dept_counts) ->
  pd.merge projects_df emp_dept_df "employee_id" = inr full_df ->
  pd.column "department_name" full_df = inr names ->
  count_projects lib projects_df emp_dept_df = inr project_dept_counts ->
  pd.total project_dept_counts + occurrences pd.NA names = pd.len full_df
  /\ count_of (pd.VStr "Unknown") project_dept_counts
     = occurrences (pd.VStr "Unknown") names
  /\ (forall v n, In (v, n) project_dept_counts
                  <-> In v names /\ v <> pd.NA /\ n = occurrences v names).
Proof.
  intros Hlib Hcow Hwe Hwd Hwp Hok Hm Hcol Hpc.
  apply well_formed_rectangular in Hwe, Hwd, Hwp.
  apply employee_counts_inr in Hok as [Hm1 _].
  assert (Hrect : rectangular emp_dept_df).
  { apply (merge_rectangular "department_id" _ _ _
             (normalize_employees_rectangular _ Hwe)
             (normalize_departments_rectangular _ Hwd) Hm1). }
  destruct (count_projects_inr _ _ _ _ Hwp Hrect Hpc) as (full' & Hm' & _ & ->).
  rewrite Hm in Hm'. injection Hm' as <-.
  rewrite (counted_name_as_is lib _ Hcow).
  apply column_inr in Hcol as [_ ->].
  split; [| split].
  - rewrite (total_value_counts lib _ Hlib), notna_and_missing.
    unfold pd.len. now rewrite length_map.
  - now apply count_of_value_counts.
  - intros v n. now apply value_counts_entries.
Qed.

Lemma fill_lost_under_copy_on_write_witness :
  pd.total [(pd.VStr "Eng", 1); (pd.VStr "Sales", 1)]
    + occurrences pd.NA [pd.VStr "Eng"; pd.VStr "Sales"; pd.NA]
  = 3
  /\ count_of (pd.VStr "Unknown") [(pd.VStr "Eng", 1); (pd.VStr "Sales", 1)] = 0.
Proof.
  destruct (fill_lost_under_copy_on_write copying_pandas
              scenario_employees scenario_departments scenario_projects
              (table ["employee_id"; "department_id"; "department_name"]
                 [[pd.VInt 1; pd.VInt 10; pd.VStr "Eng"];
                  [pd.VInt 2; pd.VInt 10; pd.VStr "Eng"];
                  [pd.VInt 3; pd.VInt 20; pd.VStr "Sales"]])
              (table ["id"; "employee_id"; "department_id"; "department_name"]
                 [[pd.VInt 100; pd.VInt 1; pd.VInt 10; pd.VStr "Eng"];
                  [pd.VInt 101; pd.VInt 3; pd.VInt 20; pd.VStr "Sales"];
                  [pd.VInt 102; pd.VInt 99; pd.NA; pd.NA]])
              [(pd.VStr "Eng", 2); (pd.VStr "Sales", 1)]
              [(pd.VStr "Eng", 1); (pd.VStr "Sales", 1)]
              [pd.VStr "Eng"; pd.VStr "Sales"; pd.NA]
              copying_pandas_admissible eq_refl
              eq_refl eq_refl eq_refl eq_refl eq_refl eq_refl eq_refl)
    as (Htotal & Hunknown & _).
  split; [exact Htotal | exact Hunknown].
Defined.

(** ** What a run reports and what it leaves *)

Lemma create_visualizations_returns_witness :
  exists b s',
    create_visualizations
      (serving scenario_employees scenario_departments_as_written scenario_projects)
      (fresh true)
    = (inr b, s').
Proof.
  apply (create_visualizations_returns
           (serving scenario_employees scenario_departments_as_written scenario_projects)
           (fresh true)).
  right. reflexivity.
Defined.

(** The [try] body returns nothing but [True]. *)
Lemma visualize_true (env : Env) (dir : os.path) (s s1 : State) (b : bool) :
  visualize env dir s = (inr b, s1) -> b = true.
Proof.
  intros H. destruct (visualize_plan env dir) as (pl & Hrun & _).
  specialize (Hrun s). rewrite H in Hrun. cbn [fst snd] in Hrun.
  unfold carry_out in Hrun. destruct pl as [e | g1 next]; [discriminate |].
  destruct (os.write_file _ g1 (fs s)) as [e | fs1]; [discriminate |].
  destruct next as [e | g2]; [discriminate |].
  destruct (os.write_file _ g2 fs1) as [e | fs2]; [discriminate |].
  now injection Hrun as ->.
Qed.

(** The shape of a run that gets past the directory: the [try] body is run
    once, in a state that differs from the initial one at most by the new
    directory; if it raises, the handler prints the report and the result
    is [False]; if it returns, the result is [True]; in both cases the
    closing line is printed last, and nothing else is changed. *)
Lemma create_visualizations_shape (env : Env) (s s' : State) (r : py.exn + bool) :
  create_visualizations env s = (r, s') ->
  (exists e, r = inl e /\ s' = s
             /\ os.path_exists (static_dir env) (fs s) = false
             /\ os.makedirs (static_dir env) (fs s) = inl e)
  \/ (exists fs0 r1 s1,
        (if os.path_exists (static_dir env) (fs s)
         then inr (fs s) else os.makedirs (static_dir env) (fs s)) = inr fs0
        /\ visualize env (static_dir env)
             {| stdout := stdout s; fs := fs0; figures := figures s |} = (r1, s1)
        /\ fs s' = fs s1 /\ figures s' = figures s1
        /\ match r1 with
           | inl e => r = inr false
                      /\ stdout s' = stdout s1 ++ report_lines e ++ [finished]
           | inr _ => r = inr true /\ stdout s' = stdout s1 ++ [finished]
           end).
Proof.
  destruct s as [out fs0 g0]. cbn [fs stdout figures].
  unfold create_visualizations. fold (static_dir env). step.
  destruct (os.path_exists (static_dir env) fs0) eqn:Hex; cbn [negb]; step.
  - destruct (visualize env (static_dir env) _) as [[e | b] s1] eqn:Hv.
    + rewrite report_run. step. intros H. injection H as <- <-. right.
      exists fs0, (inl e), s1. cbn [fs stdout figures].
      repeat split; auto. unfold finished. now rewrite <- app_assoc.
    + intros H. injection H as <- <-. right.
      exists fs0, (inr b), s1. cbn [fs stdout figures].
      apply visualize_true in Hv as Hb. subst b. repeat split; auto.
  - destruct (os.makedirs (static_dir env) fs0) as [e | fs1] eqn:Hmk; step.
    + intros H. injection H as <- <-. left. exists e. auto.
    + destruct (visualize env (static_dir env) _) as [[e | b] s1] eqn:Hv.
      * rewrite report_run. step. intros H. injection H as <- <-. right.
        exists fs1, (inl e), s1. cbn [fs stdout figures].
        repeat split; auto. unfold finished. now rewrite <- app_assoc.
      * intros H. injection H as <- <-. right.
        exists fs1, (inr b), s1. cbn [fs stdout figures].
        apply visualize_true in Hv as Hb. subst b. repeat split; auto.
Qed.

(** [False] is returned exactly when the [try] body raised: the report of
    the caught exception, with its type and its message, is then the last
    thing printed before the closing line.  [True] is returned only when
    the body ran to its end.  Either way the closing line of the [finally]
    block is the last line. *)
Theorem result_tells_what_happened (env : Env) (s s' : State) (success : bool) :
  create_visualizations env s = (inr success, s') ->
  (exists before, stdout s' = before ++ [finished])
  /\ (success = false ->
      exists e s0 s1 ,
        visualize env (static_dir env) s0 = (inl e, s1)
        /\ stdout s' = stdout s1 ++ report_lines e ++ [finished])
  /\ (success = true ->
      exists s0 s1,
        visualize env (static_dir env) s0 = (inr true, s1)
        /\ stdout s' = stdout s1 ++ [finished]).
Proof.
  intros H. apply create_visualizations_shape in H as [(e & H & _) | H]; [discriminate |].
  destruct H as (fs0 & r1 & s1 & _ & Hv & _ & _ & Hr).
  destruct r1 as [e | b]; destruct Hr as [Hr Hout]; injection Hr as ->.
  - split; [| split].
    + exists (stdout s1 ++ report_lines e). now rewrite <- app_assoc.
    + intros _. eauto.
    + discriminate.
  - split; [| split].
    + eauto.
    + discriminate.
    + intros _. apply visualize_true in Hv as Hb. subst b. eauto.
Qed.

Lemma result_tells_what_happened_witness :
  exists before,
    stdout (snd (create_visualizations unreachable (fresh true)))
    = before ++ [finished].
Proof.
  destruct (result_tells_what_happened unreachable (fresh true)
              (snd (create_visualizations unreachable (fresh true))) false)
    as (Hlast & _).
  - vm_compute. reflexivity.
  - exact Hlast.
Defined.

Lemma create_visualizations_true_charts (env : Env) (s s' : State) :
  create_visualizations env s = (inr true, s') ->
  exists employees_df departments_df projects_df dept_counts project_dept_counts,
    read_sql env "SELECT * FROM employees" = inr employees_df
    /\ read_sql env "SELECT * FROM departments" = inr departments_df
    /\ read_sql env "SELECT * FROM project_assignments" = inr projects_df
    /\ transform (pandas env) employees_df departments_df projects_df
       = inr (dept_counts, project_dept_counts)
    /\ saved_chart env plot1_name s' = Some (bar_chart dept_counts)
    /\ saved_chart env plot2_name s' = Some (pie_chart project_dept_counts).
Proof.
  intros H. destruct (create_visualizations_plan env) as (pl & Hrun & Hok).
  specialize (Hrun s). rewrite H in Hrun. cbn [fst snd] in Hrun. symmetry in Hrun.
  apply carry_out_guarded_true in Hrun as (g1 & g2 & Hpl & Hp1 & Hp2).
  destruct (Hok g1 g2 Hpl) as (e & d & p & dc & pc & He & Hd & Hp & Ht & -> & ->).
  exists e, d, p, dc, pc. unfold saved_chart. rewrite Hp1, Hp2. auto 10.
Qed.

(** What a response of the route [/] tells: a 200 carries the page of the
    template and is given only after both image files were written, with
    the counts of the tables the database served in this very request; a
    500 carries the fixed error page and is given only after an exception
    was caught and reported on standard output.  There is no other
    response. *)
Theorem response_tells_outcome (env : Env) (s s' : State) (resp : flask.response) :
  index env s = (inr resp, s') ->
  (flask.status resp = 200
   /\ flask.body resp = flask.index_html index_context
   /\ exists employees_df departments_df projects_df dept_counts project_dept_counts,
        read_sql env "SELECT * FROM employees" = inr employees_df
        /\ read_sql env "SELECT * FROM departments" = inr departments_df
        /\ read_sql env "SELECT * FROM project_assignments" = inr projects_df
        /\ transform (pandas env) employees_df departments_df projects_df
           = inr (dept_counts, project_dept_counts)
        /\ saved_chart env plot1_name s' = Some (bar_chart dept_counts)
        /\ saved_chart env plot2_name s' = Some (pie_chart project_dept_counts))
  \/ (flask.status resp = 500
      /\ flask.body resp = error_page
      /\ exists e before, stdout s' = before ++ report_lines e ++ [finished]).
Proof.
  unfold index. cbv [mbind M_bind].
  destruct (create_visualizations env s) as [[e | b] s1] eqn:Hcv; [discriminate |].
  destruct b.
  - intros H. assert (Hr : resp = {| flask.body := flask.index_html index_context;
                                     flask.status := 200 |} /\ s' = s1).
    { cbv [flask.render_template mret M_ret] in H.
      change (String.eqb "index.html" "index.html") with true in H.
      cbv beta iota in H. injection H as <- <-. auto. }
    destruct Hr as [-> ->]. left. split; [reflexivity |]. split; [reflexivity |].
    exact (create_visualizations_true_charts env s s1 Hcv).
  - intros H. cbv [mret M_ret] in H. injection H as <- <-. right.
    split; [reflexivity |]. split; [reflexivity |].
    apply create_visualizations_shape in Hcv as [(e & He & _) | Hcv]; [discriminate |].
    destruct Hcv as (fs0 & r1 & s2 & _ & _ & _ & _ & Hr).
    destruct r1 as [e | b]; destruct Hr as [Hr Hout]; [| discriminate].
    eauto.
Qed.

Lemma response_tells_outcome_witness :
  flask.status
    {| flask.body := flask.index_html index_context; flask.status := 200 |} = 200
  \/ flask.status
       {| flask.body := flask.index_html index_context; flask.status := 200 |} = 500.
Proof.
  destruct (response_tells_outcome
              (serving scenario_employees scenario_departments scenario_projects)
              (fresh true)
              (snd (index (serving scenario_employees scenario_departments scenario_projects)
                          (fresh true)))
              {| flask.body := flask.index_html index_context; flask.status := 200 |})
    as [(H & _) | (H & _)].
  - vm_compute. reflexivity.
  - left. exact H.
  - right. exact H.
Defined.

(** The route has no handler of its own: when the static directory is
    missing and cannot be made, the exception of [os.makedirs] passes
    through [create_visualizations] and through [index], and no response is
    built. *)
Theorem index_raises (env : Env) (s : State) :
  os.path_exists (static_dir env) (fs s) = false ->
  os.writable (fs s) = false ->
  index env s = (inl (os.PermissionError (static_dir env)), s).
Proof.
  destruct s as [out fs0 g0]. cbn [fs]. intros Hex Hw.
  unfold index, create_visualizations. fold (static_dir env). step.
  rewrite Hex. cbn [negb]. unfold os.makedirs. rewrite Hw. reflexivity.
Qed.

Lemma index_raises_witness :
  index unreachable (fresh false)
  = (inl (os.PermissionError ["srv"; "dashboard"; "static"]), fresh false).
Proof. apply (index_raises unreachable (fresh false)); reflexivity. Defined.

(** ** Files *)

Lemma write_file_frame (p q : os.path) (g : figure) (fs fs' : os.FileSystem figure) :
  os.write_file p g fs = inr fs' ->
  os.writable fs' = os.writable fs
  /\ os.nodes fs' !! p = Some (os.File g)
  /\ (q <> p -> os.nodes fs' !! q = os.nodes fs !! q).
Proof.
  unfold os.write_file.
  destruct (os.nodes fs !! os.dirname p) as [[| c] |]; try discriminate.
  destruct (os.nodes fs !! p) as [[| c] |]; try discriminate;
    destruct (os.writable fs); try discriminate;
    intros H; injection H as <-; simpl;
    (split; [reflexivity |]; split; [apply lookup_insert_eq |];
     intros Hq; apply lookup_insert_ne; congruence).
Qed.

Lemma makedirs_frame (p q : os.path) (fs fs' : os.FileSystem figure) :
  os.makedirs p fs = inr fs' ->
  os.writable fs' = os.writable fs
  /\ os.nodes fs' !! p = Some os.Dir
  /\ (q <> p -> os.nodes fs' !! q = os.nodes fs !! q).
Proof.
  unfold os.makedirs. destruct (os.writable fs) eqn:Hw; [| discriminate].
  intros H. injection H as <-. simpl.
  split; [reflexivity |]. split; [apply lookup_insert_eq |].
  intros Hq. apply lookup_insert_ne. congruence.
Qed.

Lemma carry_out_frame (dir q : os.path) (pl : plan) (fs : os.FileSystem figure) :
  os.writable (snd (carry_out dir pl fs)) = os.writable fs
  /\ (q <> os.path_join dir plot1_name -> q <> os.path_join dir plot2_name ->
      os.nodes (snd (carry_out dir pl fs)) !! q = os.nodes fs !! q)
  /\ (is_Some (os.nodes fs !! q) -> is_Some (os.nodes (snd (carry_out dir pl fs)) !! q)).
Proof.
  destruct pl as [e | g1 next]; simpl; [auto |].
  destruct (os.write_file _ g1 fs) as [e | fs1] eqn:W1; simpl; [auto |].
  destruct (write_file_frame _ q _ _ _ W1) as (Hw1 & Hp1 & Hq1).
  assert (Hkeep1 : is_Some (os.nodes fs !! q) -> is_Some (os.nodes fs1 !! q)).
  { intros Hs. destruct (decide (q = os.path_join dir plot1_name)) as [-> | Hne].
    - rewrite Hp1. eauto.
    - now rewrite Hq1. }
  destruct next as [e | g2]; simpl; [auto |].
  destruct (os.write_file _ g2 fs1) as [e | fs2] eqn:W2; simpl; [auto |].
  destruct (write_file_frame _ q _ _ _ W2) as (Hw2 & Hp2 & Hq2).
  split; [congruence |]. split.
  - intros H1 H2. rewrite Hq2, Hq1; auto.
  - intros Hs. destruct (decide (q = os.path_join dir plot2_name)) as [-> | Hne].
    + rewrite Hp2. eauto.
    + rewrite Hq2 by exact Hne. auto.
Qed.

(** A run, however it ends, touches nothing but the static directory and
    the two image files: every other path holds what it held, the
    permissions are as they were, and nothing that existed is removed. *)
Theorem other_paths_untouched
    (env : Env) (s s' : State) (r : py.exn + bool) (q : os.path) :
  create_visualizations env s = (r, s') ->
  os.writable (fs s') = os.writable (fs s)
  /\ (q <> static_dir env ->
      q <> os.path_join (static_dir env) plot1_name ->
      q <> os.path_join (static_dir env) plot2_name ->
      os.nodes (fs s') !! q = os.nodes (fs s) !! q)
  /\ (is_Some (os.nodes (fs s) !! q) -> is_Some (os.nodes (fs s') !! q)).
Proof.
  intros H. destruct (create_visualizations_plan env) as (pl & Hrun & _).
  specialize (Hrun s). rewrite H in Hrun. cbn [fst snd] in Hrun.
  assert (Hfs : fs s' = snd (carry_out_guarded (static_dir env) pl (fs s)))
    by (now rewrite <- Hrun).
  rewrite Hfs. clear Hrun Hfs H. unfold carry_out_guarded.
  destruct (os.path_exists (static_dir env) (fs s)) eqn:Hex.
  - destruct (carry_out_frame (static_dir env) q pl (fs s)) as (Hw & Hq & Hk).
    destruct (carry_out _ pl (fs s)) as [[e | b] fs1]; simpl in *; auto.
  - destruct (os.makedirs (static_dir env) (fs s)) as [e | fs0] eqn:Hmk; simpl; [auto |].
    destruct (makedirs_frame _ q _ _ Hmk) as (Hw0 & Hd0 & Hq0).
    destruct (carry_out_frame (static_dir env) q pl fs0) as (Hw & Hq & Hk).
    assert (Hk0 : is_Some (os.nodes (fs s) !! q) -> is_Some (os.nodes fs0 !! q)).
    { intros Hs. destruct (decide (q = static_dir env)) as [-> | Hne].
      - rewrite Hd0. eauto.
      - now rewrite Hq0. }
    destruct (carry_out _ pl fs0) as [[e | b] fs1]; simpl in *.
    + split; [congruence |]. split; [| auto].
      intros H0 H1 H2. rewrite Hq, Hq0; auto.
    + split; [congruence |]. split; [| auto].
      intros H0 H1 H2. rewrite Hq, Hq0; auto.
Qed.

Lemma other_paths_untouched_witness :
  os.nodes (fs (snd (create_visualizations
                       (serving scenario_employees scenario_departments scenario_projects)
                       with_notes)))
    !! ["srv"; "notes.txt"]
  = Some (os.File blank_figure).
Proof.
  destruct (other_paths_untouched
              (serving scenario_employees scenario_departments scenario_projects)
              with_notes
              (snd (create_visualizations
                      (serving scenario_employees scenario_departments scenario_projects)
                      with_notes))
              (inr true) ["srv"; "notes.txt"]) as (_ & Hsame & _).
  - vm_compute. reflexivity.
  - etransitivity; [apply Hsame; discriminate | reflexivity].
Defined.

(** ** The open figures *)

(** When the [try] body returns, it has closed the figures it opened. *)
Lemma visualize_keeps_figures (env : Env) (dir : os.path) (s s1 : State) (b : bool) :
  visualize env dir s = (inr b, s1) -> figures s1 = figures s.
Proof.
  destruct s as [out fs0 g0]. cbn [figures].
  destruct (create_engine env connection_string) as [x | []] eqn:HE.
  { unfold visualize. run. discriminate. }
  destruct (read_sql env "SELECT * FROM employees") as [x | e] eqn:H1.
  { unfold visualize. run. discriminate. }
  destruct (read_sql env "SELECT * FROM departments") as [x | d] eqn:H2.
  { unfold visualize. run. discriminate. }
  destruct (read_sql env "SELECT * FROM project_assignments") as [x | p] eqn:H3.
  { unfold visualize. run. discriminate. }
  destruct (pd.merge (normalize_employees e) (normalize_departments d) "department_id")
    as [x | edf] eqn:HM.
  { unfold visualize. run. discriminate. }
  destruct (style_use env "seaborn-v0_8-talk") as [x |] eqn:HS.
  { unfold visualize. run. discriminate. }
  destruct (count_departments (pandas env) edf) as [x | dc] eqn:HC.
  { unfold visualize. run. discriminate. }
  destruct (plot_bar env dc) as [x |] eqn:HB.
  { unfold visualize. run. discriminate. }
  destruct (count_projects (pandas env) p edf) as [x | pc] eqn:HC2.
  { unfold visualize. run. write_cases; discriminate. }
  destruct (plot_pie env pc) as [x |] eqn:HP.
  { unfold visualize. run. write_cases; discriminate. }
  unfold visualize. run. write_cases; [discriminate |]. write_cases; [discriminate |].
  intros H. injection H as _ <-. reflexivity.
Qed.

(** A run that returns [True] has closed the two figures it opened, and
    only these: the figures open afterwards are the ones that were open
    before, so that a figure which an earlier run failed to close stays
    open. *)
Theorem success_closes_figures (env : Env) (s s' : State) :
  create_visualizations env s = (inr true, s') -> figures s' = figures s.
Proof.
  intros H. apply create_visualizations_shape in H as [(e & H & _) | H]; [discriminate |].
  destruct H as (fs0 & r1 & s1 & _ & Hv & _ & Hg & Hr).
  destruct r1 as [e | b]; [now destruct Hr |].
  rewrite Hg. now apply visualize_keeps_figures in Hv.
Qed.

Lemma success_closes_figures_witness :
  figures (snd (create_visualizations
                  (serving scenario_employees scenario_departments scenario_projects)
                  with_open_figure))
  = [bar_chart [(pd.VStr "Eng", 1)]].
Proof.
  apply (success_closes_figures
           (serving scenario_employees scenario_departments scenario_projects)
           with_open_figure).
  vm_compute. reflexivity.
Defined.

(** [plt.close()] stands after [plt.savefig] inside the [try] block, not in
    the [finally] block: when the first image cannot be written, the
    function returns [False] and the bar chart stays open as pyplot's
    current figure; the file system is as it was. *)
Theorem failed_savefig_leaves_figure_open
    (env : Env) (s : State) (employees_df departments_df projects_df emp_dept_df : pd.DataFrame)
    (dept_counts : pd.Series) (err : py.exn) :
  os.path_exists (static_dir env) (fs s) = true ->
  create_engine env connection_string = inr tt ->
  read_sql env "SELECT * FROM employees" = inr employees_df ->
  read_sql env "SELECT * FROM departments" = inr departments_df ->
  read_sql env "SELECT * FROM project_assignments" = inr projects_df ->
  pd.merge (normalize_employees employees_df) (normalize_departments departments_df)
           "department_id" = inr emp_dept_df ->
  style_use env "seaborn-v0_8-talk" = None ->
  count_departments (pandas env) emp_dept_df = inr dept_counts ->
  plot_bar env dept_counts = None ->
  os.write_file (os.path_join (static_dir env) plot1_name) (bar_chart dept_counts) (fs s)
  = inl err ->
  exists s' before,
    create_visualizations env s = (inr false, s')
    /\ gcf s' = Some (bar_chart dept_counts)
    /\ fs s' = fs s
    /\ stdout s' = before ++ report_lines err ++ [finished].
Proof.
  destruct s as [out fs0 g0]. cbn [fs].
  intros Hex HE H1 H2 H3 HM HS HC HB HW. unfold bar_chart in HW.
  unfold create_visualizations. fold (static_dir env). step.
  rewrite Hex. cbn [negb]. unfold visualize. run.
  rewrite report_run. step.
  eexists. eexists. split; [reflexivity |]. split; [reflexivity |].
  split; [reflexivity |]. unfold finished. rewrite <- app_assoc. reflexivity.
Qed.

Lemma failed_savefig_leaves_figure_open_witness :
  exists s' before,
    create_visualizations
      (serving scenario_employees scenario_departments scenario_projects) static_is_file
    = (inr false, s')
    /\ gcf s' = Some (bar_chart [(pd.VStr "Eng", 2); (pd.VStr "Sales", 1)])
    /\ fs s' = fs static_is_file
    /\ stdout s'
       = before
           ++ report_lines
                (os.NotADirectoryError
                   ["srv"; "dashboard"; "static"; "employees_per_department.png"])
           ++ [finished].
Proof.
  apply (failed_savefig_leaves_figure_open
           (serving scenario_employees scenario_departments scenario_projects)
           static_is_file
           scenario_employees scenario_departments scenario_projects
           (table ["employee_id"; "department_id"; "department_name"]
              [[pd.VInt 1; pd.VInt 10; pd.VStr "Eng"];
               [pd.VInt 2; pd.VInt 10; pd.VStr "Eng"];
               [pd.VInt 3; pd.VInt 20; pd.VStr "Sales"]]));
    reflexivity.
Defined.

(** ** A failure after the first chart *)

(** The first image is written before the second join is attempted: when
    the second stage fails, the function returns [False], the first image
    file holds the new bar chart, and the second image file is what it
    was before the request. *)
Theorem first_chart_survives_second_stage_failure
    (env : Env) (s : State) (employees_df departments_df projects_df emp_dept_df : pd.DataFrame)
    (dept_counts : pd.Series) (fs1 : os.FileSystem figure) (err : py.exn) :
  create_engine env connection_string = inr tt ->
  read_sql env "SELECT * FROM employees" = inr employees_df ->
  read_sql env "SELECT * FROM departments" = inr departments_df ->
  read_sql env "SELECT * FROM project_assignments" = inr projects_df ->
  pd.merge (normalize_employees employees_df) (normalize_departments departments_df)
           "department_id" = inr emp_dept_df ->
  style_use env "seaborn-v0_8-talk" = None ->
  count_departments (pandas env) emp_dept_df = inr dept_counts ->
  plot_bar env dept_counts = None ->
  os.write_file (os.path_join (static_dir env) plot1_name) (bar_chart dept_counts) (fs s)
  = inr fs1 ->
  count_projects (pandas env) projects_df emp_dept_df = inl err ->
  exists s' before,
    create_visualizations env s = (inr false, s')
    /\ saved_chart env plot1_name s' = Some (bar_chart dept_counts)
    /\ os.nodes (fs s') !! os.path_join (static_dir env) plot2_name
       = os.nodes (fs s) !! os.path_join (static_dir env) plot2_name
    /\ stdout s' = before ++ report_lines err ++ [finished].
Proof.
  destruct s as [out fs0 g0]. cbn [fs].
  intros HE H1 H2 H3 HM HS HC HB HW HC2.
  pose proof (write_file_inr _ _ _ _ _ HW) as (_ & Hdir & _).
  assert (Hex : os.path_exists (static_dir env) fs0 = true)
    by (unfold os.path_exists; now rewrite Hdir).
  destruct (write_file_frame _ (os.path_join (static_dir env) plot2_name) _ _ _ HW)
    as (_ & Hp1 & Hp2).
  unfold bar_chart in HW.
  unfold create_visualizations. fold (static_dir env). step.
  rewrite Hex. cbn [negb]. unfold visualize. run.
  rewrite report_run. step.
  eexists. eexists. split; [reflexivity |]. unfold saved_chart. cbn [fs stdout].
  split; [now rewrite Hp1 |]. split.
  - apply Hp2. intros H. symmetry in H. revert H. apply plot_paths_differ.
  - unfold finished. rewrite <- app_assoc. reflexivity.
Qed.

Lemma first_chart_survives_second_stage_failure_witness :
  exists s' before,
    create_visualizations
      (serving scenario_employees scenario_departments projects_without_key) ready
    = (inr false, s')
    /\ saved_chart (serving scenario_employees scenario_departments projects_without_key)
         plot1_name s'
       = Some (bar_chart [(pd.VStr "Eng", 2); (pd.VStr "Sales", 1)])
    /\ os.nodes (fs s') !! ["srv"; "dashboard"; "static"; "projects_by_department.png"]
       = None
    /\ stdout s' = before ++ report_lines (py.KeyError "employee_id") ++ [finished].
Proof.
  assert (HW : os.write_file
                 (os.path_join
                    (static_dir
                       (serving scenario_employees scenario_departments projects_without_key))
                    plot1_name)
                 (bar_chart [(pd.VStr "Eng", 2); (pd.VStr "Sales", 1)])
                 (fs ready)
               = inr {| os.nodes :=
                          <[ ["srv"; "dashboard"; "static"; "employees_per_department.png"]
                             := os.File (bar_chart [(pd.VStr "Eng", 2); (pd.VStr "Sales", 1)]) ]>
                            (os.nodes (fs ready));
                        os.writable := true |}).
  { vm_compute. reflexivity. }
  destruct (first_chart_survives_second_stage_failure
              (serving scenario_employees scenario_departments projects_without_key)
              ready
              scenario_employees scenario_departments projects_without_key
              (table ["employee_id"; "department_id"; "department_name"]
                 [[pd.VInt 1; pd.VInt 10; pd.VStr "Eng"];
                  [pd.VInt 2; pd.VInt 10; pd.VStr "Eng"];
                  [pd.VInt 3; pd.VInt 20; pd.VStr "Sales"]])
              [(pd.VStr "Eng", 2); (pd.VStr "Sales", 1)]
              _ (py.KeyError "employee_id")
              eq_refl eq_refl eq_refl eq_refl eq_refl eq_refl eq_refl eq_refl HW eq_refl)
    as (s' & before & Hcv & Hp1 & Hp2 & Hout).
  exists s', before. split; [exact Hcv |]. split; [exact Hp1 |]. split; [| exact Hout].
  etransitivity; [exact Hp2 | reflexivity].
Defined.

(** ** A database that does not answer *)

(** SQLAlchemy's engine is created without a connection being opened, and
    the program prints its success line right after: when the first query
    fails, the log says that the connection succeeded and then reports the
    error of the query; the function returns [False] and no image file is
    touched. *)
Theorem first_query_failure
    (env : Env) (s : State) (err : py.exn) :
  os.path_exists (static_dir env) (fs s) = true \/ os.writable (fs s) = true ->
  create_engine env connection_string = inr tt ->
  read_sql env "SELECT * FROM employees" = inl err ->
  exists s',
    create_visualizations env s = (inr false, s')
    /\ stdout s'
       = stdout s
           ++ ["Connecting to the database using SQLAlchemy...";
               "Connection successful.";
               "Fetching data from tables..."]
           ++ report_lines err ++ [finished]
    /\ (forall name, saved_chart env name s' = saved_chart env name s).
Proof.
  destruct s as [out fs0 g0]. cbn [fs stdout].
  intros Hdir HE H1.
  unfold create_visualizations. fold (static_dir env). step.
  destruct (os.path_exists (static_dir env) fs0) eqn:Hex; cbn [negb]; step.
  - unfold visualize. run. rewrite report_run. step.
    eexists. split; [reflexivity |]. cbn [stdout]. split.
    + unfold finished. now rewrite <- !app_assoc.
    + reflexivity.
  - destruct Hdir as [Hdir | Hdir]; [discriminate |].
    unfold os.makedirs. rewrite Hdir. step.
    unfold visualize. run. rewrite report_run. step.
    eexists. split; [reflexivity |]. cbn [stdout]. split.
    + unfold finished. now rewrite <- !app_assoc.
    + intros name. unfold saved_chart. cbn [fs os.nodes].
      rewrite lookup_insert_ne; [reflexivity |].
      intros H. symmetry in H. revert H. apply path_join_ne.
Qed.

Lemma first_query_failure_witness :
  exists s',
    create_visualizations unreachable (fresh true) = (inr false, s')
    /\ stdout s'
       = stdout (fresh true)
           ++ ["Connecting to the database using SQLAlchemy...";
               "Connection successful.";
               "Fetching data from tables..."]
           ++ report_lines
                (py.Exn "OperationalError" "Can't connect to MySQL server on 'localhost'")
           ++ [finished]
    /\ (forall name, saved_chart unreachable name s' = saved_chart unreachable name (fresh true)).
Proof.
  apply (first_query_failure unreachable (fresh true)).
  - right. reflexivity.
  - reflexivity.
  - reflexivity.
Defined.

(** ** The [Unknown] bucket *)

Lemma occurrences_fill_exact (vs : list pd.value) :
  occurrences (pd.VStr "Unknown") (map fill_unknown vs)
  = occurrences pd.NA vs + occurrences (pd.VStr "Unknown") vs.
Proof.
  unfold occurrences. induction vs as [|v vs IH]; [reflexivity |].
  cbn [map List.filter].
  destruct v as [| z | s]; cbn [fill_unknown pd.isna].
  - rewrite !value_eqb_refl.
    change (pd.value_eqb (pd.VStr "Unknown") pd.NA) with false.
    cbn [length]. lia.
  - change (pd.value_eqb pd.NA (pd.VInt z)) with false.
    destruct (pd.value_eqb _ _); cbn [length]; lia.
  - change (pd.value_eqb pd.NA (pd.VStr s)) with false.
    destruct (pd.value_eqb _ _); cbn [length]; lia.
Qed.

(** With a pandas in which the in-place fill of step 7 reaches the frame
    (no copy-on-write), the [Unknown] entry of the project-count
    aggregation counts the rows of the second join without a department
    name together with the rows whose department is itself named
    "Unknown": the two cannot be told apart in the chart. *)
Theorem unknown_bucket (lib : pd.Library)
    (employees_df departments_df projects_df emp_dept_df full_df : pd.DataFrame)
    (dept_counts project_dept_counts : pd.Series) (names : list pd.value) :
  pd.admissible lib ->
  pd.copy_on_write lib = false ->
  pd.well_formed employees_df = true ->
  pd.well_formed departments_df = true ->
  pd.well_formed projects_df = true ->
  employee_counts lib employees_df departments_df = inr (emp_dept_df, dept_counts) ->
  pd.merge projects_df emp_dept_df "employee_id" = inr full_df ->
  pd.column "department_name" full_df = inr names ->
  count_projects lib projects_df emp_dept_df = inr project_dept_counts ->
  count_of (pd.VStr "Unknown") project_dept_counts
  = occurrences pd.NA names + occurrences (pd.VStr "Unknown") names.
Proof.
  intros Hlib Hcow Hwe Hwd Hwp Hok Hm Hcol Hpc.
  apply well_formed_rectangular in Hwe, Hwd, Hwp.
  apply employee_counts_inr in Hok as [Hm1 _].
  assert (Hrect : rectangular emp_dept_df).
  { apply (merge_rectangular "department_id" _ _ _
             (normalize_employees_rectangular _ Hwe)
             (normalize_departments_rectangular _ Hwd) Hm1). }
  destruct (count_projects_inr _ _ _ _ Hwp Hrect Hpc) as (full' & Hm' & _ & ->).
  rewrite Hm in Hm'. injection Hm' as <-.
  rewrite (counted_name_filled lib _ Hcow).
  apply column_inr in Hcol as [_ ->].
  rewrite (count_of_value_counts lib _ _ Hlib) by discriminate.
  apply occurrences_fill_exact.
Qed.

Lemma unknown_bucket_witness :
  count_of (pd.VStr "Unknown") [(pd.VStr "Unknown", 2)] = 1 + 1.
Proof.
  apply (unknown_bucket sharing_pandas
           (table ["id"; "department_id"] [[pd.VInt 1; pd.VInt 10]])
           (table ["id"; "department_name"] [[pd.VInt 10; pd.VStr "Unknown"]])
           (table ["id"; "employee_id"] [[pd.VInt 100; pd.VInt 1]; [pd.VInt 101; pd.VInt 99]])
           (table ["employee_id"; "department_id"; "department_name"]
              [[pd.VInt 1; pd.VInt 10; pd.VStr "Unknown"]])
           (table ["id"; "employee_id"; "department_id"; "department_name"]
              [[pd.VInt 100; pd.VInt 1; pd.VInt 10; pd.VStr "Unknown"];
               [pd.VInt 101; pd.VInt 99; pd.NA; pd.NA]])
           [(pd.VStr "Unknown", 1)]
           [(pd.VStr "Unknown", 2)]
           [pd.VStr "Unknown"; pd.NA]
           sharing_pandas_admissible);
    reflexivity.
Defined.

(** ** When the function raises *)

(** The function raises exactly when the static directory is still missing
    when it ends: once the directory is there, whatever happens is turned
    into a boolean. *)
Theorem raises_iff_static_missing (env : Env) (s s' : State) (r : py.exn + bool) :
  create_visualizations env s = (r, s') ->
  ((exists e, r = inl e) <-> os.path_exists (static_dir env) (fs s') = false).
Proof.
  intros H. apply create_visualizations_shape in H as [(e & -> & -> & Hex & _) | H].
  - split; [intros _; exact Hex | eauto].
  - destruct H as (fs0 & r1 & s1 & Hens & Hv & Hfs & _ & Hr).
    assert (Hdir : is_Some (os.nodes fs0 !! static_dir env)).
    { destruct (os.path_exists (static_dir env) (fs s)) eqn:Hex.
      - injection Hens as <-. unfold os.path_exists in Hex.
        destruct (os.nodes (fs s) !! static_dir env); [eauto | discriminate].
      - destruct (makedirs_frame _ (static_dir env) _ _ Hens) as (_ & Hd & _).
        rewrite Hd. eauto. }
    assert (Hex' : os.path_exists (static_dir env) (fs s') = true).
    { destruct (visualize_plan env (static_dir env)) as (pl & Hrun & _).
      specialize (Hrun {| stdout := stdout s; fs := fs0; figures := figures s |}).
      rewrite Hv in Hrun. cbn [fst snd fs] in Hrun.
      destruct (carry_out_frame (static_dir env) (static_dir env) pl fs0) as (_ & _ & Hk).
      rewrite <- Hrun in Hk. cbn [snd] in Hk. specialize (Hk Hdir).
      rewrite Hfs. unfold os.path_exists.
      destruct (os.nodes (fs s1) !! static_dir env); [reflexivity |].
      now destruct Hk. }
    rewrite Hex'. split.
    + intros [e ->]. destruct r1; destruct Hr; discriminate.
    + discriminate.
Qed.

Lemma raises_iff_static_missing_witness :
  (exists e, fst (create_visualizations unreachable (fresh false)) = inl e)
  <-> os.path_exists (static_dir unreachable)
        (fs (snd (create_visualizations unreachable (fresh false)))) = false.
Proof.
  apply (raises_iff_static_missing unreachable (fresh false)).
  vm_compute. reflexivity.
Defined.

(** ** The log of a run *)

(** When the first join raises, the row counts of the three tables and the
    labels of the tables after the normalization have been printed, in
    this order, before the report of the error: the "Columns after
    cleaning" the report refers to are on the output. *)
Theorem join_failure_shows_columns
    (env : Env) (s : State) (employees_df departments_df projects_df : pd.DataFrame)
    (err : py.exn) :
  os.path_exists (static_dir env) (fs s) = true \/ os.writable (fs s) = true ->
  create_engine env connection_string = inr tt ->
  read_sql env "SELECT * FROM employees" = inr employees_df ->
  read_sql env "SELECT * FROM departments" = inr departments_df ->
  read_sql env "SELECT * FROM project_assignments" = inr projects_df ->
  pd.merge (normalize_employees employees_df) (normalize_departments departments_df)
           "department_id" = inl err ->
  exists s',
    create_visualizations env s = (inr false, s')
    /\ stdout s'
       = stdout s
           ++ ["Connecting to the database using SQLAlchemy...";
               "Connection successful.";
               "Fetching data from tables...";
               "Loaded " +:+ py.str_nat (pd.len employees_df) +:+ " employees, "
                 +:+ py.str_nat (pd.len departments_df) +:+ " departments, and "
                 +:+ py.str_nat (pd.len projects_df) +:+ " project assignments.";
               py.newline +:+ "--- Columns after cleaning ---";
               "Employees Columns: "
                 +:+ py.str_list (pd.columns (normalize_employees employees_df));
               "Departments Columns: "
                 +:+ py.str_list (pd.columns (normalize_departments departments_df));
               "Projects Columns: " +:+ py.str_list (pd.columns projects_df);
               "----------------------------" +:+ py.newline]
           ++ report_lines err ++ [finished].
Proof.
  destruct s as [out fs0 g0]. cbn [fs stdout].
  intros Hdir HE H1 H2 H3 HM.
  unfold create_visualizations. fold (static_dir env). step.
  destruct (os.path_exists (static_dir env) fs0) eqn:Hex; cbn [negb]; step.
  - unfold visualize. run. rewrite report_run. step.
    eexists. split; [reflexivity |]. cbn [stdout].
    unfold finished. now rewrite <- !app_assoc.
  - destruct Hdir as [Hdir | Hdir]; [discriminate |].
    unfold os.makedirs. rewrite Hdir. step.
    unfold visualize. run. rewrite report_run. step.
    eexists. split; [reflexivity |]. cbn [stdout].
    unfold finished. now rewrite <- !app_assoc.
Qed.

Lemma join_failure_shows_columns_witness :
  exists s',
    create_visualizations (serving one_employee departments_only_named one_project)
                          (fresh true)
    = (inr false, s')
    /\ In "Departments Columns: ['name']" (stdout s').
Proof.
  destruct (join_failure_shows_columns
              (serving one_employee departments_only_named one_project) (fresh true)
              one_employee departments_only_named one_project
              (py.KeyError "department_id")
              (or_intror eq_refl) eq_refl eq_refl eq_refl eq_refl eq_refl)
    as (s' & Hcv & Hout).
  exists s'. split; [exact Hcv |]. rewrite Hout.
  apply in_or_app. right. apply in_or_app. left.
  do 6 right. left. reflexivity.
Defined.

Lemma transform_inr (lib : pd.Library) (employees_df departments_df projects_df : pd.DataFrame)
    (dept_counts project_dept_counts : pd.Series) :
  transform lib employees_df departments_df projects_df
  = inr (dept_counts, project_dept_counts) ->
  exists emp_dept_df,
    pd.merge (normalize_employees employees_df) (normalize_departments departments_df)
             "department_id" = inr emp_dept_df
    /\ count_departments lib emp_dept_df = inr dept_counts
    /\ count_projects lib projects_df emp_dept_df = inr project_dept_counts.
Proof.
  unfold transform.
  destruct (employee_counts lib employees_df departments_df) as [e | [edf dc]] eqn:Hok;
    [discriminate |].
  destruct (count_projects lib projects_df edf) as [e | pc] eqn:Hpc; [discriminate |].
  intros H. injection H as <- <-.
  apply employee_counts_inr in Hok as [Hm Hc]. eauto.
Qed.

(** What suffices for a run to succeed: the static directory is a
    directory, the process may write, neither image path is a directory,
    the three tables load, [transform] yields both aggregations, and
    matplotlib accepts the style and draws both series.  The function then
    returns [True], both image files hold the charts of these aggregations,
    the open figures are those that were open before, and the log ends
    with the two "Saved plot" lines and the closing line. *)
Theorem successful_run
    (env : Env) (s : State) (employees_df departments_df projects_df : pd.DataFrame)
    (dept_counts project_dept_counts : pd.Series) :
  os.nodes (fs s) !! static_dir env = Some os.Dir ->
  os.writable (fs s) = true ->
  os.nodes (fs s) !! os.path_join (static_dir env) plot1_name <> Some os.Dir ->
  os.nodes (fs s) !! os.path_join (static_dir env) plot2_name <> Some os.Dir ->
  create_engine env connection_string = inr tt ->
  read_sql env "SELECT * FROM employees" = inr employees_df ->
  read_sql env "SELECT * FROM departments" = inr departments_df ->
  read_sql env "SELECT * FROM project_assignments" = inr projects_df ->
  transform (pandas env) employees_df departments_df projects_df
  = inr (dept_counts, project_dept_counts) ->
  style_use env "seaborn-v0_8-talk" = None ->
  plot_bar env dept_counts = None ->
  plot_pie env project_dept_counts = None ->
  exists s' before,
    create_visualizations env s = (inr true, s')
    /\ saved_chart env plot1_name s' = Some (bar_chart dept_counts)
    /\ saved_chart env plot2_name s' = Some (pie_chart project_dept_counts)
    /\ figures s' = figures s
    /\ stdout s'
       = before
           ++ ["Saved plot to "
                 +:+ os.path_str (os.path_join (static_dir env) plot1_name);
               "Creating Visualization 2: Project Distribution by Department...";
               "Saved plot to "
                 +:+ os.path_str (os.path_join (static_dir env) plot2_name);
               finished].
Proof.
  intros Hdir Hw Hp1 Hp2 HE H1 H2 H3 Ht HS HB HP.
  apply transform_inr in Ht as (edf & HM & HC & HC2).
  apply (run_succeeds env s (fs s) employees_df departments_df projects_df edf);
    auto.
  unfold os.path_exists. now rewrite Hdir.
Qed.

Lemma successful_run_witness :
  exists s' before,
    create_visualizations
      (serving scenario_employees scenario_departments scenario_projects) with_open_figure
    = (inr true, s')
    /\ saved_chart (serving scenario_employees scenario_departments scenario_projects)
         plot1_name s'
       = Some (bar_chart [(pd.VStr "Eng", 2); (pd.VStr "Sales", 1)])
    /\ saved_chart (serving scenario_employees scenario_departments scenario_projects)
         plot2_name s'
       = Some (pie_chart [(pd.VStr "Eng", 1); (pd.VStr "Sales", 1); (pd.VStr "Unknown", 1)])
    /\ figures s' = figures with_open_figure
    /\ stdout s'
       = before
           ++ ["Saved plot to /srv/dashboard/static/employees_per_department.png";
               "Creating Visualization 2: Project Distribution by Department...";
               "Saved plot to /srv/dashboard/static/projects_by_department.png";
               finished].
Proof.
  apply (successful_run
           (serving scenario_employees scenario_departments scenario_projects)
           with_open_figure
           scenario_employees scenario_departments scenario_projects);
    try reflexivity; vm_compute; discriminate.
Defined.

(** ** One row per employee *)

Lemma suffix_x_ne_employee_id (c : string) : c +:+ "_x" <> "employee_id".
Proof.
  intros H.
  do 13 (try (destruct c as [|? c]; simpl in H;
              [discriminate H | first [discriminate H | injection H as _ H]])).
Qed.

Lemma suffix_y_ne_employee_id (c : string) : c +:+ "_y" <> "employee_id".
Proof.
  intros H.
  do 13 (try (destruct c as [|? c]; simpl in H;
              [discriminate H | first [discriminate H | injection H as _ H]])).
Qed.

Lemma cell_app_l (c : string) (lcols rcols : list string) (l r : list pd.value) :
  In c lcols -> length l = length lcols ->
  pd.cell c (lcols ++ rcols) (l ++ r) = pd.cell c lcols l.
Proof.
  unfold pd.cell. revert l.
  induction lcols as [|x lcols IH]; intros [|v l] Hin Hlen; simpl in *;
    try tauto; try discriminate.
  destruct (String.eqb x c) eqn:E; [reflexivity |].
  apply IH; [| lia]. destruct Hin as [-> | Hin]; [| exact Hin].
  now rewrite String.eqb_refl in E.
Qed.

Lemma cell_map_labels (f : string -> string) (c : string) (cols : list string)
    (r : list pd.value) :
  (forall c', In c' cols -> (f c' = c <-> c' = c)) ->
  pd.cell c (map f cols) r = pd.cell c cols r.
Proof.
  unfold pd.cell. revert r.
  induction cols as [|x cols IH]; intros [|v r] Hf; simpl; try reflexivity.
  assert (Hx : f x = c <-> x = c) by (apply Hf; now left).
  assert (IH' := IH r (fun c' H => Hf c' (or_intror H))).
  destruct (String.eqb x c) eqn:E.
  - apply String.eqb_eq in E. apply Hx in E. now rewrite E, String.eqb_refl.
  - destruct (String.eqb (f x) c) eqn:E'; [| exact IH'].
    apply String.eqb_eq, Hx in E'. subst x. now rewrite String.eqb_refl in E.
Qed.

(** A column that only the left frame has, after the join: the cell of
    each left row, once per row the join makes of it. *)
Lemma merge_column_left (on c : string) (left right df : pd.DataFrame) :
  (forall c', c' +:+ "_x" <> c) ->
  rectangular left ->
  In c (pd.columns left) ->
  pd.overlaps on (pd.columns left) (pd.columns right) c = false ->
  pd.merge left right on = inr df ->
  pd.column c df
  = inr (flat_map
           (fun l => repeat (pd.cell c (pd.columns left) l)
                            (Nat.max 1 (length (matching on left right l))))
           (pd.rows left)).
Proof.
  intros Hx Hrect Hin Ho Hm.
  destruct (merge_inr on left right df Hm) as (_ & _ & Hcols & Hrows).
  assert (Hf : forall c', In c' (pd.columns left) ->
                 pd.suffixed on (pd.columns left) (pd.columns right) "_x" c' = c <-> c' = c).
  { intros c' _. rewrite suffixed_eq by exact Hx. tauto. }
  assert (Hin' : In c (map (pd.suffixed on (pd.columns left) (pd.columns right) "_x")
                           (pd.columns left))).
  { apply in_map_iff. exists c. split; [now apply Hf | exact Hin]. }
  unfold pd.column.
  replace (pd.has_column c df) with true.
  2:{ symmetry. apply has_column_In. rewrite Hcols. apply in_or_app. now left. }
  f_equal. rewrite Hcols, Hrows. clear Hrows Hm.
  unfold rectangular in Hrect.
  induction Hrect as [|l ls Hl _ IH]; simpl; [reflexivity |].
  rewrite map_app, IH. f_equal.
  unfold pd.join_row, matching.
  destruct (List.filter _ (pd.rows right)) as [|m ms]; simpl.
  - rewrite cell_app_l; [| exact Hin' | now rewrite length_map].
    now rewrite cell_map_labels.
  - rewrite !cell_app_l; try exact Hin'; try (now rewrite length_map).
    rewrite cell_map_labels by exact Hf. f_equal.
    induction ms as [|m' ms IHms]; simpl; [reflexivity |].
    rewrite cell_app_l; [| exact Hin' | now rewrite length_map].
    rewrite cell_map_labels by exact Hf. now f_equal.
Qed.

Lemma flat_map_repeat_once {A} (f : A -> pd.value) (n : A -> nat) (ls : list A) :
  (forall l, In l ls -> n l = 1) ->
  flat_map (fun l => repeat (f l) (n l)) ls = map f ls.
Proof.
  intros H. induction ls as [|l ls IH]; simpl; [reflexivity |].
  rewrite (H l (or_introl eq_refl)). simpl. f_equal.
  apply IH. intros l' Hl'. apply H. now right.
Qed.

(** With distinct department identifiers the employee-department view has
    the employee identifiers of the employees table, row for row. *)
Lemma view_employee_ids
    (employees_df departments_df emp_dept_df : pd.DataFrame)
    (ids employee_ids : list pd.value) :
  rectangular employees_df ->
  pd.column "department_id" (normalize_departments departments_df) = inr ids ->
  List.NoDup ids ->
  pd.column "employee_id" (normalize_employees employees_df) = inr employee_ids ->
  ~ In "employee_id" (pd.columns (normalize_departments departments_df)) ->
  pd.merge (normalize_employees employees_df) (normalize_departments departments_df)
           "department_id" = inr emp_dept_df ->
  pd.len emp_dept_df = pd.len employees_df
  /\ pd.column "employee_id" emp_dept_df = inr employee_ids.
Proof.
  intros Hrect Hids Hnd Heids Hd Hm.
  apply column_inr in Hids as [_ ->].
  assert (Hone : forall l, length (matching "department_id"
                                     (normalize_employees employees_df)
                                     (normalize_departments departments_df) l) <= 1).
  { intros l. unfold matching. now apply filter_key_unique. }
  split.
  - rewrite (merge_len "department_id" _ _ _ Hm).
    + unfold pd.len. now rewrite normalize_employees_rows.
    + apply List.Forall_forall. intros l _. apply Hone.
  - apply column_inr in Heids as [Hin ->].
    assert (Ho : pd.overlaps "department_id"
                   (pd.columns (normalize_employees employees_df))
                   (pd.columns (normalize_departments departments_df))
                   "employee_id" = false).
    { unfold pd.overlaps.
      destruct (existsb (String.eqb "employee_id")
                  (pd.columns (normalize_departments departments_df))) eqn:E.
      - apply existsb_eqb_In in E. tauto.
      - now rewrite andb_false_r. }
    rewrite (merge_column_left "department_id" "employee_id"
               (normalize_employees employees_df) (normalize_departments departments_df)
               emp_dept_df suffix_x_ne_employee_id
               (normalize_employees_rectangular _ Hrect) Hin Ho Hm).
    f_equal. apply flat_map_repeat_once. intros l _. specialize (Hone l). lia.
Qed.

(** With distinct department identifiers, the employee-department view has
    one row per employee, carrying that employee's identifier. *)
Theorem one_row_per_employee (lib : pd.Library)
    (employees_df departments_df emp_dept_df : pd.DataFrame) (dept_counts : pd.Series)
    (ids employee_ids : list pd.value) :
  pd.well_formed employees_df = true ->
  pd.column "department_id" (normalize_departments departments_df) = inr ids ->
  List.NoDup ids ->
  pd.column "employee_id" (normalize_employees employees_df) = inr employee_ids ->
  pd.has_column "employee_id" departments_df = false ->
  employee_counts lib employees_df departments_df = inr (emp_dept_df, dept_counts) ->
  pd.len emp_dept_df = pd.len employees_df
  /\ pd.column "employee_id" emp_dept_df = inr employee_ids.
Proof.
  intros Hwf Hids Hnd Heids Hd Hok.
  apply well_formed_rectangular in Hwf.
  apply employee_counts_inr in Hok as [Hm _].
  apply (view_employee_ids employees_df departments_df emp_dept_df ids); auto.
  rewrite normalize_departments_In by discriminate. now apply has_column_not_In.
Qed.

Lemma one_row_per_employee_witness :
  pd.len (table ["employee_id"; "department_id"; "department_name"]
            [[pd.VInt 1; pd.VInt 10; pd.VStr "Eng"];
             [pd.VInt 2; pd.VInt 10; pd.VStr "Eng"];
             [pd.VInt 3; pd.VInt 20; pd.VStr "Sales"]])
  = pd.len scenario_employees.
Proof.
  assert (Hnd : List.NoDup [pd.VInt 10; pd.VInt 20]).
  { repeat constructor; simpl; intuition discriminate. }
  destruct (one_row_per_employee sharing_pandas scenario_employees scenario_departments
              (table ["employee_id"; "department_id"; "department_name"]
                 [[pd.VInt 1; pd.VInt 10; pd.VStr "Eng"];
                  [pd.VInt 2; pd.VInt 10; pd.VStr "Eng"];
                  [pd.VInt 3; pd.VInt 20; pd.VStr "Sales"]])
              [(pd.VStr "Eng", 2); (pd.VStr "Sales", 1)]
              [pd.VInt 10; pd.VInt 20] [pd.VInt 1; pd.VInt 2; pd.VInt 3]
              eq_refl eq_refl Hnd eq_refl eq_refl eq_refl) as [Hlen _].
  exact Hlen.
Defined.

(** Stated on the tables themselves, with a pandas in which the in-place
    fill of step 7 reaches the frame (no copy-on-write): when no employee
    identifier and no department identifier occurs twice, the counts of the
    project-count aggregation add up to the number of project-assignment
    rows. *)
Theorem project_total_from_tables (lib : pd.Library)
    (employees_df departments_df projects_df : pd.DataFrame)
    (dept_counts project_dept_counts : pd.Series) (ids employee_ids : list pd.value) :
  pd.admissible lib ->
  pd.copy_on_write lib = false ->
  pd.well_formed employees_df = true ->
  pd.well_formed departments_df = true ->
  pd.well_formed projects_df = true ->
  pd.column "department_id" (normalize_departments departments_df) = inr ids ->
  List.NoDup ids ->
  pd.column "employee_id" (normalize_employees employees_df) = inr employee_ids ->
  List.NoDup employee_ids ->
  transform lib employees_df departments_df projects_df
  = inr (dept_counts, project_dept_counts) ->
  pd.total project_dept_counts = pd.len projects_df.
Proof.
  intros Hlib Hcow Hwe Hwd Hwp Hids Hnd Heids Hnde Ht.
  apply well_formed_rectangular in Hwe, Hwd, Hwp.
  apply transform_inr in Ht as (edf & Hm1 & _ & Hpc).
  assert (Hrect : rectangular edf).
  { apply (merge_rectangular "department_id" _ _ _
             (normalize_employees_rectangular _ Hwe)
             (normalize_departments_rectangular _ Hwd) Hm1). }
  destruct (count_projects_inr _ _ _ _ Hwp Hrect Hpc) as (full_df & Hm & _ & ->).
  rewrite (counted_name_filled lib _ Hcow).
  assert (Hkey : In "employee_id" (pd.columns edf)).
  { now destruct (merge_inr _ _ _ _ Hm) as (_ & Hk & _). }
  assert (Hd : ~ In "employee_id" (pd.columns (normalize_departments departments_df))).
  { intros Hd. revert Hkey.
    apply (merge_overlap_absent "department_id" "employee_id"
             (normalize_employees employees_df) (normalize_departments departments_df));
      auto using suffix_x_ne_employee_id, suffix_y_ne_employee_id.
    now apply column_inr in Heids as [Hin _]. }
  destruct (view_employee_ids _ _ _ _ _ Hwe Hids Hnd Heids Hd Hm1) as [_ Hcol].
  apply column_inr in Hcol as [_ Hcol]. rewrite Hcol in Hnde.
  rewrite (total_value_counts lib _ Hlib), filter_notna_fill, !length_map.
  apply (merge_len "employee_id" projects_df edf full_df Hm).
  apply List.Forall_forall. intros l _. unfold matching.
  now apply filter_key_unique.
Qed.

Lemma project_total_from_tables_witness :
  pd.total [(pd.VStr "Eng", 1); (pd.VStr "Sales", 1); (pd.VStr "Unknown", 1)]
  = pd.len scenario_projects.
Proof.
  assert (Hnd : List.NoDup [pd.VInt 10; pd.VInt 20]).
  { repeat constructor; simpl; intuition discriminate. }
  assert (Hnde : List.NoDup [pd.VInt 1; pd.VInt 2; pd.VInt 3]).
  { repeat constructor; simpl; intuition discriminate. }
  apply (project_total_from_tables sharing_pandas
           scenario_employees scenario_departments scenario_projects
           [(pd.VStr "Eng", 2); (pd.VStr "Sales", 1)] _
           [pd.VInt 10; pd.VInt 20] [pd.VInt 1; pd.VInt 2; pd.VInt 3]
           sharing_pandas_admissible eq_refl
           eq_refl eq_refl eq_refl eq_refl Hnd eq_refl Hnde eq_refl).
Defined.

(** ** An empty employees table *)

(** With an employees table that has no rows the first join has no rows,
    the employee-count aggregation is empty, and the bar chart is asked of
    a series without entries.  Where matplotlib refuses it, as the bar
    plot of pandas does on such a series, the run returns [False]: the
    second stage is not reached, no file is written, and the blank figure
    opened for the chart stays open. *)
Theorem no_employees
    (env : Env) (s : State) (employees_df departments_df projects_df emp_dept_df : pd.DataFrame)
    (err : py.exn) :
  pd.admissible (pandas env) ->
  os.path_exists (static_dir env) (fs s) = true ->
  create_engine env connection_string = inr tt ->
  read_sql env "SELECT * FROM employees" = inr employees_df ->
  read_sql env "SELECT * FROM departments" = inr departments_df ->
  read_sql env "SELECT * FROM project_assignments" = inr projects_df ->
  pd.rows employees_df = [] ->
  pd.merge (normalize_employees employees_df) (normalize_departments departments_df)
           "department_id" = inr emp_dept_df ->
  style_use env "seaborn-v0_8-talk" = None ->
  pd.has_column "department_name" emp_dept_df = true ->
  plot_bar env [] = Some err ->
  count_departments (pandas env) emp_dept_df = inr []
  /\ exists s' before,
       create_visualizations env s = (inr false, s')
       /\ stdout s' = before ++ report_lines err ++ [finished]
       /\ fs s' = fs s
       /\ figures s' = blank_figure :: figures s.
Proof.
  destruct s as [out fs0 g0]. cbn [fs figures].
  intros Hlib Hex HE H1 H2 H3 Hrows HM HS Hname HB.
  assert (HC : count_departments (pandas env) emp_dept_df = inr []).
  { unfold count_departments, pd.column. rewrite Hname. cbn [negb].
    destruct (merge_inr _ _ _ _ HM) as (_ & _ & _ & Hrows1).
    rewrite normalize_employees_rows, Hrows in Hrows1. rewrite Hrows1.
    unfold pd.value_counts. cbn [map flat_map pd.tally fold_left].
    now rewrite sort_values_nil. }
  split; [exact HC |].
  unfold create_visualizations. fold (static_dir env). step.
  rewrite Hex. cbn [negb]. unfold visualize. run.
  rewrite report_run. step.
  eexists. eexists. split; [reflexivity |]. cbn [stdout fs figures].
  split; [| split; reflexivity].
  unfold finished. rewrite <- app_assoc. reflexivity.
Qed.

Lemma no_employees_witness :
  count_departments sharing_pandas
    (table ["employee_id"; "department_id"; "department_name"] [])
  = inr []
  /\ exists s' before,
       create_visualizations
         (refusing_empty (table ["id"; "department_id"] []) scenario_departments
                         scenario_projects)
         ready
       = (inr false, s')
       /\ stdout s'
          = before
              ++ report_lines
                   (py.Exn "IndexError" "index 0 is out of bounds for axis 0 with size 0")
              ++ [finished]
       /\ fs s' = fs ready
       /\ figures s' = blank_figure :: figures ready.
Proof.
  apply (no_employees
           (refusing_empty (table ["id"; "department_id"] []) scenario_departments
                           scenario_projects)
           ready
           (table ["id"; "department_id"] []) scenario_departments scenario_projects
           (table ["employee_id"; "department_id"; "department_name"] [])
           (py.Exn "IndexError" "index 0 is out of bounds for axis 0 with size 0")
           sharing_pandas_admissible);
    reflexivity.
Defined.
